(** * NeuroVision: frame buffer, segmentation engine and analysis orchestrator

    A shallow embedding of
      - [dashboard/backend/camera_service.py]   (CameraService, the bounded frame queue),
      - [src/vision/camera_vision_system.py]    (NeuroimagingSegmenter, ClaudeVisionAnalyzer),
      - [dashboard/backend/analysis_service.py] (AnalysisService),
    followed by the properties of the specification that concern them.

    Conventions.  Python [int] is [Z]; Python [float] (clock readings, scores)
    is the exact rational [Q], so rounding of IEEE doubles is not modelled;
    a [uint8] pixel is a [Z] in [0..255]; a [dict] is an association list in
    insertion order; code that may raise returns a [result]. *)

From Stdlib Require Import List ZArith QArith Qminmax Bool String Ascii Lia Arith.
From Stdlib Require Import Sorted Qround.
From Stdlib Require Import Reals Lra.
From Stdlib Require Lqa.
Import ListNotations.

Set Implicit Arguments.
Unset Strict Implicit.

Open Scope string_scope.
Open Scope list_scope.

Set Warnings "-register-all".

(* ------------------------------------------------------------------ *)
(** ** Python helpers *)

Module Py.

(** A computation that either returns or raises (exception type, message). *)
Inductive result (A : Type) : Type :=
| Ok (a : A)
| Raise (exc_type exc_msg : string).
Arguments Ok {A} a.
Arguments Raise {A} exc_type exc_msg.

Definition bind {A B} (r : result A) (k : A -> result B) : result B :=
  match r with
  | Ok a => k a
  | Raise t m => Raise t m
  end.

(** [d.get(k)] / [k in d] / [d[k] = v] on an insertion-ordered dict. *)
Fixpoint dict_get {V} (k : string) (d : list (string * V)) : option V :=
  match d with
  | [] => None
  | (k', v) :: r => if String.eqb k k' then Some v else dict_get k r
  end.

Definition dict_mem {V} (k : string) (d : list (string * V)) : bool :=
  match dict_get k d with Some _ => true | None => false end.

Fixpoint dict_set {V} (k : string) (v : V) (d : list (string * V))
  : list (string * V) :=
  match d with
  | [] => [(k, v)]
  | (k', v') :: r =>
      if String.eqb k k' then (k', v) :: r else (k', v') :: dict_set k v r
  end.

Definition keys {V} (d : list (string * V)) : list string := map fst d.

(** [int(q)] on a float: truncation toward zero. *)
Definition int_of_float (q : Q) : Z := Z.quot (Qnum q) (Zpos (Qden q)).

(** [s.lower()] on ASCII text. *)
Definition lower_ascii (c : ascii) : ascii :=
  let n := nat_of_ascii c in
  if ((65 <=? n) && (n <=? 90))%nat then ascii_of_nat (n + 32) else c.

Fixpoint lower (s : string) : string :=
  match s with
  | EmptyString => EmptyString
  | String c r => String (lower_ascii c) (lower r)
  end.

End Py.

Notation "x <- c1 ;; c2" := (Py.bind c1 (fun x => c2))
  (at level 61, c1 at next level, right associativity).

(* ------------------------------------------------------------------ *)
(** ** Images *)

Module Img.

(** A single-channel [uint8] array: rows of pixels. *)
Definition gray := list (list Z).
(** A three-channel BGR array. *)
Definition bgr := list (list (Z * Z * Z)).

(** [np.ndarray] as the services receive it: [len(frame.shape)] is 2 or 3. *)
Inductive ndarray : Type :=
| Gray (g : gray)
| BGR (c : bgr).

(** [a.shape[0]] and [a.shape[1]]. *)
Definition height {A} (a : list (list A)) : nat := List.length a.
Definition width {A} (a : list (list A)) : nat :=
  match a with [] => 0%nat | r :: _ => List.length r end.

(** The lengths of all rows: two arrays have the same shape when these agree. *)
Definition row_lengths {A} (a : list (list A)) : list nat := map (@List.length A) a.

Definition frame_height (f : ndarray) : nat :=
  match f with Gray g => height g | BGR c => height c end.
Definition frame_width (f : ndarray) : nat :=
  match f with Gray g => width g | BGR c => width c end.
Definition frame_rows (f : ndarray) : list nat :=
  match f with Gray g => row_lengths g | BGR c => row_lengths c end.

(** [np.full((h, w), v)]. *)
Definition const (h w : nat) (v : Z) : gray := repeat (repeat v w) h.

(** [np.zeros_like(a)]. *)
Definition zeros_like (a : gray) : gray := map (map (fun _ : Z => 0%Z)) a.

(** Every pixel is zero. *)
Definition all_zero (m : gray) : Prop := Forall (Forall (fun p => p = 0%Z)) m.

(** Every pixel is 0 or 255. *)
Definition binary (m : gray) : Prop :=
  forall p, In p (List.concat m) -> p = 0%Z \/ p = 255%Z.


End Img.

(* ------------------------------------------------------------------ *)
(** ** camera_service.py *)

Module CameraService.

Record CapturedFrame : Type := mkCaptured {
  frame_id : Z;
  timestamp : Q;
  raw_frame : Img.ndarray;
  width : nat;
  height : nat
}.

(** [queue.Queue]: [maxsize <= 0] means unbounded, as in the standard
    library ([full] is [0 < maxsize <= qsize]). *)
Record Queue : Type := mkQueue {
  maxsize : Z;
  items : list CapturedFrame
}.

Definition qsize (q : Queue) : Z := Z.of_nat (List.length (items q)).

Definition full (q : Queue) : bool :=
  (0 <? maxsize q)%Z && (maxsize q <=? qsize q)%Z.

(** [get_nowait]: [None] is the [Empty] exception. *)
Definition get_nowait (q : Queue) : option (CapturedFrame * Queue) :=
  match items q with
  | [] => None
  | x :: r => Some (x, mkQueue (maxsize q) r)
  end.

(** [put] (blocking): [None] when the queue is full, where the single
    producer would wait for a consumer. *)
Definition put (q : Queue) (x : CapturedFrame) : option Queue :=
  if full q then None else Some (mkQueue (maxsize q) (items q ++ [x])).

Definition QUEUE_MAX_SIZE : Z := 30.

(** The fields of [CameraService] that the capture loop touches. *)
Record state : Type := mkState {
  frame_queue : Queue;
  frame_count : Z;
  dropped_frames : Z
}.

(** [CameraService.__init__], with the queue capacity as a parameter. *)
Definition init_with (capacity : Z) : state :=
  mkState (mkQueue capacity []) 0 0.

Definition init : state := init_with QUEUE_MAX_SIZE.

(** One iteration of [_capture_loop] in which [cap.read()] succeeded with
    [frame] at clock time [now]. *)
Definition capture_step (s : state) (frame : Img.ndarray) (now : Q)
  : option state :=
  let frame_count' := (frame_count s + 1)%Z in
  let captured :=
    mkCaptured frame_count' now frame (Img.frame_width frame) (Img.frame_height frame) in
  let '(q1, dropped1) :=
    if full (frame_queue s) then
      match get_nowait (frame_queue s) with
      | Some (_, q') => (q', (dropped_frames s + 1)%Z)
      | None => (frame_queue s, dropped_frames s)
      end
    else (frame_queue s, dropped_frames s) in
  match put q1 captured with
  | Some q2 => Some (mkState q2 frame_count' dropped1)
  | None => None
  end.

(** Successive iterations of the loop over the frames the device delivers. *)
Fixpoint capture_loop (s : state) (frames : list (Img.ndarray * Q))
  : option state :=
  match frames with
  | [] => Some s
  | (f, now) :: rest =>
      match capture_step s f now with
      | Some s' => capture_loop s' rest
      | None => None
      end
  end.

(** [get_frame]: the next frame, or [None] after the timeout on an empty queue. *)
Definition get_frame (s : state) : option CapturedFrame * state :=
  match get_nowait (frame_queue s) with
  | Some (x, q') => (Some x, mkState q' (frame_count s) (dropped_frames s))
  | None => (None, s)
  end.

(** [get_latest_frame]: empties the queue and returns the last frame. *)
Definition get_latest_frame (s : state) : option CapturedFrame * state :=
  (last (map Some (items (frame_queue s))) None,
   mkState (mkQueue (maxsize (frame_queue s)) []) (frame_count s) (dropped_frames s)).

(** A consumer that calls [get_frame] until it returns [None]. *)
Fixpoint drain_fuel (fuel : nat) (s : state) : list CapturedFrame * state :=
  match fuel with
  | O => ([], s)
  | S k =>
      match get_frame s with
      | (Some x, s') => let '(l, s'') := drain_fuel k s' in (x :: l, s'')
      | (None, s') => ([], s')
      end
  end.

Definition drain (s : state) : list CapturedFrame * state :=
  drain_fuel (S (List.length (items (frame_queue s)))) s.

(** The buffer invariant. *)
Definition bounded (s : state) : Prop :=
  (qsize (frame_queue s) <= maxsize (frame_queue s))%Z.

(** What the threads sharing a service do to it, one step each: the capture
    thread pushes a frame it read; a consumer calls [get_frame] or
    [get_latest_frame]. *)
Inductive op : Type :=
| Capture (frame : Img.ndarray) (now : Q)
| GetFrame
| GetLatestFrame.

(** What the consumers have seen so far: the frames returned to them, in
    order, and the number of frames [get_latest_frame] took off the queue
    without returning them. *)
Record consumed : Type := mkConsumed {
  returned : list CapturedFrame;
  skipped : nat
}.

Definition perform (sc : state * consumed) (o : op) : option (state * consumed) :=
  let '(s, c) := sc in
  match o with
  | Capture frame now =>
      match capture_step s frame now with
      | Some s' => Some (s', c)
      | None => None
      end
  | GetFrame =>
      match get_frame s with
      | (Some x, s') => Some (s', mkConsumed (returned c ++ [x]) (skipped c))
      | (None, s') => Some (s', c)
      end
  | GetLatestFrame =>
      match get_latest_frame s with
      | (Some x, s') =>
          Some (s', mkConsumed (returned c ++ [x])
                     (skipped c + (List.length (items (frame_queue s)) - 1)))
      | (None, s') => Some (s', c)
      end
  end.

(** An interleaving of such steps; [None] when the capture thread would
    block in [put]. *)
Fixpoint perform_all (sc : state * consumed) (ops : list op) : option (state * consumed) :=
  match ops with
  | [] => Some sc
  | o :: rest =>
      match perform sc o with
      | Some sc' => perform_all sc' rest
      | None => None
      end
  end.


End CameraService.

(* ------------------------------------------------------------------ *)
(** ** The OpenCV primitives the segmenter calls *)

Module Cv2.
Import Img.

(** *** Pixel-wise primitives, as OpenCV documents them *)

(** [cv2.threshold(src, thresh, maxval, cv2.THRESH_BINARY)[1]]. *)
Definition threshold_binary (src : gray) (thresh maxval : Z) : gray :=
  map (map (fun p => if (thresh <? p)%Z then maxval else 0%Z)) src.

(** [cv2.threshold(src, thresh, maxval, cv2.THRESH_BINARY_INV)[1]]. *)
Definition threshold_binary_inv (src : gray) (thresh maxval : Z) : gray :=
  map (map (fun p => if (thresh <? p)%Z then 0%Z else maxval)) src.

(** [cv2.inRange(src, lowerb, upperb)]. *)
Definition inRange (src : gray) (lowerb upperb : Z) : gray :=
  map (map (fun p => if ((lowerb <=? p) && (p <=? upperb))%Z then 255%Z else 0%Z)) src.

Fixpoint zip_with {A B C} (f : A -> B -> C) (a : list A) (b : list B) : list C :=
  match a, b with
  | x :: a', y :: b' => f x y :: zip_with f a' b'
  | _, _ => []
  end.

(** [cv2.bitwise_and(a, b)]; the two arrays have the same shape wherever the
    segmenter calls it (OpenCV raises otherwise). *)
Definition bitwise_and (a b : gray) : gray := zip_with (zip_with Z.land) a b.

(** *** Neighbourhood and contour primitives, as an interface *)

Inductive morph_op : Type := MORPH_CLOSE | MORPH_OPEN.

(** A contour is its list of [(x, y)] vertices. *)
Definition contour : Type := list (Z * Z).

(** The spatial moments [cv2.moments] returns that the code reads. *)
Record Moments : Type := mkMoments { m00 : Q; m10 : Q; m01 : Q }.

Record ops : Type := mkOps {
(** [cv2.cvtColor(frame, cv2.COLOR_BGR2GRAY)] *)
cvtColor_BGR2GRAY : bgr -> gray;
(** [cv2.GaussianBlur(src, ksize, 0)] *)
GaussianBlur : gray -> nat * nat -> gray;
(** [cv2.morphologyEx(src, op, np.ones(ksize, np.uint8), iterations=n)] *)
morphologyEx : gray -> morph_op -> nat * nat -> nat -> gray;
(** [cv2.findContours(mask, cv2.RETR_EXTERNAL, cv2.CHAIN_APPROX_SIMPLE)[0]] *)
findContours : gray -> list contour;
(** [cv2.contourArea(cnt)] *)
contourArea : contour -> Q;
(** [cv2.drawContours(img, [cnt], -1, color, -1)], which writes into [img] *)
drawContours : gray -> contour -> Z -> gray;
(** [cv2.moments(cnt)] *)
moments : contour -> Moments;
(** [cv2.boundingRect(cnt)] *)
boundingRect : contour -> Z * Z * Z * Z
}.

(** What OpenCV guarantees of these primitives on every input: an output
    array has the size of its source, drawing happens in place, and the
    zeroth moment of a contour is reported unsigned. *)
Record sound (cv : ops) : Prop := mkSound {
  cvtColor_shape : forall c, row_lengths (cvtColor_BGR2GRAY cv c) = row_lengths c;
  GaussianBlur_shape : forall g k, row_lengths (GaussianBlur cv g k) = row_lengths g;
  morphologyEx_shape :
    forall g op k n, row_lengths (morphologyEx cv g op k n) = row_lengths g;
  drawContours_shape :
    forall g c v, row_lengths (drawContours cv g c v) = row_lengths g;
  moments_m00_nonneg : forall c, (0 <= m00 (moments cv c))%Q
}.

(** The outline [findContours] reports for a component that fills a whole
    [w] x [h] image: its four corners. *)
Definition frame_outline (w h : nat) : contour :=
  [ (0, 0); (0, Z.of_nat h - 1); (Z.of_nat w - 1, Z.of_nat h - 1); (Z.of_nat w - 1, 0) ]%Z.

(** What OpenCV computes on uniform images: smoothing and morphology leave
    them unchanged, an all-zero mask has no contour, and an all-255 mask
    has the single outline of the frame, of area [(w-1)(h-1)], whose filled
    drawing covers every pixel. *)
Record uniform (cv : ops) : Prop := mkUniform {
  GaussianBlur_const :
    forall h w v k,
      (0 < h)%nat -> (0 < w)%nat -> (0 <= v <= 255)%Z ->
      Nat.odd (fst k) = true -> Nat.odd (snd k) = true ->
      GaussianBlur cv (const h w v) k = const h w v;
  morphologyEx_const :
    forall h w v op k n,
      (0 < h)%nat -> (0 < w)%nat -> (0 <= v <= 255)%Z ->
      (0 < fst k)%nat -> (0 < snd k)%nat ->
      morphologyEx cv (const h w v) op k n = const h w v;
  findContours_zero :
    forall h w, (0 < h)%nat -> (0 < w)%nat -> findContours cv (const h w 0) = [];
  findContours_full :
    forall h w, (2 <= h)%nat -> (2 <= w)%nat ->
      findContours cv (const h w 255) = [frame_outline w h];
  contourArea_outline :
    forall h w, (2 <= h)%nat -> (2 <= w)%nat ->
      (contourArea cv (frame_outline w h) == inject_Z ((Z.of_nat w - 1) * (Z.of_nat h - 1)))%Q;
  drawContours_outline :
    forall h w, (2 <= h)%nat -> (2 <= w)%nat ->
      drawContours cv (const h w 0) (frame_outline w h) 255 = const h w 255
}.

(** What drawing leaves in the image: every pixel of the result is the
    colour drawn or a pixel that was there before. *)
Record paints (cv : ops) : Prop := mkPaints {
  drawContours_pixels :
    forall g c v p,
      In p (List.concat (drawContours cv g c v)) -> p = v \/ In p (List.concat g)
}.

(** [cv2.cvtColor(frame, cv2.COLOR_GRAY2BGR)]: the gray level in each channel. *)
Definition cvtColor_GRAY2BGR (g : gray) : bgr := map (map (fun p => (p, p, p))) g.

(** [cvRound]: to the nearest integer, ties to the even one. *)
Definition round_half_even (q : Q) : Z :=
  let f := Qfloor q in
  match Qcompare (q - inject_Z f) (1 # 2) with
  | Lt => f
  | Gt => (f + 1)%Z
  | Eq => if Z.even f then f else (f + 1)%Z
  end.

(** [saturate_cast<uchar>]. *)
Definition saturate_u8 (q : Q) : Z := Z.max 0 (Z.min 255 (round_half_even q)).

(** [cv2.addWeighted(src1, alpha, src2, beta, gamma)] on 8-bit BGR images of
    one shape. *)
Definition addWeighted (src1 : bgr) (alpha : Q) (src2 : bgr) (beta gamma : Q) : bgr :=
  zip_with
    (zip_with
       (fun '(b1, g1, r1) '(b2, g2, r2) =>
          (saturate_u8 (inject_Z b1 * alpha + inject_Z b2 * beta + gamma),
           saturate_u8 (inject_Z g1 * alpha + inject_Z g2 * beta + gamma),
           saturate_u8 (inject_Z r1 * alpha + inject_Z r2 * beta + gamma))))
    src1 src2.

End Cv2.

(* ------------------------------------------------------------------ *)
(** ** camera_vision_system.py: NeuroimagingSegmenter *)

Module NeuroimagingSegmenter.
Import Img Cv2 Py.

Definition threshold_table : Type := list (string * (Z * Z)).

Definition THRESHOLDS : list (string * threshold_table) :=
  [ ("USG",
      [ ("tumor", (160, 255)); ("csf", (0, 40)); ("parenchyma", (50, 150)) ]);
    ("T1_GD",
      [ ("enhancement", (170, 255)); ("necrotic", (0, 45)); ("edema", (45, 85));
        ("csf", (0, 35)); ("parenchyma", (85, 165)) ]);
    ("OR_CAMERA",
      [ ("blood", (0, 80)); ("tissue", (100, 200)); ("instrument", (200, 255)) ])
  ]%Z.

Record t : Type := mkSegmenter {
  modality : string;
  thresholds : threshold_table
}.

(** [__init__]: [self.THRESHOLDS.get(modality, self.THRESHOLDS["OR_CAMERA"])];
    the default is evaluated first and is a [KeyError] if missing. *)
Definition init (modality : string) : result t :=
  match dict_get "OR_CAMERA" THRESHOLDS with
  | None => Raise "KeyError" "OR_CAMERA"
  | Some dflt =>
      Ok (mkSegmenter modality
            (match dict_get modality THRESHOLDS with
             | Some tbl => tbl
             | None => dflt
             end))
  end.

Section WithOpenCV.
Variable cv : ops.

Definition preprocess (frame : ndarray) : gray * gray :=
  let gray :=
    match frame with
    | BGR c => cvtColor_BGR2GRAY cv c
    | Gray g => g
    end in
  let blurred := GaussianBlur cv gray (5, 5)%nat in
  (gray, blurred).

Definition create_roi_mask (blurred : gray) (threshold : Z) : gray :=
  let roi := threshold_binary blurred threshold 255 in
  morphologyEx cv roi MORPH_CLOSE (10, 10)%nat 3.

Definition segment_structure (self : t) (blurred roi_mask : gray)
           (structure : string) (min_area : Z) : gray :=
  match dict_get structure (thresholds self) with
  | None => zeros_like blurred
  | Some (low, high) =>
      let mask :=
        if (low =? 0)%Z then threshold_binary_inv blurred high 255
        else inRange blurred low high in
      let mask := bitwise_and mask roi_mask in
      let mask := morphologyEx cv mask MORPH_CLOSE (5, 5)%nat 2 in
      let mask := morphologyEx cv mask MORPH_OPEN (5, 5)%nat 1 in
      let contours := findContours cv mask in
      fold_left
        (fun filtered cnt =>
           if negb (Qle_bool (contourArea cv cnt) (inject_Z min_area))
           then drawContours cv filtered cnt 255
           else filtered)
        contours (zeros_like mask)
  end.

Definition segment_all (self : t) (frame : ndarray) : list (string * gray) :=
  let '(gray, blurred) := preprocess frame in
  let roi_mask := create_roi_mask blurred 15 in
  fold_left
    (fun masks structure =>
       dict_set structure (segment_structure self blurred roi_mask structure 300) masks)
    (keys (thresholds self)) [].

(** One entry of the list [get_contours_and_centroids] builds. *)
Record instance : Type := mkInstance {
  centroid : Z * Z;
  area : Q;
  bounding_box : Z * Z * Z * Z;
  contour_points : contour
}.

(** [cnt[::5]]. *)
Fixpoint every_fifth (c : contour) (skip : nat) : contour :=
  match c with
  | [] => []
  | p :: r =>
      match skip with
      | O => p :: every_fifth r 4
      | S k => every_fifth r k
      end
  end.

Definition describe (cnt : contour) : list instance :=
  let M := moments cv cnt in
  if negb (Qle_bool (m00 M) 0) then
    let cx := int_of_float (m10 M / m00 M) in
    let cy := int_of_float (m01 M / m00 M) in
    [ mkInstance (cx, cy) (contourArea cv cnt) (boundingRect cv cnt)
        (if (List.length cnt <? 100)%nat then cnt else every_fifth cnt 0) ]
  else [].

(** The body of the loop over [masks.items()]. *)
Definition record_structure (results : list (string * list instance))
           (sm : string * gray) : list (string * list instance) :=
  let '(structure, mask) := sm in
  let contours := findContours cv mask in
  let structure_data := flat_map describe contours in
  match structure_data with
  | [] => results
  | _ :: _ => dict_set structure structure_data results
  end.

Definition get_contours_and_centroids (masks : list (string * gray))
  : list (string * list instance) :=
  fold_left record_structure masks [].

End WithOpenCV.

Definition COLORS : list (string * (Z * Z * Z)) :=
  [ ("tumor", (80, 80, 255)); ("ventricles", (255, 150, 0));
    ("parenchyma", (100, 200, 100)); ("edema", (255, 150, 100));
    ("enhancement", (0, 200, 255)); ("vessels", (0, 0, 255));
    ("instrument", (255, 0, 255)) ]%Z.

(** [np.any(mask > 0)]. *)
Definition any_positive (mask : gray) : bool :=
  existsb (existsb (fun p => (0 <? p)%Z)) mask.

(** [overlay[mask > 0] = color]: an [IndexError] unless the mask has the
    shape of the image. *)
Definition paint (overlay : bgr) (mask : gray) (color : Z * Z * Z) : result bgr :=
  if list_eq_dec Nat.eq_dec (row_lengths mask) (row_lengths overlay)
  then Ok (zip_with (zip_with (fun px m => if (0 <? m)%Z then color else px)) overlay mask)
  else Raise "IndexError" "boolean index did not match indexed array".

(** The body of the loop over [masks.items()] in [create_overlay]. *)
Definition colour_structure (acc : result bgr) (sm : string * gray) : result bgr :=
  overlay <- acc ;;
  let '(structure, mask) := sm in
  match dict_get structure COLORS with
  | Some color => if any_positive mask then paint overlay mask color else Ok overlay
  | None => Ok overlay
  end.

Definition create_overlay (frame : ndarray) (masks : list (string * gray)) (alpha : Q)
  : result bgr :=
  let frame_rgb :=
    match frame with
    | Gray g => cvtColor_GRAY2BGR g
    | BGR c => c
    end in
  overlay <- fold_left colour_structure masks (Ok frame_rgb) ;;
  Ok (addWeighted overlay alpha frame_rgb (1 - alpha) 0).

End NeuroimagingSegmenter.

(* ------------------------------------------------------------------ *)
(** ** A reference implementation of the OpenCV interface

    Colour conversion, the 5x5 smoothing kernel, rectangular morphology and
    the contour measures follow OpenCV's definitions.  Tracing and filling
    are done on the bounding box of the foreground, which is what OpenCV
    returns when the foreground is one filled axis-parallel rectangle; the
    properties below are stated for every implementation of the interface
    and use this one only to exhibit concrete runs. *)

Module Cv2Ref.
Import Img Cv2.

Fixpoint mapi_from {A B} (i : nat) (f : nat -> A -> B) (l : list A) : list B :=
  match l with
  | [] => []
  | a :: r => f i a :: mapi_from (S i) f r
  end.

(** An array of the shape of [g] whose pixel at row [y], column [x] is [f y x]. *)
Definition tabulate_like (g : gray) (f : nat -> nat -> Z) : gray :=
  mapi_from 0 (fun y row => mapi_from 0 (fun x (_ : Z) => f y x) row) g.

Definition pixel (g : gray) (y x : nat) : Z := nth x (nth y g []) 0%Z.

Definition pixel_opt (g : gray) (y x : Z) : option Z :=
  if ((0 <=? y) && (0 <=? x))%Z
  then match nth_error g (Z.to_nat y) with
       | Some row => nth_error row (Z.to_nat x)
       | None => None
       end
  else None.

(** BGR to gray in OpenCV's 14-bit fixed point. *)
Definition luma (p : Z * Z * Z) : Z :=
  let '(b, g, r) := p in
  Z.shiftr (b * 1868 + g * 9617 + r * 4899 + 8192) 14.

Definition cvtColor_BGR2GRAY (c : bgr) : gray := map (map luma) c.

(** [BORDER_REFLECT_101]: [gfedcb|abcdefgh|gfedcba]. *)
Definition reflect101 (p : Z) (len : nat) : nat :=
  if (len <=? 1)%nat then 0%nat
  else
    let period := (2 * (Z.of_nat len - 1))%Z in
    let m := (p mod period)%Z in
    Z.to_nat (if (m <? Z.of_nat len)%Z then m else (period - m)%Z).

Definition pixel_reflect (g : gray) (y x : Z) : Z :=
  pixel g (reflect101 y (height g)) (reflect101 x (width g)).

(** The 5-tap kernel OpenCV uses for [ksize = 5], [sigma = 0]: [1 4 6 4 1] / 16. *)
Definition binomial5 : list (Z * Z) :=
  [ (-2, 1); (-1, 4); (0, 6); (1, 4); (2, 1) ]%Z.

Definition weighted_sum (g : gray) (y x : Z) : Z :=
  fold_right
    (fun '(dy, wy) acc =>
       fold_right
         (fun '(dx, wx) acc' => (wy * wx * pixel_reflect g (y + dy) (x + dx) + acc')%Z)
         acc binomial5)
    0%Z binomial5.

Definition GaussianBlur (g : gray) (ksize : nat * nat) : gray :=
  tabulate_like g
    (fun y x => ((weighted_sum g (Z.of_nat y) (Z.of_nat x) + 128) / 256)%Z).

(** The pixels under a [ky] x [kx] rectangle anchored at its centre;
    pixels outside the image do not take part (OpenCV's default border). *)
Definition neighbourhood (g : gray) (ksize : nat * nat) (y x : nat) : list Z :=
  let '(ky, kx) := ksize in
  flat_map
    (fun dy =>
       flat_map
         (fun dx =>
            match pixel_opt g (Z.of_nat y + Z.of_nat dy - Z.of_nat (ky / 2))
                                (Z.of_nat x + Z.of_nat dx - Z.of_nat (kx / 2)) with
            | Some p => [p]
            | None => []
            end)
         (seq 0 kx))
    (seq 0 ky).

Definition dilate (ksize : nat * nat) (g : gray) : gray :=
  tabulate_like g (fun y x => fold_left Z.max (neighbourhood g ksize y x) (pixel g y x)).

Definition erode (ksize : nat * nat) (g : gray) : gray :=
  tabulate_like g (fun y x => fold_left Z.min (neighbourhood g ksize y x) (pixel g y x)).

Definition morphologyEx (g : gray) (op : morph_op) (ksize : nat * nat) (n : nat) : gray :=
  match op with
  | MORPH_CLOSE => Nat.iter n (erode ksize) (Nat.iter n (dilate ksize) g)
  | MORPH_OPEN => Nat.iter n (dilate ksize) (Nat.iter n (erode ksize) g)
  end.

(** Coordinates [(x, y)] of the nonzero pixels. *)
Definition foreground (g : gray) : list (Z * Z) :=
  flat_map
    (fun y =>
       flat_map
         (fun x => if (pixel g y x =? 0)%Z then [] else [(Z.of_nat x, Z.of_nat y)])
         (seq 0 (width g)))
    (seq 0 (height g)).

(** The corners of the bounding box of a non-empty set of points. *)
Definition bbox (p : Z * Z) (ps : list (Z * Z)) : Z * Z * Z * Z :=
  (fold_left Z.min (map fst ps) (fst p), fold_left Z.min (map snd ps) (snd p),
   fold_left Z.max (map fst ps) (fst p), fold_left Z.max (map snd ps) (snd p)).

Definition findContours (g : gray) : list contour :=
  match foreground g with
  | [] => []
  | p :: ps =>
      let '(x0, y0, x1, y1) := bbox p ps in
      [ [ (x0, y0); (x0, y1); (x1, y1); (x1, y0) ] ]
  end.

(** Green's formula over the closed polygon, as [cv2.moments] and
    [cv2.contourArea] evaluate it: sums of [dxy = x' * y - x * y'] over
    the edges from [(x, y)] to the next vertex [(x', y')]. *)
Definition edge_terms (p q : Z * Z) : Z * Z * Z :=
  let '(x, y) := p in
  let '(x', y') := q in
  let dxy := (x' * y - x * y')%Z in
  (dxy, dxy * (x' + x), dxy * (y' + y))%Z.

Fixpoint green (first : Z * Z) (c : contour) : Z * Z * Z :=
  match c with
  | [] => (0, 0, 0)%Z
  | p :: r =>
      let '(a, b, d) := edge_terms p (match r with [] => first | q :: _ => q end) in
      let '(a', b', d') := green first r in
      (a + a', b + b', d + d')%Z
  end.

Definition green_sums (c : contour) : Z * Z * Z :=
  match c with
  | [] => (0, 0, 0)%Z
  | p :: _ => green p c
  end.

Definition contourArea (c : contour) : Q :=
  let '(a00, _, _) := green_sums c in Z.abs a00 # 2.

Definition moments (c : contour) : Moments :=
  let '(a00, a10, a01) := green_sums c in
  let s := Z.sgn a00 in
  mkMoments (Z.abs a00 # 2) (s * a10 # 6) (s * a01 # 6).

Definition boundingRect (c : contour) : Z * Z * Z * Z :=
  match c with
  | [] => (0, 0, 0, 0)%Z
  | p :: ps =>
      let '(x0, y0, x1, y1) := bbox p ps in
      (x0, y0, x1 - x0 + 1, y1 - y0 + 1)%Z
  end.

Definition drawContours (g : gray) (c : contour) (color : Z) : gray :=
  match c with
  | [] => g
  | p :: ps =>
      let '(x0, y0, x1, y1) := bbox p ps in
      tabulate_like g
        (fun y x =>
           if ((x0 <=? Z.of_nat x) && (Z.of_nat x <=? x1)
               && (y0 <=? Z.of_nat y) && (Z.of_nat y <=? y1))%Z
           then color else pixel g y x)
  end.

Definition cv : ops :=
  mkOps cvtColor_BGR2GRAY GaussianBlur morphologyEx findContours
        contourArea drawContours moments boundingRect.

End Cv2Ref.

(* ------------------------------------------------------------------ *)
(** ** Decoded JSON and the Python operations applied to it *)

Module Json.
Import Py.

(** What [json.loads] produces.  Numbers are exact rationals. *)
Inductive value : Type :=
| JNull
| JBool (b : bool)
| JNum (q : Q)
| JStr (s : string)
| JList (l : list value)
| JDict (d : list (string * value)).

(** A payload: a JSON object, as the annotations [Dict] of the analyzer and
    of the service's cache say. *)
Definition dict : Type := list (string * value).

(** Truth value testing. *)
Definition truthy (v : value) : bool :=
  match v with
  | JNull => false
  | JBool b => b
  | JNum q => negb (Qeq_bool q 0)
  | JStr s => negb (String.eqb s EmptyString)
  | JList l => match l with [] => false | _ => true end
  | JDict d => match d with [] => false | _ => true end
  end.

(** [a or b]. *)
Definition py_or (a b : value) : value := if truthy a then a else b.

(** [d.get(k)], with [None] as [JNull], and [d.get(k, default)]. *)
Definition get (d : dict) (k : string) : value :=
  match dict_get k d with Some v => v | None => JNull end.
Definition get_default (d : dict) (k : string) (dflt : value) : value :=
  match dict_get k d with Some v => v | None => dflt end.

Fixpoint is_prefix (p s : string) : bool :=
  match p, s with
  | EmptyString, _ => true
  | String a p', String b s' => Ascii.eqb a b && is_prefix p' s'
  | String _ _, EmptyString => false
  end.

Fixpoint is_substring (p s : string) : bool :=
  is_prefix p s ||
  match s with
  | EmptyString => false
  | String _ s' => is_substring p s'
  end.

Definition is_str (k : string) (v : value) : bool :=
  match v with JStr s => String.eqb s k | _ => false end.

(** [k in v] for a string [k]. *)
Definition contains (k : string) (v : value) : result bool :=
  match v with
  | JDict d => Ok (dict_mem k d)
  | JList l => Ok (existsb (is_str k) l)
  | JStr s => Ok (is_substring k s)
  | _ => Raise "TypeError" "argument is not iterable"
  end.

(** [v[k]] for a string [k]. *)
Definition getitem (v : value) (k : string) : result value :=
  match v with
  | JDict d =>
      match dict_get k d with
      | Some x => Ok x
      | None => Raise "KeyError" k
      end
  | JList _ | JStr _ => Raise "TypeError" "indices must be integers"
  | _ => Raise "TypeError" "object is not subscriptable"
  end.

(** [v[i]] for an integer literal [i >= 0]. *)
Definition getindex (v : value) (i : nat) : result value :=
  match v with
  | JList l =>
      match nth_error l i with
      | Some x => Ok x
      | None => Raise "IndexError" "list index out of range"
      end
  | JStr s =>
      match String.get i s with
      | Some c => Ok (JStr (String c EmptyString))
      | None => Raise "IndexError" "string index out of range"
      end
  | JDict _ => Raise "KeyError" "integer key"
  | _ => Raise "TypeError" "object is not subscriptable"
  end.

(** [len(v)]. *)
Definition len (v : value) : result nat :=
  match v with
  | JList l => Ok (List.length l)
  | JStr s => Ok (String.length s)
  | JDict d => Ok (List.length d)
  | _ => Raise "TypeError" "object has no len()"
  end.

(** The elements a [for] loop or [list.extend] sees. *)
Definition iterate (v : value) : result (list value) :=
  match v with
  | JList l => Ok l
  | JDict d => Ok (map JStr (keys d))
  | JStr s => Ok (map (fun c => JStr (String c EmptyString)) (list_ascii_of_string s))
  | _ => Raise "TypeError" "object is not iterable"
  end.

(** A value used as a number in arithmetic; [bool] is an [int]. *)
Definition number (v : value) : result Q :=
  match v with
  | JNum q => Ok q
  | JBool b => Ok (if b then 1 else 0)
  | _ => Raise "TypeError" "unsupported operand type"
  end.

Section Float.
(** Python's parser of numeric strings, [float(s)] for [s : str];
    [None] is [ValueError]. *)
Variable float_of_str : string -> option Q.

(** [float(v)]. *)
Definition to_float (v : value) : result Q :=
  match v with
  | JNum q => Ok q
  | JBool b => Ok (if b then 1 else 0)
  | JStr s =>
      match float_of_str s with
      | Some q => Ok q
      | None => Raise "ValueError" "could not convert string to float"
      end
  | _ => Raise "TypeError" "float() argument must be a string or a real number"
  end.
End Float.

End Json.

(* ------------------------------------------------------------------ *)
(** ** camera_vision_system.py: ClaudeVisionAnalyzer *)

Module ClaudeVisionAnalyzer.
Import Py Json.

(** What happens inside the [try] of [analyze_frame]: the request raises
    (timeout, transport or API error), or the reply text fails to decode,
    or it decodes to a payload. *)
Inductive reply : Type :=
| Raises (exc_type exc_msg : string)
| Undecodable (response_text parse_error : string)
| Decoded (payload : dict).

(** [analyze_frame(frame, mode)].  [encoded] is the outcome of
    [frame_to_base64(frame)], which runs before the [try]; the request is
    sent only if it returned. *)
Definition analyze_frame (encoded : result string) (r : reply) : result dict :=
  _ <- encoded ;;
  Ok (match r with
      | Decoded payload => payload
      | Undecodable response_text parse_error =>
          [ ("error", JStr "Failed to parse response");
            ("raw_response", JStr response_text);
            ("parse_error", JStr parse_error) ]
      | Raises exc_type exc_msg =>
          [ ("error", JStr exc_msg); ("type", JStr exc_type) ]
      end).

(** Whether [client.messages.create] was invoked. *)
Definition request_sent (encoded : result string) : bool :=
  match encoded with Ok _ => true | Raise _ _ => false end.

End ClaudeVisionAnalyzer.

(* ------------------------------------------------------------------ *)
(** ** analysis_service.py *)

Module AnalysisService.
Import Py Json Img.

Inductive AnalysisType : Type :=
| SEGMENTATION_ONLY
| CLAUDE_VISION
| HYBRID
| SAFETY_CHECK
| NAVIGATION.

(** Fields filled from the external payload keep the JSON value they were
    given ([JNull] for [None]); [is_critical] keeps its truth value, which
    is all the code tests. *)
Record StructureDetection : Type := mkDetection {
  name : value;
  structure_type : value;
  centroid : Z * Z;
  bounding_box : Z * Z * Z * Z;
  area : Q;
  confidence : value;
  is_critical : bool;
  safety_margin_mm : value;
  metadata_source : string
}.

Record AnalysisResult : Type := mkResult {
  frame_id : Z;
  timestamp : Q;
  processing_time_ms : Q;
  analysis_type : AnalysisType;
  safety_score : Q;
  technique_score : option Q;
  structures : list StructureDetection;
  instruments : list value;
  alerts : list value;
  guidance : value;
  voice_alert : value;
  segmentation_masks : option (list (string * gray));
  raw_analysis : option dict
}.

(** The attributes of an [AnalysisService] instance.  [claude_analyzer]
    records whether an analyzer object was constructed. *)
Record service : Type := mkService {
  modality : string;
  claude_analysis_interval : Q;
  segmenter : option NeuroimagingSegmenter.t;
  claude_analyzer : bool;
  _last_claude_analysis : option dict;
  _last_claude_time : Q;
  _analysis_count : Z
}.

(** What one call observes of its environment: three readings of
    [time.time()] (on entry, before the throttle test, on exit), the wall
    clock of [datetime.now()], and the analyzer's two effects. *)
Record world : Type := mkWorld {
  start_time : Q;
  current_time : Q;
  end_time : Q;
  now : Q;
  encoded : result string;
  claude_reply : ClaudeVisionAnalyzer.reply
}.

(** [if d:] for an [Optional[Dict]]. *)
Definition nonempty (d : option dict) : bool :=
  match d with
  | Some (_ :: _) => true
  | _ => false
  end.

Definition _classify_structure (name : string) : string :=
  match dict_get (lower name)
          [ ("tumor", "pathology"); ("blood", "vessel"); ("tissue", "parenchyma");
            ("instrument", "instrument"); ("csf", "csf_space");
            ("enhancement", "pathology"); ("edema", "pathology");
            ("parenchyma", "parenchyma"); ("necrotic", "pathology") ] with
  | Some c => c
  | None => "other"
  end.

Definition _extract_alerts (analysis : dict) : list value :=
  fold_left
    (fun alerts key =>
       if dict_mem key analysis then
         match get analysis key with
         | JList items =>
             alerts ++
             map (fun item =>
                    match item with
                    | JStr s => JDict [ ("message", JStr s); ("severity", JStr "warning") ]
                    | _ => item
                    end) items
         | _ => alerts
         end
       else alerts)
    [ "alerts"; "critical_alerts"; "warnings"; "proximity_warnings" ] [].

Definition _extract_instruments (analysis : dict) : result (list value) :=
  fold_left
    (fun acc key =>
       instruments <- acc ;;
       if dict_mem key analysis then
         match get analysis key with
         | JList items => Ok (instruments ++ items)
         | JDict items =>
             if dict_mem "identified" items then
               identified <- iterate (get items "identified") ;;
               Ok (instruments ++ identified)
             else Ok instruments
         | _ => Ok instruments
         end
       else Ok instruments)
    [ "instruments"; "instruments_visible"; "instruments_detected" ] (Ok []).

(** The body of the loop over [analysis[key]] in [_extract_structures]. *)
Definition structure_of_item (item : value) : result (list StructureDetection) :=
  match item with
  | JDict d =>
      let bbox :=
        get_default d "bounding_box" (JList [ JNum 0; JNum 0; JNum 100; JNum 100 ]) in
      n <- len bbox ;;
      xywh <-
        (if (n =? 4)%nat then
           b0 <- (v <- getindex bbox 0 ;; number v) ;;
           b1 <- (v <- getindex bbox 1 ;; number v) ;;
           b2 <- (v <- getindex bbox 2 ;; number v) ;;
           b3 <- (v <- getindex bbox 3 ;; number v) ;;
           Ok (int_of_float (b0 * 10), int_of_float (b1 * 10),
               int_of_float ((b2 - b0) * 10), int_of_float ((b3 - b1) * 10))
         else Ok (0, 0, 100, 100)%Z) ;;
      let '(x, y, w, h) := xywh in
      Ok [ mkDetection
             (get_default d "name" (JStr "unknown"))
             (get_default d "type" (JStr "other"))
             (x + w / 2, y + h / 2)%Z
             (x, y, w, h)
             (inject_Z (w * h))
             (get_default d "confidence" (JNum (1 # 2)))
             (truthy (get_default d "safety_critical" (JBool false)))
             (get d "safety_margin_mm")
             "claude_vision" ]
  | _ => Ok []
  end.

Definition anatomy_of_item (item : value) : list StructureDetection :=
  match item with
  | JDict d =>
      [ mkDetection
          (get_default d "name" (JStr "unknown"))
          (get_default d "type" (JStr "anatomy"))
          (0, 0)%Z (0, 0, 0, 0)%Z 0
          (get_default d "confidence" (JNum (1 # 2)))
          (truthy (get_default d "safety_critical" (JBool false)))
          JNull
          "claude_vision" ]
  | _ => []
  end.

Fixpoint collect {A B} (f : A -> result (list B)) (l : list A) : result (list B) :=
  match l with
  | [] => Ok []
  | a :: r =>
      x <- f a ;;
      xs <- collect f r ;;
      Ok (x ++ xs)
  end.

Definition _extract_structures (analysis : dict) : result (list StructureDetection) :=
  listed <-
    fold_left
      (fun acc key =>
         structures <- acc ;;
         if dict_mem key analysis then
           items <- iterate (get analysis key) ;;
           found <- collect structure_of_item items ;;
           Ok (structures ++ found)
         else Ok structures)
      [ "structures_identified"; "structures"; "regions" ] (Ok []) ;;
  if dict_mem "anatomy" analysis then
    has <- contains "structures" (get analysis "anatomy") ;;
    if has then
      section <- getitem (get analysis "anatomy") "structures" ;;
      items <- iterate section ;;
      Ok (listed ++ flat_map anatomy_of_item items)
    else Ok listed
  else Ok listed.

Definition _calculate_safety_score (structures : list StructureDetection) : Q :=
  let score :=
    fold_left
      (fun score structure =>
         let score :=
           if is_critical structure
           then score - Qmin 20 (area structure / 1000)
           else score in
         if is_str "pathology" (structure_type structure)
         then score - 5
         else score)
      structures 100 in
  Qmax 0 (Qmin 100 score).

Section WithEnvironment.
Variable float_of_str : string -> option Q.
Variable cv : Cv2.ops.

Definition _extract_safety_score (analysis : dict) : result Q :=
  if dict_mem "safety_score" analysis then
    to_float float_of_str (get analysis "safety_score")
  else if dict_mem "safety" analysis then
    has <- contains "safety_score" (get analysis "safety") ;;
    if has then
      v <- getitem (get analysis "safety") "safety_score" ;;
      to_float float_of_str v
    else Ok 100
  else Ok 100.

Definition _extract_technique_score (analysis : dict) : result (option Q) :=
  if dict_mem "overall_score" analysis then
    q <- to_float float_of_str (get analysis "overall_score") ;; Ok (Some q)
  else if dict_mem "technique" analysis then
    has <- contains "quality_score" (get analysis "technique") ;;
    if has then
      v <- getitem (get analysis "technique") "quality_score" ;;
      q <- to_float float_of_str v ;; Ok (Some q)
    else Ok None
  else Ok None.

(** The local variables of [analyze_frame] that its branches assign. *)
Record locals : Type := mkLocals {
  l_structures : list StructureDetection;
  l_instruments : list value;
  l_alerts : list value;
  l_guidance : value;
  l_voice_alert : value;
  l_safety_score : Q;
  l_technique_score : option Q;
  l_raw_analysis : option dict;
  l_segmentation_masks : option (list (string * gray))
}.

Definition initial_locals : locals :=
  mkLocals [] [] [] JNull JNull 100 None None None.

(** The local segmentation pass.  The source wraps it in [try]/[except];
    the OpenCV interface here is total, so the handler is never entered. *)
Definition local_pass (seg : NeuroimagingSegmenter.t) (frame : ndarray) (loc : locals)
  : locals :=
  let masks := NeuroimagingSegmenter.segment_all cv seg frame in
  let contours_data := NeuroimagingSegmenter.get_contours_and_centroids cv masks in
  let found :=
    flat_map
      (fun '(structure_name, instances) =>
         map (fun instance =>
                mkDetection
                  (JStr structure_name)
                  (JStr (_classify_structure structure_name))
                  (NeuroimagingSegmenter.centroid instance)
                  (NeuroimagingSegmenter.bounding_box instance)
                  (NeuroimagingSegmenter.area instance)
                  (JNum (85 # 100))
                  (String.eqb structure_name "blood" || String.eqb structure_name "vessels")
                  JNull
                  "segmentation")
             instances)
      contours_data in
  mkLocals (l_structures loc ++ found) (l_instruments loc) (l_alerts loc)
           (l_guidance loc) (l_voice_alert loc) (l_safety_score loc)
           (l_technique_score loc) (l_raw_analysis loc) (Some masks).

(** One assignment inside a [try]: on a raise the variables keep the
    values they have and control passes to the handler ([true]). *)
Definition assign {A} (r : result A) (set : A -> locals -> locals)
           (rest : locals -> locals * bool) (loc : locals) : locals * bool :=
  match r with
  | Ok a => rest (set a loc)
  | Raise _ _ => (loc, true)
  end.

Definition set_raw (d : option dict) (l : locals) : locals :=
  mkLocals (l_structures l) (l_instruments l) (l_alerts l) (l_guidance l)
           (l_voice_alert l) (l_safety_score l) (l_technique_score l) d
           (l_segmentation_masks l).
Definition set_safety (q : Q) (l : locals) : locals :=
  mkLocals (l_structures l) (l_instruments l) (l_alerts l) (l_guidance l)
           (l_voice_alert l) q (l_technique_score l) (l_raw_analysis l)
           (l_segmentation_masks l).
Definition set_technique (q : option Q) (l : locals) : locals :=
  mkLocals (l_structures l) (l_instruments l) (l_alerts l) (l_guidance l)
           (l_voice_alert l) (l_safety_score l) q (l_raw_analysis l)
           (l_segmentation_masks l).
Definition set_instruments (i : list value) (l : locals) : locals :=
  mkLocals (l_structures l) i (l_alerts l) (l_guidance l)
           (l_voice_alert l) (l_safety_score l) (l_technique_score l)
           (l_raw_analysis l) (l_segmentation_masks l).
Definition set_alerts (a : list value) (l : locals) : locals :=
  mkLocals (l_structures l) (l_instruments l) a (l_guidance l)
           (l_voice_alert l) (l_safety_score l) (l_technique_score l)
           (l_raw_analysis l) (l_segmentation_masks l).
Definition set_guidance (g : value) (l : locals) : locals :=
  mkLocals (l_structures l) (l_instruments l) (l_alerts l) g
           (l_voice_alert l) (l_safety_score l) (l_technique_score l)
           (l_raw_analysis l) (l_segmentation_masks l).
Definition set_voice (v : value) (l : locals) : locals :=
  mkLocals (l_structures l) (l_instruments l) (l_alerts l) (l_guidance l)
           v (l_safety_score l) (l_technique_score l)
           (l_raw_analysis l) (l_segmentation_masks l).
Definition extend_structures (s : list StructureDetection) (l : locals) : locals :=
  mkLocals (l_structures l ++ s) (l_instruments l) (l_alerts l) (l_guidance l)
           (l_voice_alert l) (l_safety_score l) (l_technique_score l)
           (l_raw_analysis l) (l_segmentation_masks l).

(** The statements under [if "error" not in claude_result:]. *)
Definition extract_all (claude_result : dict) : locals -> locals * bool :=
  assign (_extract_safety_score claude_result) set_safety
  (assign (_extract_technique_score claude_result) set_technique
  (assign (_extract_instruments claude_result) set_instruments
  (assign (Ok (_extract_alerts claude_result)) set_alerts
  (assign (Ok (py_or (get claude_result "guidance")
                     (get claude_result "real_time_feedback"))) set_guidance
  (assign (Ok (py_or (get claude_result "voice_alert")
                     (get claude_result "voice_feedback"))) set_voice
  (assign (_extract_structures claude_result) extend_structures
  (fun loc => (loc, false)))))))).

Definition set_cache (self : service) (d : dict) (t : Q) : service :=
  mkService (modality self) (claude_analysis_interval self) (segmenter self)
            (claude_analyzer self) (Some d) t (_analysis_count self).

(** The [except] handler of the external pass. *)
Definition fall_back (self : service) (loc : locals) : locals :=
  if nonempty (_last_claude_analysis self)
  then set_raw (_last_claude_analysis self) loc
  else loc.

Definition should_run_claude (self : service) (analysis_type : AnalysisType)
           (force_claude : bool) (w : world) : bool :=
  claude_analyzer self
  && match analysis_type with
     | CLAUDE_VISION | HYBRID | SAFETY_CHECK => true
     | _ => false
     end
  && (force_claude
      || Qle_bool (claude_analysis_interval self)
                  (current_time w - _last_claude_time self)).

(** The [try]/[except] of the external pass: the updated service and
    locals, and the number of requests sent to the external service. *)
Definition external_pass (self : service) (w : world) (loc : locals)
  : service * locals * nat :=
  let sent := if ClaudeVisionAnalyzer.request_sent (encoded w) then 1%nat else 0%nat in
  match ClaudeVisionAnalyzer.analyze_frame (encoded w) (claude_reply w) with
  | Raise _ _ => (self, fall_back self loc, sent)
  | Ok claude_result =>
      let self' := set_cache self claude_result (current_time w) in
      let loc := set_raw (Some claude_result) loc in
      let '(loc, raised) :=
        if negb (dict_mem "error" claude_result)
        then extract_all claude_result loc
        else (loc, false) in
      (self', if raised then fall_back self' loc else loc, sent)
  end.

(** What a call leaves behind: its outcome, the service afterwards and
    the number of requests it sent to the external service. *)
Record call : Type := mkCall {
  outcome : result AnalysisResult;
  after : service;
  requests : nat
}.

Definition finish (self : service) (w : world) (frame_id : Z)
           (analysis_type : AnalysisType) (loc : locals) (sent : nat) : call :=
  let safety_score :=
    if negb (nonempty (l_raw_analysis loc))
    then _calculate_safety_score (l_structures loc)
    else l_safety_score loc in
  let processing_time := (end_time w - start_time w) * 1000 in
  mkCall
    (Ok (mkResult frame_id (now w) processing_time analysis_type safety_score
           (l_technique_score loc) (l_structures loc) (l_instruments loc)
           (l_alerts loc) (l_guidance loc) (l_voice_alert loc)
           (l_segmentation_masks loc) (l_raw_analysis loc)))
    (mkService (modality self) (claude_analysis_interval self) (segmenter self)
               (claude_analyzer self) (_last_claude_analysis self)
               (_last_claude_time self) (_analysis_count self + 1))
    sent.

Definition analyze_frame (self : service) (w : world) (frame : ndarray)
           (frame_id : Z) (analysis_type : AnalysisType) (force_claude : bool)
  : call :=
  let loc := initial_locals in
  let loc :=
    match segmenter self, analysis_type with
    | Some seg, (SEGMENTATION_ONLY | HYBRID | NAVIGATION) => local_pass seg frame loc
    | _, _ => loc
    end in
  if should_run_claude self analysis_type force_claude w then
    let '(self', loc, sent) := external_pass self w loc in
    finish self' w frame_id analysis_type loc sent
  else if nonempty (_last_claude_analysis self)
          && match analysis_type with SEGMENTATION_ONLY => false | _ => true end
  then
    let cached := match _last_claude_analysis self with Some d => d | None => [] end in
    let loc := set_raw (_last_claude_analysis self) loc in
    match _extract_safety_score cached with
    | Raise t m => mkCall (Raise t m) self 0
    | Ok q =>
        let loc := set_voice (get cached "voice_alert") (set_safety q loc) in
        finish self w frame_id analysis_type loc 0
    end
  else finish self w frame_id analysis_type loc 0.

(** A call with its arguments and what it observes, and a sequence of
    awaited calls on one service instance. *)
Record request : Type := mkRequest {
  r_world : world;
  r_frame : ndarray;
  r_frame_id : Z;
  r_analysis_type : AnalysisType;
  r_force_claude : bool
}.

Definition serve (self : service) (r : request) : call :=
  analyze_frame self (r_world r) (r_frame r) (r_frame_id r)
                (r_analysis_type r) (r_force_claude r).

Definition serve_all (self : service) (rs : list request) : service :=
  fold_left (fun s r => after (serve s r)) rs self.

End WithEnvironment.

(** *** validate_trajectory

    Points and centroids are integer pixels, so the squared distance is an
    integer [d2] and [np.sqrt(d2)] is kept as [d2]: the square root is
    monotone, hence [min] of distances is the root of the [min] of squares,
    [dist < m] is [0 < m] and [d2 < m * m], [dist < m / 2] is [0 < m] and
    [4 * d2 < m * m], and [int(dist)] is the integer square root. *)

Record warning : Type := mkWarning {
  w_structure : value;
  distance_px : Z;
  point : Z * Z;
  severity : string
}.

Record validation : Type := mkValidation {
  is_safe : bool;
  min_distance_to_critical_px : option Z;
  warnings : list warning;
  recommendation : string
}.

Definition dist2 (p c : Z * Z) : Z :=
  ((fst p - fst c) ^ 2 + (snd p - snd c) ^ 2)%Z.

Definition dist_lt (d2 m : Z) : bool := ((0 <? m) && (d2 <? m * m))%Z.
Definition dist_lt_half (d2 m : Z) : bool := ((0 <? m) && (4 * d2 <? m * m))%Z.

(** The loop variables: [warnings], [is_safe] and the square of
    [min_distance_to_critical] ([None] for [float('inf')]). *)
Record scan : Type := mkScan {
  s_warnings : list warning;
  s_is_safe : bool;
  s_min2 : option Z
}.

(** The body of the inner loop. *)
Definition visit (safety_margin_px : Z) (pt : Z * Z) (st : scan)
           (structure : StructureDetection) : scan :=
  if is_critical structure then
    let d2 := dist2 pt (centroid structure) in
    let min2 := match s_min2 st with None => d2 | Some m => Z.min m d2 end in
    if dist_lt d2 safety_margin_px then
      mkScan
        (s_warnings st ++
         [ mkWarning (name structure) (Z.sqrt d2) pt
             (if dist_lt_half d2 safety_margin_px then "critical" else "warning") ])
        false (Some min2)
    else mkScan (s_warnings st) (s_is_safe st) (Some min2)
  else st.

Definition validate_trajectory (trajectory : list (Z * Z))
           (structures : list StructureDetection) (safety_margin_px : Z)
  : validation :=
  let st :=
    fold_left
      (fun st pt => fold_left (visit safety_margin_px pt) structures st)
      trajectory (mkScan [] true None) in
  mkValidation
    (s_is_safe st)
    (option_map Z.sqrt (s_min2 st))
    (s_warnings st)
    (if s_is_safe st then "Clear trajectory"
     else "Adjust trajectory to avoid critical structures").


(** The (point, critical structure) pairs the two loops visit, in order. *)
Definition critical_pairs (trajectory : list (Z * Z))
           (structures : list StructureDetection)
  : list ((Z * Z) * StructureDetection) :=
  flat_map (fun pt => map (pair pt) (filter is_critical structures)) trajectory.

(** The inner loop body applied to one such pair. *)
Definition visit_pair (safety_margin_px : Z) (st : scan)
           (ps : (Z * Z) * StructureDetection) : scan :=
  visit safety_margin_px (fst ps) st (snd ps).

(** [__init__] when the vision modules import; [analyzer_ok] tells whether
    an API key was given and the analyzer could be constructed. *)
Definition init (modality : string) (analyzer_ok : bool) (claude_analysis_interval : Q)
  : result service :=
  seg <- NeuroimagingSegmenter.init modality ;;
  Ok (mkService modality claude_analysis_interval (Some seg) analyzer_ok None 0 0).

End AnalysisService.

(* ------------------------------------------------------------------ *)
(** ** The reply text of the external service

    Before it decodes the reply, [ClaudeVisionAnalyzer.analyze_frame]
    removes a Markdown code fence from it: if the text contains the opening
    fence of a json block it keeps [split(fence_json)[1].split(fence)[0]],
    otherwise, if it contains a fence, [split(fence)[1].split(fence)[0]],
    where [fence] is three backticks. *)
Module ResponseText.
Import Py Json.

Fixpoint drop (n : nat) (s : string) : string :=
  match n, s with
  | O, _ => s
  | S _, EmptyString => EmptyString
  | S k, String _ r => drop k r
  end.

(** The text before and the text after the leftmost occurrence of [sep]. *)
Fixpoint find_first (sep s : string) : option (string * string) :=
  if is_prefix sep s then Some (EmptyString, drop (String.length sep) s)
  else
    match s with
    | EmptyString => None
    | String c r =>
        match find_first sep r with
        | Some (before, rest) => Some (String c before, rest)
        | None => None
        end
    end.

(** [s.split(sep)] for a non-empty [sep]: cut at the leftmost occurrence
    and go on after it.  Every cut removes at least one character, so the
    fuel given by [split] is never used up. *)
Fixpoint split_fuel (fuel : nat) (sep s : string) : list string :=
  match fuel with
  | O => [ s ]
  | S fuel =>
      match find_first sep s with
      | Some (before, rest) => before :: split_fuel fuel sep rest
      | None => [ s ]
      end
  end.

Definition split (sep s : string) : list string :=
  split_fuel (S (String.length s)) sep s.

(** [l[i]]. *)
Definition index (l : list string) (i : nat) : result string :=
  match nth_error l i with
  | Some x => Ok x
  | None => Raise "IndexError" "list index out of range"
  end.

Definition strip_code_fence (response_text : string) : result string :=
  if is_substring "```json" response_text then
    inner <- index (split "```json" response_text) 1 ;;
    index (split "```" inner) 0
  else if is_substring "```" response_text then
    inner <- index (split "```" response_text) 1 ;;
    index (split "```" inner) 0
  else Ok response_text.

End ResponseText.

(* ------------------------------------------------------------------ *)
(** ** Concrete inputs used in the runs below *)

Module Inputs.
Import Img.

(** [NeuroimagingSegmenter(modality="OR_CAMERA")] and [(modality="USG")]. *)
Definition or_segmenter : NeuroimagingSegmenter.t :=
  NeuroimagingSegmenter.mkSegmenter "OR_CAMERA"
    [ ("blood", (0, 80)); ("tissue", (100, 200)); ("instrument", (200, 255)) ]%Z.

Definition usg_segmenter : NeuroimagingSegmenter.t :=
  NeuroimagingSegmenter.mkSegmenter "USG"
    [ ("tumor", (160, 255)); ("csf", (0, 40)); ("parenchyma", (50, 150)) ]%Z.

(** [np.full((480, 640), 100, np.uint8)]: a 640 x 480 mid-gray frame. *)
Definition mid_gray : ndarray := Gray (const 480 640 100).

(** A 3 x 2 gray frame. *)
Definition small_gray : ndarray := Gray (const 2 3 100).

(** Two masks: a filled 4 x 4 one and an empty one. *)
Definition sample_masks : list (string * gray) :=
  [ ("tumor", const 4 4 255); ("csf", const 4 4 0) ].

(** A critical structure whose centroid is at (1, 1). *)
Definition vessel_at_1_1 : AnalysisService.StructureDetection :=
  AnalysisService.mkDetection (Json.JStr "blood") (Json.JStr "vessel")
    (1, 1)%Z (0, 0, 2, 2)%Z 4 (Json.JNum (85 # 100)) true Json.JNull "segmentation".

(** A parser of numeric strings that accepts none; the runs below convert
    no string. *)
Definition no_numeric_strings : string -> option Q := fun _ => None.

(** A service with an analyzer, the default interval of 0.5 s and an empty cache. *)
Definition fresh_service : AnalysisService.service :=
  AnalysisService.mkService "OR_CAMERA" (1 # 2) (Some or_segmenter) true None 0 0.

(** The same service after a successful external call at time 900. *)
Definition cached_payload : Json.dict := [ ("safety_score", Json.JNum 90) ].

Definition cached_service : AnalysisService.service :=
  AnalysisService.mkService "OR_CAMERA" (1 # 2) (Some or_segmenter) true
    (Some cached_payload) 900 1.

(** The request times out inside the analyzer. *)
Definition timeout_world : AnalysisService.world :=
  AnalysisService.mkWorld 1000 1000 1001 1000 (Py.Ok "/9j/4AAQ")
    (ClaudeVisionAnalyzer.Raises "APITimeoutError" "Request timed out.").

(** The frame cannot be encoded, so the analyzer raises before its [try]. *)
Definition encode_error_world : AnalysisService.world :=
  AnalysisService.mkWorld 1000 1000 1001 1000 (Py.Raise "error" "imencode failed")
    (ClaudeVisionAnalyzer.Decoded []).

(** The external service answers with a safety score of 150. *)
Definition score_150_world : AnalysisService.world :=
  AnalysisService.mkWorld 1000 1000 1001 1000 (Py.Ok "/9j/4AAQ")
    (ClaudeVisionAnalyzer.Decoded [ ("safety_score", Json.JNum 150) ]).

(** Two calls that start 0.4 s apart; the second spends 0.2 s in the local
    pass before it reads the clock for the throttle test. *)
Definition first_call : AnalysisService.request :=
  AnalysisService.mkRequest
    (AnalysisService.mkWorld 1000 1000 (10003 # 10) 1000 (Py.Ok "/9j/4AAQ")
       (ClaudeVisionAnalyzer.Decoded [ ("safety_score", Json.JNum 90) ]))
    small_gray 1 AnalysisService.HYBRID false.

Definition second_call : AnalysisService.request :=
  AnalysisService.mkRequest
    (AnalysisService.mkWorld (10004 # 10) (10006 # 10) (10007 # 10) (10004 # 10)
       (Py.Ok "/9j/4AAQ")
       (ClaudeVisionAnalyzer.Decoded [ ("safety_score", Json.JNum 90) ]))
    small_gray 2 AnalysisService.HYBRID false.

(** A call that reads the throttle clock 0.4 s after [first_call] did. *)
Definition close_call : AnalysisService.request :=
  AnalysisService.mkRequest
    (AnalysisService.mkWorld (10003 # 10) (10004 # 10) (10005 # 10) (10003 # 10)
       (Py.Ok "/9j/4AAQ")
       (ClaudeVisionAnalyzer.Decoded [ ("safety_score", Json.JNum 90) ]))
    small_gray 2 AnalysisService.HYBRID false.

(** An interleaving of the capture thread with two kinds of consumer. *)
Definition sample_ops : list CameraService.op :=
  [ CameraService.Capture small_gray 0; CameraService.Capture small_gray 1;
    CameraService.Capture small_gray 2; CameraService.GetFrame;
    CameraService.Capture small_gray 3; CameraService.Capture small_gray 4;
    CameraService.GetLatestFrame; CameraService.GetFrame ].

(** A 4 x 4 frame below the background cutoff, and a 30 x 20 frame in the
    range of "tissue". *)
Definition dark_gray : ndarray := Gray (const 4 4 10).
Definition tissue_gray : ndarray := Gray (const 20 30 120).

(** The external service answers with a null safety score. *)
Definition null_score_payload : Json.dict := [ ("safety_score", Json.JNull) ].

Definition null_score_world : AnalysisService.world :=
  AnalysisService.mkWorld 1000 1000 1001 1000 (Py.Ok "/9j/4AAQ")
    (ClaudeVisionAnalyzer.Decoded null_score_payload).

(** What a call observes 0.2 s after the worlds above: inside the default
    throttle interval. *)
Definition soon_after_world : AnalysisService.world :=
  AnalysisService.mkWorld (10002 # 10) (10002 # 10) (10003 # 10) (10002 # 10)
    (Py.Ok "/9j/4AAQ")
    (ClaudeVisionAnalyzer.Decoded [ ("safety_score", Json.JNum 90) ]).

(** A service whose last request was at time 1000. *)
Definition recent_service : AnalysisService.service :=
  AnalysisService.mkService "OR_CAMERA" (1 # 2) (Some or_segmenter) true
    (Some cached_payload) 1000 1.

(** Detections: a critical one of area 50000, a pathology, and a bystander. *)
Definition large_vessel : AnalysisService.StructureDetection :=
  AnalysisService.mkDetection (Json.JStr "blood") (Json.JStr "vessel")
    (100, 100)%Z (0, 0, 250, 200)%Z 50000 (Json.JNum (85 # 100)) true Json.JNull
    "segmentation".
Definition small_tumor : AnalysisService.StructureDetection :=
  AnalysisService.mkDetection (Json.JStr "tumor") (Json.JStr "pathology")
    (10, 10)%Z (0, 0, 20, 20)%Z 400 (Json.JNum (85 # 100)) false Json.JNull
    "segmentation".
Definition some_tissue : AnalysisService.StructureDetection :=
  AnalysisService.mkDetection (Json.JStr "tissue") (Json.JStr "parenchyma")
    (10, 10)%Z (0, 0, 20, 20)%Z 400 (Json.JNum (85 # 100)) false Json.JNull
    "segmentation".

End Inputs.

(* ================================================================== *)
(** * Properties *)

(** ** The frame buffer *)

Section FrameBuffer.
Import CameraService.

Lemma full_spec (q : Queue) :
  full q = true <-> (0 < maxsize q <= qsize q)%Z.
Proof.
  unfold full. rewrite andb_true_iff, Z.ltb_lt, Z.leb_le. tauto.
Qed.

Lemma qsize_snoc (m : Z) (l : list CapturedFrame) (x : CapturedFrame) :
  qsize (mkQueue m (l ++ [x])) = (qsize (mkQueue m l) + 1)%Z.
Proof.
  unfold qsize. cbn [items]. rewrite length_app. cbn [List.length]. lia.
Qed.

(** A push into a buffer that is not full appends and drops nothing. *)
Lemma capture_step_room (s : state) (frame : Img.ndarray) (t : Q) :
  full (frame_queue s) = false ->
  capture_step s frame t =
    Some (mkState
            (mkQueue (maxsize (frame_queue s))
               (items (frame_queue s) ++
                [mkCaptured (frame_count s + 1) t frame
                   (Img.frame_width frame) (Img.frame_height frame)]))
            (frame_count s + 1) (dropped_frames s)).
Proof.
  intros Hroom. unfold capture_step. rewrite Hroom.
  unfold put. rewrite Hroom. reflexivity.
Qed.

(** A push into a full buffer evicts the head, counts it, then appends. *)
Lemma capture_step_evicts (s : state) (frame : Img.ndarray) (t : Q) :
  bounded s ->
  full (frame_queue s) = true ->
  exists oldest rest,
    items (frame_queue s) = oldest :: rest /\
    capture_step s frame t =
      Some (mkState
              (mkQueue (maxsize (frame_queue s))
                 (rest ++
                  [mkCaptured (frame_count s + 1) t frame
                     (Img.frame_width frame) (Img.frame_height frame)]))
              (frame_count s + 1) (dropped_frames s + 1)).
Proof.
  intros Hb Hfull.
  pose proof (proj1 (full_spec _) Hfull) as [Hpos Hle].
  unfold bounded in Hb.
  destruct s as [[m l] n d]; cbn [frame_queue maxsize items frame_count dropped_frames] in *.
  destruct l as [|oldest rest].
  - unfold qsize in Hle; cbn in Hle; lia.
  - exists oldest, rest. split; [reflexivity|].
    unfold capture_step. cbn [frame_queue frame_count dropped_frames].
    rewrite Hfull. unfold get_nowait. cbn [items maxsize].
    unfold put.
    assert (Hroom : full (mkQueue m rest) = false).
    { apply not_true_is_false. rewrite full_spec. cbn [maxsize].
      unfold qsize in *. cbn [items List.length] in *. lia. }
    rewrite Hroom. reflexivity.
Qed.

(** One iteration never blocks in [put] and keeps the bound. *)
Lemma capture_step_bounded (s : state) (frame : Img.ndarray) (t : Q) :
  (0 < maxsize (frame_queue s))%Z ->
  bounded s ->
  exists s',
    capture_step s frame t = Some s' /\
    maxsize (frame_queue s') = maxsize (frame_queue s) /\
    bounded s'.
Proof.
  intros Hpos Hb.
  destruct (full (frame_queue s)) eqn:Hfull.
  - destruct (@capture_step_evicts s frame t Hb Hfull) as (oldest & rest & Hitems & Hstep).
    eexists. split; [exact Hstep|]. split; [reflexivity|].
    unfold bounded in *. cbn [frame_queue maxsize].
    rewrite qsize_snoc. unfold qsize in *. rewrite Hitems in Hb.
    cbn [items List.length] in *. lia.
  - eexists. split; [apply capture_step_room; exact Hfull|]. split; [reflexivity|].
    unfold bounded in *. cbn [frame_queue maxsize].
    rewrite qsize_snoc.
    assert (~ (0 < maxsize (frame_queue s) <= qsize (frame_queue s))%Z) as Hn.
    { rewrite <- full_spec. congruence. }
    destruct (frame_queue s) as [m l]; cbn [maxsize items] in *.
    unfold qsize in *; cbn [items] in *. lia.
Qed.

Lemma capture_loop_bounded (frames : list (Img.ndarray * Q)) :
  forall s,
    (0 < maxsize (frame_queue s))%Z ->
    bounded s ->
    exists s',
      capture_loop s frames = Some s' /\
      maxsize (frame_queue s') = maxsize (frame_queue s) /\
      bounded s'.
Proof.
  induction frames as [|[f t] rest IH]; intros s Hpos Hb.
  - exists s. repeat split; assumption.
  - destruct (@capture_step_bounded s f t Hpos Hb) as (s1 & Hstep & Hmax & Hb1).
    destruct (IH s1) as (s' & Hloop & Hmax' & Hb'); [lia | assumption |].
    exists s'. cbn [capture_loop]. rewrite Hstep.
    repeat split; [assumption | congruence | assumption].
Qed.

(** Draining returns the queued frames in order and leaves the queue empty. *)
Lemma drain_fuel_items (l : list CapturedFrame) :
  forall m n d fuel,
    (List.length l < fuel)%nat ->
    drain_fuel fuel (mkState (mkQueue m l) n d) = (l, mkState (mkQueue m []) n d).
Proof.
  induction l as [|x l IH]; intros m n d fuel Hfuel;
    (destruct fuel as [|fuel]; [cbn in Hfuel; lia|]).
  - reflexivity.
  - cbn [drain_fuel]. unfold get_frame, get_nowait.
    cbn [frame_queue items maxsize frame_count dropped_frames].
    rewrite IH by (cbn in Hfuel; lia). reflexivity.
Qed.

Lemma drain_items (s : state) :
  drain s =
    (items (frame_queue s),
     mkState (mkQueue (maxsize (frame_queue s)) []) (frame_count s) (dropped_frames s)).
Proof.
  destruct s as [[m l] n d]. unfold drain.
  cbn [frame_queue items maxsize frame_count dropped_frames].
  apply drain_fuel_items. lia.
Qed.

End FrameBuffer.

(** C5.  For every sequence of pushes into a capacity-N frame buffer the
    buffer never holds more than N frames (and the producer never blocks);
    a push into a full buffer evicts exactly the oldest entry and adds one to
    the dropped-frame counter before it inserts; and 35 pushes into the
    capacity-30 buffer of the service leave, in FIFO order, the frames with
    ids 6 to 35 and a dropped counter of 5. *)
Theorem frame_buffer_drop_oldest :
  (forall (N : Z) (s : CameraService.state) (frames : list (Img.ndarray * Q)),
      (0 < N)%Z ->
      CameraService.maxsize (CameraService.frame_queue s) = N ->
      (CameraService.qsize (CameraService.frame_queue s) <= N)%Z ->
      exists s',
        CameraService.capture_loop s frames = Some s' /\
        (CameraService.qsize (CameraService.frame_queue s') <= N)%Z)
  /\
  (forall (s : CameraService.state) (frame : Img.ndarray) (t : Q),
      CameraService.bounded s ->
      CameraService.full (CameraService.frame_queue s) = true ->
      exists oldest rest s',
        CameraService.items (CameraService.frame_queue s) = oldest :: rest /\
        CameraService.capture_step s frame t = Some s' /\
        map CameraService.frame_id (CameraService.items (CameraService.frame_queue s')) =
          map CameraService.frame_id rest ++ [(CameraService.frame_count s + 1)%Z] /\
        CameraService.dropped_frames s' = (CameraService.dropped_frames s + 1)%Z)
  /\
  (forall frames : list (Img.ndarray * Q),
      List.length frames = 35%nat ->
      exists s,
        CameraService.capture_loop CameraService.init frames = Some s /\
        map CameraService.frame_id (fst (CameraService.drain s)) =
          map Z.of_nat (seq 6 30) /\
        CameraService.dropped_frames s = 5%Z).
Proof.
  split; [|split].
  - intros N s frames HN Hmax Hsize.
    destruct (@capture_loop_bounded frames s) as (s' & Hloop & Hmax' & Hb').
    + lia.
    + unfold CameraService.bounded; lia.
    + exists s'. split; [assumption|]. unfold CameraService.bounded in Hb'. lia.
  - intros s frame t Hb Hfull.
    destruct (@capture_step_evicts s frame t Hb Hfull) as (oldest & rest & Hitems & Hstep).
    exists oldest, rest. eexists. split; [assumption|]. split; [exact Hstep|].
    cbn. rewrite map_app. split; reflexivity.
  - intros frames Hlen.
    do 35 (destruct frames as [|[? ?] frames]; [discriminate Hlen|]).
    destruct frames; [|discriminate Hlen].
    eexists. split; [vm_compute; reflexivity|].
    split; reflexivity.
Qed.

(** A run of [frame_buffer_drop_oldest]: four pushes into a buffer of capacity 3. *)
Lemma frame_buffer_drop_oldest_witness :
  exists s',
    CameraService.capture_loop (CameraService.init_with 3)
      (repeat (Img.Gray [[0%Z]], 0%Q) 4) = Some s' /\
    (CameraService.qsize (CameraService.frame_queue s') <= 3)%Z.
Proof.
  apply (proj1 frame_buffer_drop_oldest 3%Z (CameraService.init_with 3)
           (repeat (Img.Gray [[0%Z]], 0%Q) 4)).
  - lia.
  - reflexivity.
  - vm_compute. discriminate.
Defined.

(** ** The reference OpenCV implementation satisfies the interface laws *)

Section ReferenceOpenCV.
Import Img Cv2 Cv2Ref.

Lemma length_mapi_from {A B} (f : nat -> A -> B) (l : list A) :
  forall i, List.length (mapi_from i f l) = List.length l.
Proof. induction l as [|a l IH]; intros i; cbn; [reflexivity | now rewrite IH]. Qed.

Lemma row_lengths_mapi_rows {A B} (f : nat -> nat -> A -> B) (g : list (list A)) :
  forall i,
    row_lengths (mapi_from i (fun y row => mapi_from 0 (f y) row) g) = row_lengths g.
Proof.
  unfold row_lengths.
  induction g as [|row g IH]; intros i; cbn; [reflexivity|].
  f_equal; [apply length_mapi_from | apply IH].
Qed.

Lemma row_lengths_tabulate_like (g : gray) (f : nat -> nat -> Z) :
  row_lengths (tabulate_like g f) = row_lengths g.
Proof.
  unfold tabulate_like.
  apply (row_lengths_mapi_rows (fun y x (_ : Z) => f y x)).
Qed.

Lemma mapi_from_repeat {A B} (f : nat -> A -> B) (a : A) (b : B) (n : nat) :
  forall i,
    (forall j, (i <= j < i + n)%nat -> f j a = b) ->
    mapi_from i f (repeat a n) = repeat b n.
Proof.
  induction n as [|n IH]; intros i Hf; cbn; [reflexivity|].
  rewrite Hf by lia. rewrite IH; [reflexivity|].
  intros j Hj. apply Hf. lia.
Qed.

(** Tabulating a function that is constant on the index range gives a
    uniform image. *)
Lemma tabulate_like_const (h w : nat) (c v : Z) (f : nat -> nat -> Z) :
  (forall y x, (y < h)%nat -> (x < w)%nat -> f y x = v) ->
  tabulate_like (const h w c) f = const h w v.
Proof.
  intros Hf. unfold tabulate_like, const.
  apply mapi_from_repeat. intros y Hy.
  apply mapi_from_repeat. intros x Hx. apply Hf; lia.
Qed.

Lemma pixel_const (h w : nat) (v : Z) (y x : nat) :
  (y < h)%nat -> (x < w)%nat -> pixel (const h w v) y x = v.
Proof.
  intros Hy Hx. unfold pixel, const.
  rewrite (nth_repeat_lt _ _ Hy). now apply nth_repeat_lt.
Qed.

Lemma pixel_opt_const (h w : nat) (v : Z) (y x p : Z) :
  pixel_opt (const h w v) y x = Some p -> p = v.
Proof.
  unfold pixel_opt, const.
  destruct ((0 <=? y) && (0 <=? x))%Z; [|discriminate].
  destruct (nth_error (repeat (repeat v w) h) (Z.to_nat y)) as [row|] eqn:Hrow;
    [|discriminate].
  apply nth_error_In, repeat_spec in Hrow. subst row.
  intros Hp. apply nth_error_In, repeat_spec in Hp. exact Hp.
Qed.

Lemma height_const (h w : nat) (v : Z) : height (const h w v) = h.
Proof. apply repeat_length. Qed.

Lemma width_const (h w : nat) (v : Z) : (0 < h)%nat -> width (const h w v) = w.
Proof.
  intros Hh. destruct h as [|h]; [lia|]. cbn. apply repeat_length.
Qed.

Lemma reflect101_lt (p : Z) (len : nat) : (0 < len)%nat -> (reflect101 p len < len)%nat.
Proof.
  intros Hlen. unfold reflect101.
  destruct (len <=? 1)%nat eqn:Hsmall; [lia|].
  apply Nat.leb_gt in Hsmall.
  pose proof (Z.mod_pos_bound p (2 * (Z.of_nat len - 1))) as Hm.
  destruct (p mod (2 * (Z.of_nat len - 1)) <? Z.of_nat len)%Z eqn:Hcmp.
  - apply Z.ltb_lt in Hcmp. lia.
  - apply Z.ltb_ge in Hcmp. lia.
Qed.

Lemma pixel_reflect_const (h w : nat) (v : Z) (y x : Z) :
  (0 < h)%nat -> (0 < w)%nat -> pixel_reflect (const h w v) y x = v.
Proof.
  intros Hh Hw. unfold pixel_reflect.
  rewrite height_const, (width_const _ _ Hh).
  apply pixel_const; now apply reflect101_lt.
Qed.

Lemma GaussianBlur_ref_const (h w : nat) (v : Z) (k : nat * nat) :
  Cv2Ref.GaussianBlur (const h w v) k = const h w v.
Proof.
  unfold Cv2Ref.GaussianBlur. apply tabulate_like_const.
  intros y x Hy Hx. unfold weighted_sum, binomial5. cbn [fold_right].
  rewrite !pixel_reflect_const by lia.
  symmetry. apply Z.div_unique with (r := 128%Z); lia.
Qed.

Lemma fold_left_idem (op : Z -> Z -> Z) (v : Z) (l : list Z) :
  op v v = v -> Forall (eq v) l -> fold_left op l v = v.
Proof.
  intros Hop Hall. induction Hall as [|x l Hx _ IH]; cbn; [reflexivity|].
  subst x. now rewrite Hop.
Qed.

Lemma neighbourhood_const (h w : nat) (v : Z) (k : nat * nat) (y x : nat) :
  Forall (eq v) (neighbourhood (const h w v) k y x).
Proof.
  destruct k as [ky kx]. unfold neighbourhood.
  apply Forall_forall. intros p Hp.
  apply in_flat_map in Hp. destruct Hp as (dy & _ & Hp).
  apply in_flat_map in Hp. destruct Hp as (dx & _ & Hp).
  destruct (pixel_opt _ _ _) as [q|] eqn:Hq; [|contradiction].
  destruct Hp as [<-|[]]. symmetry. eapply pixel_opt_const. exact Hq.
Qed.

Lemma dilate_const (k : nat * nat) (h w : nat) (v : Z) :
  dilate k (const h w v) = const h w v.
Proof.
  unfold dilate. apply tabulate_like_const. intros y x Hy Hx.
  rewrite pixel_const by assumption.
  apply fold_left_idem; [apply Z.max_id | apply neighbourhood_const].
Qed.

Lemma erode_const (k : nat * nat) (h w : nat) (v : Z) :
  erode k (const h w v) = const h w v.
Proof.
  unfold erode. apply tabulate_like_const. intros y x Hy Hx.
  rewrite pixel_const by assumption.
  apply fold_left_idem; [apply Z.min_id | apply neighbourhood_const].
Qed.

Lemma iter_fixed {A} (f : A -> A) (a : A) (n : nat) : f a = a -> Nat.iter n f a = a.
Proof.
  intros Hf. induction n as [|n IH]; [reflexivity|].
  change (Nat.iter (S n) f a) with (f (Nat.iter n f a)). now rewrite IH.
Qed.

Lemma morphologyEx_ref_const (h w : nat) (v : Z) op (k : nat * nat) (n : nat) :
  Cv2Ref.morphologyEx (const h w v) op k n = const h w v.
Proof.
  destruct op; unfold Cv2Ref.morphologyEx.
  - rewrite (iter_fixed n (dilate_const k h w v)).
    apply iter_fixed, erode_const.
  - rewrite (iter_fixed n (erode_const k h w v)).
    apply iter_fixed, dilate_const.
Qed.

Lemma row_lengths_iter (f : gray -> gray) (n : nat) (g : gray) :
  (forall a, row_lengths (f a) = row_lengths a) ->
  row_lengths (Nat.iter n f g) = row_lengths g.
Proof.
  intros Hf. induction n as [|n IH]; [reflexivity|].
  change (Nat.iter (S n) f g) with (f (Nat.iter n f g)). now rewrite Hf.
Qed.

Lemma morphologyEx_ref_shape (g : gray) op (k : nat * nat) (n : nat) :
  row_lengths (Cv2Ref.morphologyEx g op k n) = row_lengths g.
Proof.
  assert (Hd : forall a, row_lengths (dilate k a) = row_lengths a)
    by (intros a; apply row_lengths_tabulate_like).
  assert (He : forall a, row_lengths (erode k a) = row_lengths a)
    by (intros a; apply row_lengths_tabulate_like).
  destruct op; unfold Cv2Ref.morphologyEx.
  - rewrite (row_lengths_iter n _ He). apply (row_lengths_iter n _ Hd).
  - rewrite (row_lengths_iter n _ Hd). apply (row_lengths_iter n _ He).
Qed.

Lemma flat_map_nil {A B} (f : A -> list B) (l : list A) :
  (forall a, In a l -> f a = []) -> flat_map f l = [].
Proof.
  intros Hf. induction l as [|a l IH]; cbn; [reflexivity|].
  rewrite Hf by now left. apply IH. intros b Hb. apply Hf. now right.
Qed.

Lemma in_foreground (g : gray) (X Y : Z) :
  In (X, Y) (foreground g) <->
  exists y x, (y < height g)%nat /\ (x < width g)%nat /\
              pixel g y x <> 0%Z /\ X = Z.of_nat x /\ Y = Z.of_nat y.
Proof.
  unfold foreground. rewrite in_flat_map. split.
  - intros (y & Hy & Hin). apply in_flat_map in Hin. destruct Hin as (x & Hx & Hin).
    apply in_seq in Hy, Hx.
    destruct (pixel g y x =? 0)%Z eqn:Hp; [contradiction|].
    apply Z.eqb_neq in Hp. destruct Hin as [Heq|[]]. inversion Heq; subst.
    exists y, x. split; [lia|]. split; [lia|]. split; [exact Hp|]. split; reflexivity.
  - intros (y & x & Hy & Hx & Hp & -> & ->).
    exists y. split; [apply in_seq; lia|].
    apply in_flat_map. exists x. split; [apply in_seq; lia|].
    apply Z.eqb_neq in Hp. rewrite Hp. now left.
Qed.

Lemma foreground_zero (h w : nat) : foreground (const h w 0) = [].
Proof.
  unfold foreground. apply flat_map_nil. intros y Hy. apply in_seq in Hy.
  rewrite height_const in Hy.
  apply flat_map_nil. intros x Hx. apply in_seq in Hx.
  rewrite width_const in Hx by lia.
  rewrite pixel_const by lia. reflexivity.
Qed.

Lemma fold_min_eq (l : list Z) :
  forall a lo,
    (forall z, In z (a :: l) -> (lo <= z)%Z) -> In lo (a :: l) ->
    fold_left Z.min l a = lo.
Proof.
  induction l as [|x l IH]; intros a lo Hlo Hin; cbn.
  - destruct Hin as [->|[]]. reflexivity.
  - apply IH.
    + intros z [<-|Hz]; [|apply Hlo; cbn; auto].
      pose proof (Hlo a (or_introl eq_refl)).
      pose proof (Hlo x (or_intror (or_introl eq_refl))). lia.
    + pose proof (Hlo a (or_introl eq_refl)).
      pose proof (Hlo x (or_intror (or_introl eq_refl))).
      destruct Hin as [->|[->|Hin]]; [left; lia | left; lia | now right].
Qed.

Lemma fold_max_eq (l : list Z) :
  forall a hi,
    (forall z, In z (a :: l) -> (z <= hi)%Z) -> In hi (a :: l) ->
    fold_left Z.max l a = hi.
Proof.
  induction l as [|x l IH]; intros a hi Hhi Hin; cbn.
  - destruct Hin as [->|[]]. reflexivity.
  - apply IH.
    + intros z [<-|Hz]; [|apply Hhi; cbn; auto].
      pose proof (Hhi a (or_introl eq_refl)).
      pose proof (Hhi x (or_intror (or_introl eq_refl))). lia.
    + pose proof (Hhi a (or_introl eq_refl)).
      pose proof (Hhi x (or_intror (or_introl eq_refl))).
      destruct Hin as [->|[->|Hin]]; [left; lia | left; lia | now right].
Qed.

(** The bounding box of a set of points that lies in, and touches the
    corners of, a rectangle. *)
Lemma bbox_eq (p : Z * Z) (ps : list (Z * Z)) (x0 y0 x1 y1 : Z) :
  (forall q, In q (p :: ps) -> (x0 <= fst q <= x1 /\ y0 <= snd q <= y1)%Z) ->
  In (x0, y0) (p :: ps) -> In (x1, y1) (p :: ps) ->
  bbox p ps = (x0, y0, x1, y1).
Proof.
  intros Hin Hlo Hhi. unfold bbox.
  assert (Hfst : forall z, In z (fst p :: map fst ps) -> exists q, In q (p :: ps) /\ fst q = z).
  { intros z Hz. change (In z (map fst (p :: ps))) in Hz.
    apply in_map_iff in Hz. destruct Hz as (q & <- & Hq). eauto. }
  assert (Hsnd : forall z, In z (snd p :: map snd ps) -> exists q, In q (p :: ps) /\ snd q = z).
  { intros z Hz. change (In z (map snd (p :: ps))) in Hz.
    apply in_map_iff in Hz. destruct Hz as (q & <- & Hq). eauto. }
  rewrite (@fold_min_eq (map fst ps) (fst p) x0),
          (@fold_min_eq (map snd ps) (snd p) y0),
          (@fold_max_eq (map fst ps) (fst p) x1),
          (@fold_max_eq (map snd ps) (snd p) y1); try reflexivity.
  - intros z Hz. destruct (Hsnd z Hz) as (q & Hq & <-). apply Hin, Hq.
  - change (In (snd (x1, y1)) (map snd (p :: ps))). now apply in_map.
  - intros z Hz. destruct (Hfst z Hz) as (q & Hq & <-). apply Hin, Hq.
  - change (In (fst (x1, y1)) (map fst (p :: ps))). now apply in_map.
  - intros z Hz. destruct (Hsnd z Hz) as (q & Hq & <-). apply Hin, Hq.
  - change (In (snd (x0, y0)) (map snd (p :: ps))). now apply in_map.
  - intros z Hz. destruct (Hfst z Hz) as (q & Hq & <-). apply Hin, Hq.
  - change (In (fst (x0, y0)) (map fst (p :: ps))). now apply in_map.
Qed.

Lemma findContours_ref_zero (h w : nat) : Cv2Ref.findContours (const h w 0) = [].
Proof. unfold Cv2Ref.findContours. now rewrite foreground_zero. Qed.

Lemma findContours_ref_full (h w : nat) :
  (2 <= h)%nat -> (2 <= w)%nat ->
  Cv2Ref.findContours (const h w 255) = [frame_outline w h].
Proof.
  intros Hh Hw. unfold Cv2Ref.findContours.
  assert (Hin : forall X Y, In (X, Y) (foreground (const h w 255)) <->
                            (0 <= X <= Z.of_nat w - 1 /\ 0 <= Y <= Z.of_nat h - 1)%Z).
  { intros X Y. rewrite in_foreground, height_const, width_const by lia. split.
    - intros (y & x & Hy & Hx & _ & -> & ->). lia.
    - intros [HX HY]. exists (Z.to_nat Y), (Z.to_nat X).
      repeat split; try lia. rewrite pixel_const by lia. discriminate. }
  destruct (foreground (const h w 255)) as [|p ps] eqn:Hfg.
  - exfalso. apply (proj2 (Hin 0%Z 0%Z)). lia.
  - rewrite (@bbox_eq p ps 0%Z 0%Z (Z.of_nat w - 1)%Z (Z.of_nat h - 1)%Z).
    + reflexivity.
    + intros [X Y] Hq. cbn [fst snd]. apply Hin. exact Hq.
    + apply Hin. lia.
    + apply Hin. lia.
Qed.

Lemma contourArea_ref_outline (h w : nat) :
  (2 <= h)%nat -> (2 <= w)%nat ->
  (Cv2Ref.contourArea (frame_outline w h)
   == inject_Z ((Z.of_nat w - 1) * (Z.of_nat h - 1)))%Q.
Proof.
  intros Hh Hw. unfold Cv2Ref.contourArea, frame_outline, green_sums.
  cbn [green edge_terms]. unfold Qeq. cbn [Qnum Qden inject_Z].
  assert (0 <= (Z.of_nat w - 1) * (Z.of_nat h - 1))%Z by (apply Z.mul_nonneg_nonneg; lia).
  lia.
Qed.

Lemma drawContours_ref_outline (h w : nat) :
  (2 <= h)%nat -> (2 <= w)%nat ->
  Cv2Ref.drawContours (const h w 0) (frame_outline w h) 255 = const h w 255.
Proof.
  intros Hh Hw. unfold Cv2Ref.drawContours, frame_outline, bbox.
  cbn [map fst snd fold_left].
  apply tabulate_like_const. intros y x Hy Hx.
  replace (_ && _ && _ && _) with true; [reflexivity|].
  symmetry. rewrite !andb_true_iff, !Z.leb_le. lia.
Qed.

Lemma drawContours_ref_shape (g : gray) (c : contour) (v : Z) :
  row_lengths (Cv2Ref.drawContours g c v) = row_lengths g.
Proof.
  unfold Cv2Ref.drawContours. destruct c as [|p ps]; [reflexivity|].
  destruct (bbox p ps) as [[[x0 y0] x1] y1]. apply row_lengths_tabulate_like.
Qed.

Lemma moments_ref_m00_nonneg (c : contour) : (0 <= m00 (Cv2Ref.moments c))%Q.
Proof.
  unfold Cv2Ref.moments. destruct (green_sums c) as [[a00 a10] a01].
  cbn [m00]. unfold Qle. cbn [Qnum Qden]. lia.
Qed.

Lemma Cv2Ref_sound : Cv2.sound Cv2Ref.cv.
Proof.
  constructor; cbn.
  - intros c. unfold Cv2Ref.cvtColor_BGR2GRAY, row_lengths.
    rewrite map_map. apply map_ext. intros row. apply length_map.
  - intros g k. apply row_lengths_tabulate_like.
  - apply morphologyEx_ref_shape.
  - apply drawContours_ref_shape.
  - apply moments_ref_m00_nonneg.
Qed.

Lemma Cv2Ref_uniform : Cv2.uniform Cv2Ref.cv.
Proof.
  constructor; cbn.
  - intros h w v k _ _ _ _ _. apply GaussianBlur_ref_const.
  - intros h w v op k n _ _ _ _ _. apply morphologyEx_ref_const.
  - intros h w _ _. apply findContours_ref_zero.
  - apply findContours_ref_full.
  - apply contourArea_ref_outline.
  - apply drawContours_ref_outline.
Qed.

End ReferenceOpenCV.

(** ** Dictionaries *)

Section Dictionaries.
Import Py.
Context {V : Type}.

Lemma dict_get_set_eq (k : string) (v : V) (d : list (string * V)) :
  dict_get k (dict_set k v d) = Some v.
Proof.
  induction d as [|[k' v'] d IH]; cbn.
  - now rewrite String.eqb_refl.
  - destruct (String.eqb k k') eqn:E; cbn; rewrite E; [reflexivity | exact IH].
Qed.

Lemma dict_get_set_ne (k k' : string) (v : V) (d : list (string * V)) :
  k <> k' -> dict_get k' (dict_set k v d) = dict_get k' d.
Proof.
  intros Hne. induction d as [|[k0 v0] d IH]; cbn.
  - destruct (String.eqb_spec k' k); [congruence | reflexivity].
  - destruct (String.eqb_spec k k0); cbn.
    + subst k0. destruct (String.eqb_spec k' k); [congruence | reflexivity].
    + destruct (String.eqb_spec k' k0); [reflexivity | exact IH].
Qed.

Lemma dict_get_In (k : string) (v : V) (d : list (string * V)) :
  dict_get k d = Some v -> In (k, v) d.
Proof.
  induction d as [|[k' v'] d IH]; cbn; [discriminate|].
  destruct (String.eqb_spec k k').
  - intros [= ->]. subst. now left.
  - intros H. right. now apply IH.
Qed.

Lemma dict_get_None_keys (k : string) (d : list (string * V)) :
  dict_get k d = None <-> ~ In k (keys d).
Proof.
  induction d as [|[k' v'] d IH]; cbn; [tauto|].
  destruct (String.eqb_spec k k').
  - subst. split; [discriminate | intros H; exfalso; apply H; now left].
  - rewrite IH. unfold keys. split; [intros H [Heq|Hin]; [congruence | tauto] | tauto].
Qed.

Lemma in_dict_set (k s : string) (v x : V) (d : list (string * V)) :
  In (k, v) (dict_set s x d) -> In (k, v) d \/ (k = s /\ v = x).
Proof.
  induction d as [|[k' v'] d IH]; cbn.
  - intros [[= <- <-]|[]]. now right.
  - destruct (String.eqb_spec s k').
    + subst k'. intros [[= <- <-]|Hin]; [now right | left; now right].
    + intros [Heq|Hin]; [left; now left|].
      destruct (IH Hin) as [H|H]; [left; now right | now right].
Qed.

Lemma in_fill (f : string -> V) (ks : list string) :
  forall (d : list (string * V)) (k : string) (v : V),
    In (k, v) (fold_left (fun m s => dict_set s (f s) m) ks d) ->
    In (k, v) d \/ (In k ks /\ v = f k).
Proof.
  induction ks as [|s ks IH]; intros d k v Hin; cbn [fold_left] in Hin.
  - now left.
  - destruct (IH _ _ _ Hin) as [Hd|[Hk Hv]].
    + destruct (in_dict_set Hd) as [H|[-> ->]]; [now left|].
      right. split; [now left | reflexivity].
    + right. split; [now right | exact Hv].
Qed.

(** Filling a dictionary key by key, as the loop of [segment_all] does. *)
Lemma dict_get_fill (f : string -> V) (ks : list string) :
  forall (d : list (string * V)) (k : string),
    dict_get k (fold_left (fun m s => dict_set s (f s) m) ks d) =
      if in_dec string_dec k ks then Some (f k) else dict_get k d.
Proof.
  induction ks as [|s ks IH]; intros d k; cbn [fold_left].
  - reflexivity.
  - rewrite IH. destruct (in_dec string_dec k ks) as [Hin|Hnin].
    + destruct (in_dec string_dec k (s :: ks)) as [_|Hn]; [reflexivity|].
      exfalso. apply Hn. now right.
    + destruct (string_dec s k) as [->|Hne].
      * rewrite dict_get_set_eq.
        destruct (in_dec string_dec k (k :: ks)) as [_|Hn]; [reflexivity|].
        exfalso. apply Hn. now left.
      * rewrite dict_get_set_ne by assumption.
        destruct (in_dec string_dec k (s :: ks)) as [[Heq|Hin]|_];
          [congruence | contradiction | reflexivity].
Qed.

End Dictionaries.

(** ** The segmentation engine *)

Section Segmentation.
Import Py Img Cv2 NeuroimagingSegmenter.

Lemma row_lengths_map_map {A B} (f : A -> B) (a : list (list A)) :
  row_lengths (map (map f) a) = row_lengths a.
Proof.
  unfold row_lengths. rewrite map_map. apply map_ext. intros row. apply length_map.
Qed.

Lemma row_lengths_zip_with {A B C} (f : A -> B -> C) (a : list (list A)) :
  forall b : list (list B),
    row_lengths a = row_lengths b ->
    row_lengths (zip_with (zip_with f) a b) = row_lengths a.
Proof.
  unfold row_lengths.
  induction a as [|ra a IH]; intros [|rb b] Hab; cbn in *; try congruence.
  injection Hab as Hrow Hrest. f_equal; [|now apply IH].
  clear -Hrow. revert rb Hrow.
  induction ra as [|x ra IHr]; intros [|y rb] Hrow; cbn in *; try congruence.
  f_equal. apply IHr. congruence.
Qed.

Lemma height_rows {A} (a : list (list A)) : height a = List.length (row_lengths a).
Proof. unfold height, row_lengths. now rewrite length_map. Qed.

Lemma width_rows {A} (a : list (list A)) : width a = hd 0%nat (row_lengths a).
Proof. destruct a; reflexivity. Qed.

Lemma all_zero_zeros_like (a : gray) : all_zero (zeros_like a).
Proof.
  unfold all_zero, zeros_like.
  apply Forall_forall. intros row Hrow. apply in_map_iff in Hrow.
  destruct Hrow as (r & <- & _).
  apply Forall_forall. intros p Hp. apply in_map_iff in Hp.
  now destruct Hp as (q & <- & _).
Qed.

Section WithOpenCV.
Variable cv : ops.
Hypothesis Hcv : sound cv.

Lemma preprocess_shape (frame : ndarray) :
  row_lengths (snd (preprocess cv frame)) = frame_rows frame.
Proof.
  unfold preprocess. cbn [snd]. rewrite (GaussianBlur_shape Hcv).
  destruct frame as [g|c]; cbn [frame_rows]; [reflexivity|].
  apply (cvtColor_shape Hcv).
Qed.

Lemma create_roi_mask_shape (blurred : gray) (t : Z) :
  row_lengths (create_roi_mask cv blurred t) = row_lengths blurred.
Proof.
  unfold create_roi_mask, threshold_binary.
  rewrite (morphologyEx_shape Hcv). apply row_lengths_map_map.
Qed.

Lemma filtered_shape (min_area : Z) (contours : list contour) :
  forall filtered : gray,
    row_lengths
      (fold_left
         (fun filtered cnt =>
            if negb (Qle_bool (contourArea cv cnt) (inject_Z min_area))
            then drawContours cv filtered cnt 255
            else filtered)
         contours filtered) = row_lengths filtered.
Proof.
  induction contours as [|cnt contours IH]; intros filtered; cbn [fold_left].
  - reflexivity.
  - rewrite IH. destruct (negb _); [apply (drawContours_shape Hcv) | reflexivity].
Qed.

Lemma segment_structure_shape (self : t) (blurred roi_mask : gray)
      (structure : string) (min_area : Z) :
  row_lengths roi_mask = row_lengths blurred ->
  row_lengths (segment_structure cv self blurred roi_mask structure min_area)
    = row_lengths blurred.
Proof.
  intros Hroi. unfold segment_structure.
  destruct (dict_get structure (thresholds self)) as [[low high]|].
  - rewrite filtered_shape. unfold zeros_like. rewrite row_lengths_map_map.
    rewrite !(morphologyEx_shape Hcv). unfold bitwise_and.
    assert (Hmask : row_lengths
                      (if (low =? 0)%Z then threshold_binary_inv blurred high 255
                       else inRange blurred low high) = row_lengths blurred).
    { destruct (low =? 0)%Z; apply row_lengths_map_map. }
    rewrite row_lengths_zip_with; [exact Hmask | now rewrite Hroi].
  - apply row_lengths_map_map.
Qed.

End WithOpenCV.

(** The dictionary [segment_all] returns, key by key. *)
Lemma segment_all_get (cv : ops) (self : t) (frame : ndarray) (structure : string) :
  dict_get structure (segment_all cv self frame) =
    if in_dec string_dec structure (keys (thresholds self))
    then Some (segment_structure cv self
                 (snd (preprocess cv frame))
                 (create_roi_mask cv (snd (preprocess cv frame)) 15)
                 structure 300)
    else None.
Proof.
  unfold segment_all. destruct (preprocess cv frame) as [gray blurred]. cbn [snd].
  apply (dict_get_fill
           (fun s => segment_structure cv self blurred (create_roi_mask cv blurred 15) s 300)).
Qed.

End Segmentation.

(** C7.  For every input frame, single- or multi-channel, every mask in the
    dictionary returned by [segment_all] has exactly the width and the height
    of the frame. *)
Theorem segment_all_masks_have_frame_size
        (cv : Cv2.ops) (self : NeuroimagingSegmenter.t) (frame : Img.ndarray)
        (structure : string) (mask : Img.gray) :
  Cv2.sound cv ->
  In (structure, mask) (NeuroimagingSegmenter.segment_all cv self frame) ->
  Img.height mask = Img.frame_height frame /\ Img.width mask = Img.frame_width frame.
Proof.
  intros Hcv Hin.
  assert (Hrows : Img.row_lengths mask = Img.frame_rows frame).
  { unfold NeuroimagingSegmenter.segment_all in Hin.
    pose proof (preprocess_shape Hcv frame) as Hpre.
    destruct (NeuroimagingSegmenter.preprocess cv frame) as [gray blurred].
    cbn [snd] in Hpre.
    apply in_fill in Hin. destruct Hin as [[]|(_ & ->)].
    rewrite segment_structure_shape; [exact Hpre | exact Hcv |].
    now apply create_roi_mask_shape. }
  rewrite height_rows, width_rows, Hrows.
  destruct frame as [g|c]; cbn [Img.frame_rows Img.frame_height Img.frame_width];
    now rewrite height_rows, width_rows.
Qed.

(** A run of [segment_all_masks_have_frame_size] on a 3 x 2 frame. *)
Lemma segment_all_masks_have_frame_size_witness :
  Img.height (Img.const 2 3 0) = Img.frame_height Inputs.small_gray /\
  Img.width (Img.const 2 3 0) = Img.frame_width Inputs.small_gray.
Proof.
  apply (@segment_all_masks_have_frame_size Cv2Ref.cv Inputs.or_segmenter
           Inputs.small_gray "blood" (Img.const 2 3 0) Cv2Ref_sound).
  vm_compute. left. reflexivity.
Defined.

(** C6 as stated fails: under the OR-camera table, which has no entry for
    "tumor", the dictionary [segment_all] returns has no entry for "tumor"
    either, so there is no all-zero mask under that name. *)
Lemma segment_all_omits_absent_name :
  Py.dict_get "tumor" (NeuroimagingSegmenter.thresholds Inputs.or_segmenter) = None /\
  ~ (exists mask,
        Py.dict_get "tumor"
          (NeuroimagingSegmenter.segment_all Cv2Ref.cv Inputs.or_segmenter Inputs.small_gray)
          = Some mask /\
        Img.all_zero mask).
Proof.
  split; [reflexivity|].
  intros (mask & Hget & _). rewrite segment_all_get in Hget.
  vm_compute in Hget. discriminate Hget.
Qed.

(** C6, amended.  For every structure name absent from the active threshold
    table, [segment_structure] returns an all-zero mask of the shape of the
    image it is given, and the dictionary returned by [segment_all], whose
    keys are those of the table, has no entry under that name. *)
Theorem absent_structure_zero_mask_and_no_key
        (cv : Cv2.ops) (self : NeuroimagingSegmenter.t) (frame : Img.ndarray)
        (blurred roi_mask : Img.gray) (structure : string) (min_area : Z) :
  Py.dict_get structure (NeuroimagingSegmenter.thresholds self) = None ->
  Img.all_zero
    (NeuroimagingSegmenter.segment_structure cv self blurred roi_mask structure min_area) /\
  Img.row_lengths
    (NeuroimagingSegmenter.segment_structure cv self blurred roi_mask structure min_area)
    = Img.row_lengths blurred /\
  Py.dict_get structure (NeuroimagingSegmenter.segment_all cv self frame) = None /\
  (forall name, Py.dict_mem name (NeuroimagingSegmenter.segment_all cv self frame) =
                Py.dict_mem name (NeuroimagingSegmenter.thresholds self)).
Proof.
  intros Habsent.
  unfold NeuroimagingSegmenter.segment_structure. rewrite Habsent.
  split; [apply all_zero_zeros_like|].
  split; [apply row_lengths_map_map|].
  assert (Hkeys : forall name,
             Py.dict_mem name (NeuroimagingSegmenter.segment_all cv self frame) =
             Py.dict_mem name (NeuroimagingSegmenter.thresholds self)).
  { intros name. unfold Py.dict_mem. rewrite segment_all_get.
    destruct (in_dec string_dec name (Py.keys (NeuroimagingSegmenter.thresholds self)))
      as [Hin|Hnin].
    - destruct (Py.dict_get name (NeuroimagingSegmenter.thresholds self)) eqn:Hget;
        [reflexivity|].
      apply dict_get_None_keys in Hget. contradiction.
    - apply dict_get_None_keys in Hnin. now rewrite Hnin. }
  split; [|exact Hkeys].
  specialize (Hkeys structure). unfold Py.dict_mem in Hkeys. rewrite Habsent in Hkeys.
  destruct (Py.dict_get structure (NeuroimagingSegmenter.segment_all cv self frame));
    [discriminate | reflexivity].
Qed.

(** A run of [absent_structure_zero_mask_and_no_key]: "tumor" under the
    OR-camera table. *)
Lemma absent_structure_zero_mask_and_no_key_witness :
  Img.all_zero
    (NeuroimagingSegmenter.segment_structure Cv2Ref.cv Inputs.or_segmenter
       (Img.const 2 3 100) (Img.const 2 3 255) "tumor" 300) /\
  Img.row_lengths
    (NeuroimagingSegmenter.segment_structure Cv2Ref.cv Inputs.or_segmenter
       (Img.const 2 3 100) (Img.const 2 3 255) "tumor" 300)
    = Img.row_lengths (Img.const 2 3 100) /\
  Py.dict_get "tumor"
    (NeuroimagingSegmenter.segment_all Cv2Ref.cv Inputs.or_segmenter Inputs.small_gray) = None /\
  (forall name,
      Py.dict_mem name
        (NeuroimagingSegmenter.segment_all Cv2Ref.cv Inputs.or_segmenter Inputs.small_gray) =
      Py.dict_mem name (NeuroimagingSegmenter.thresholds Inputs.or_segmenter)).
Proof.
  apply (@absent_structure_zero_mask_and_no_key Cv2Ref.cv Inputs.or_segmenter
           Inputs.small_gray (Img.const 2 3 100) (Img.const 2 3 255) "tumor" 300).
  reflexivity.
Defined.

(** C9.  Constructing the segmenter with a modality name that is not in the
    threshold tables does not raise: the segmenter gets the OR-camera table,
    and every later [segment_all] is the one of the OR-camera segmenter. *)
Theorem unknown_modality_falls_back_to_or_camera (modality : string) :
  Py.dict_get modality NeuroimagingSegmenter.THRESHOLDS = None ->
  exists seg,
    NeuroimagingSegmenter.init modality = Py.Ok seg /\
    NeuroimagingSegmenter.modality seg = modality /\
    NeuroimagingSegmenter.thresholds seg =
      NeuroimagingSegmenter.thresholds Inputs.or_segmenter /\
    Py.dict_get "OR_CAMERA" NeuroimagingSegmenter.THRESHOLDS =
      Some (NeuroimagingSegmenter.thresholds seg) /\
    forall cv frame,
      NeuroimagingSegmenter.segment_all cv seg frame =
      NeuroimagingSegmenter.segment_all cv Inputs.or_segmenter frame.
Proof.
  intros Hunknown. unfold NeuroimagingSegmenter.init.
  assert (Hdefault : Py.dict_get "OR_CAMERA" NeuroimagingSegmenter.THRESHOLDS =
                     Some (NeuroimagingSegmenter.thresholds Inputs.or_segmenter))
    by reflexivity.
  rewrite Hdefault, Hunknown. eexists. split; [reflexivity|].
  repeat split.
Qed.

(** A run of [unknown_modality_falls_back_to_or_camera] at "FLAIR". *)
Lemma unknown_modality_falls_back_to_or_camera_witness :
  exists seg,
    NeuroimagingSegmenter.init "FLAIR" = Py.Ok seg /\
    NeuroimagingSegmenter.modality seg = "FLAIR" /\
    NeuroimagingSegmenter.thresholds seg =
      NeuroimagingSegmenter.thresholds Inputs.or_segmenter /\
    Py.dict_get "OR_CAMERA" NeuroimagingSegmenter.THRESHOLDS =
      Some (NeuroimagingSegmenter.thresholds seg) /\
    forall cv frame,
      NeuroimagingSegmenter.segment_all cv seg frame =
      NeuroimagingSegmenter.segment_all cv Inputs.or_segmenter frame.
Proof.
  apply (@unknown_modality_falls_back_to_or_camera "FLAIR"). reflexivity.
Defined.

(** ** Segmenting a uniform frame *)

Section UniformFrames.
Import Py Img Cv2 NeuroimagingSegmenter.

Lemma map_map_const {B} (f : Z -> B) (h w : nat) (v : Z) :
  map (map f) (const h w v) = repeat (repeat (f v) w) h.
Proof. unfold const. now rewrite !map_repeat. Qed.

Lemma threshold_binary_const (h w : nat) (v t m : Z) :
  threshold_binary (const h w v) t m = const h w (if (t <? v)%Z then m else 0%Z).
Proof. apply map_map_const. Qed.

Lemma threshold_binary_inv_const (h w : nat) (v t m : Z) :
  threshold_binary_inv (const h w v) t m = const h w (if (t <? v)%Z then 0%Z else m).
Proof. apply map_map_const. Qed.

Lemma inRange_const (h w : nat) (v lo hi : Z) :
  inRange (const h w v) lo hi =
    const h w (if ((lo <=? v) && (v <=? hi))%Z then 255%Z else 0%Z).
Proof. apply map_map_const. Qed.

Lemma zeros_like_const (h w : nat) (v : Z) : zeros_like (const h w v) = const h w 0.
Proof. apply map_map_const. Qed.

Lemma zip_with_repeat {A B C} (f : A -> B -> C) (a : A) (b : B) (n : nat) :
  zip_with f (repeat a n) (repeat b n) = repeat (f a b) n.
Proof. induction n as [|n IH]; cbn; [reflexivity | now rewrite IH]. Qed.

Lemma bitwise_and_const (h w : nat) (a b : Z) :
  bitwise_and (const h w a) (const h w b) = const h w (Z.land a b).
Proof.
  unfold bitwise_and, const. rewrite zip_with_repeat. now rewrite zip_with_repeat.
Qed.

Variable cv : ops.
Hypothesis Hcv : uniform cv.
Variables h w : nat.
Hypothesis Hh : (2 <= h)%nat.
Hypothesis Hw : (2 <= w)%nat.

Lemma preprocess_uniform (v : Z) :
  (0 <= v <= 255)%Z ->
  preprocess cv (Gray (const h w v)) = (const h w v, const h w v).
Proof.
  intros Hv. unfold preprocess.
  rewrite (GaussianBlur_const Hcv); [reflexivity | lia | lia | exact Hv | reflexivity | reflexivity].
Qed.

Lemma create_roi_mask_uniform (v : Z) :
  (15 < v <= 255)%Z -> create_roi_mask cv (const h w v) 15 = const h w 255.
Proof.
  intros Hv. unfold create_roi_mask. rewrite threshold_binary_const.
  replace (15 <? v)%Z with true by (symmetry; apply Z.ltb_lt; lia).
  apply (morphologyEx_const Hcv); cbn [fst snd]; lia.
Qed.

(** A structure whose range excludes the gray level gets an empty mask. *)
Lemma segment_structure_uniform_out (self : t) (structure : string)
      (low high v min_area : Z) :
  dict_get structure (thresholds self) = Some (low, high) ->
  low <> 0%Z ->
  ((low <=? v) && (v <=? high))%Z = false ->
  segment_structure cv self (const h w v) (const h w 255) structure min_area
    = const h w 0.
Proof.
  intros Hget Hlow Hout. unfold segment_structure. rewrite Hget.
  apply Z.eqb_neq in Hlow. rewrite Hlow, inRange_const, Hout, bitwise_and_const.
  change (Z.land 0 255) with 0%Z.
  rewrite !(morphologyEx_const Hcv) by (cbn [fst snd]; lia).
  rewrite (findContours_zero Hcv) by lia. cbn [fold_left]. apply zeros_like_const.
Qed.

(** A structure whose range contains the gray level gets the whole frame,
    provided the frame outline is larger than the minimum area. *)
Lemma segment_structure_uniform_in (self : t) (structure : string)
      (low high v min_area : Z) :
  dict_get structure (thresholds self) = Some (low, high) ->
  low <> 0%Z ->
  ((low <=? v) && (v <=? high))%Z = true ->
  (min_area < (Z.of_nat w - 1) * (Z.of_nat h - 1))%Z ->
  segment_structure cv self (const h w v) (const h w 255) structure min_area
    = const h w 255.
Proof.
  intros Hget Hlow Hin Harea. unfold segment_structure. rewrite Hget.
  apply Z.eqb_neq in Hlow. rewrite Hlow, inRange_const, Hin, bitwise_and_const.
  change (Z.land 255 255) with 255%Z.
  rewrite !(morphologyEx_const Hcv) by (cbn [fst snd]; lia).
  rewrite (findContours_full Hcv) by assumption. cbn [fold_left].
  assert (Hbig : Qle_bool (contourArea cv (frame_outline w h)) (inject_Z min_area) = false).
  { apply not_true_is_false. rewrite Qle_bool_iff.
    rewrite (contourArea_outline Hcv) by assumption.
    rewrite <- Zle_Qle. lia. }
  rewrite Hbig. cbn [negb]. rewrite zeros_like_const.
  now apply (drawContours_outline Hcv).
Qed.

End UniformFrames.

(** C8.  A 640 x 480 single-channel frame whose every pixel is 100, segmented
    under the ultrasound modality (the table "USG"), yields an all-zero tumor
    mask and a parenchyma mask that is non-empty and covers the whole region
    of interest: both the region of interest and the mask are 255 at every
    pixel. *)
Theorem mid_gray_ultrasound_scenario (cv : Cv2.ops) :
  Cv2.uniform cv ->
  NeuroimagingSegmenter.init "USG" = Py.Ok Inputs.usg_segmenter /\
  Py.dict_get "tumor"
    (NeuroimagingSegmenter.segment_all cv Inputs.usg_segmenter Inputs.mid_gray)
    = Some (Img.const 480 640 0) /\
  Py.dict_get "parenchyma"
    (NeuroimagingSegmenter.segment_all cv Inputs.usg_segmenter Inputs.mid_gray)
    = Some (Img.const 480 640 255) /\
  NeuroimagingSegmenter.create_roi_mask cv
    (snd (NeuroimagingSegmenter.preprocess cv Inputs.mid_gray)) 15
    = Img.const 480 640 255.
Proof.
  intros Hcv. split; [reflexivity|].
  assert (Hh : (2 <= 480)%nat) by lia.
  assert (Hw : (2 <= 640)%nat) by lia.
  rewrite !segment_all_get. unfold Inputs.mid_gray.
  rewrite (preprocess_uniform Hcv Hh Hw) by lia. cbn [snd].
  rewrite (create_roi_mask_uniform Hcv Hh Hw) by lia.
  split; [|split; [|reflexivity]].
  - destruct (in_dec string_dec "tumor" _) as [_|Hn];
      [|exfalso; apply Hn; cbn; auto].
    f_equal. apply (segment_structure_uniform_out Hcv Hh Hw) with (low := 160%Z) (high := 255%Z);
      [reflexivity | discriminate | reflexivity].
  - destruct (in_dec string_dec "parenchyma" _) as [_|Hn];
      [|exfalso; apply Hn; cbn; auto].
    f_equal.
    apply (segment_structure_uniform_in Hcv Hh Hw) with (low := 50%Z) (high := 150%Z);
      [reflexivity | discriminate | reflexivity | lia].
Qed.

(** A run of [mid_gray_ultrasound_scenario] on the reference implementation. *)
Lemma mid_gray_ultrasound_scenario_witness :
  NeuroimagingSegmenter.init "USG" = Py.Ok Inputs.usg_segmenter /\
  Py.dict_get "tumor"
    (NeuroimagingSegmenter.segment_all Cv2Ref.cv Inputs.usg_segmenter Inputs.mid_gray)
    = Some (Img.const 480 640 0) /\
  Py.dict_get "parenchyma"
    (NeuroimagingSegmenter.segment_all Cv2Ref.cv Inputs.usg_segmenter Inputs.mid_gray)
    = Some (Img.const 480 640 255) /\
  NeuroimagingSegmenter.create_roi_mask Cv2Ref.cv
    (snd (NeuroimagingSegmenter.preprocess Cv2Ref.cv Inputs.mid_gray)) 15
    = Img.const 480 640 255.
Proof.
  apply (@mid_gray_ultrasound_scenario Cv2Ref.cv). exact Cv2Ref_uniform.
Defined.

(** ** Contours and centroids *)

Section Contours.
Import Py Img Cv2 NeuroimagingSegmenter.

Lemma dict_mem_set {V} (s k : string) (v : V) (d : list (string * V)) :
  dict_mem s (dict_set k v d) = true <-> s = k \/ dict_mem s d = true.
Proof.
  unfold dict_mem. destruct (string_dec k s) as [->|Hne].
  - rewrite dict_get_set_eq. tauto.
  - rewrite dict_get_set_ne by assumption.
    split; [tauto | intros [Heq|H]; [congruence | exact H]].
Qed.

Variable cv : ops.

(** A contour is described exactly when its zeroth moment is positive. *)
Lemma describe_nonempty (cnt : contour) :
  describe cv cnt <> [] <-> (0 < m00 (moments cv cnt))%Q.
Proof.
  unfold describe.
  destruct (Qle_bool (m00 (moments cv cnt)) 0) eqn:Hle; cbn [negb].
  - apply Qle_bool_iff in Hle. split; [congruence|].
    intros Hlt. exfalso. apply (Qlt_not_le _ _ Hlt Hle).
  - split; [|discriminate]. intros _. apply Qnot_le_lt.
    rewrite <- Qle_bool_iff. congruence.
Qed.

Lemma flat_map_describe_nonempty (contours : list contour) :
  flat_map (describe cv) contours <> [] <->
  Exists (fun cnt => (0 < m00 (moments cv cnt))%Q) contours.
Proof.
  induction contours as [|cnt contours IH]; cbn [flat_map].
  - split; [congruence | intros H; inversion H].
  - rewrite Exists_cons, <- IH, <- describe_nonempty.
    destruct (describe cv cnt); cbn; [tauto|].
    split; [intros _; left; discriminate | discriminate].
Qed.

Lemma record_structure_mem (masks : list (string * gray)) :
  forall (results : list (string * list instance)) (s : string),
    dict_mem s (fold_left (record_structure cv) masks results) = true <->
    dict_mem s results = true \/
    exists mask, In (s, mask) masks /\
                 Exists (fun cnt => (0 < m00 (moments cv cnt))%Q) (findContours cv mask).
Proof.
  induction masks as [|[k mask] masks IH]; intros results s; cbn [fold_left].
  - split; [now left | intros [H|(m & [] & _)]; exact H].
  - rewrite IH. clear IH.
    unfold record_structure. cbv zeta.
    destruct (flat_map (describe cv) (findContours cv mask)) as [|x r] eqn:Hdata.
    + split.
      * intros [H|(m & Hin & He)]; [now left|].
        right. exists m. split; [now right | exact He].
      * intros [H|(m & [Heq|Hin] & He)]; [now left | |].
        -- injection Heq as <- <-.
           apply flat_map_describe_nonempty in He. congruence.
        -- right. exists m. split; assumption.
    + rewrite dict_mem_set. split.
      * intros [[->|H]|(m & Hin & He)].
        -- right. exists mask. split; [now left|].
           apply flat_map_describe_nonempty. rewrite Hdata. discriminate.
        -- now left.
        -- right. exists m. split; [now right | exact He].
      * intros [H|(m & [Heq|Hin] & He)].
        -- left. now right.
        -- injection Heq as <- <-. left. now left.
        -- right. exists m. split; assumption.
Qed.

Lemma record_structure_nonempty (masks : list (string * gray)) :
  forall results : list (string * list instance),
    (forall s data, dict_get s results = Some data -> data <> []) ->
    forall s data,
      dict_get s (fold_left (record_structure cv) masks results) = Some data -> data <> [].
Proof.
  induction masks as [|[k mask] masks IH]; intros results Hres; cbn [fold_left].
  - exact Hres.
  - apply IH. intros s data. unfold record_structure. cbv zeta.
    destruct (flat_map (describe cv) (findContours cv mask)) as [|x r]; [apply Hres|].
    destruct (string_dec k s) as [->|Hne].
    + rewrite dict_get_set_eq. intros [= <-]. discriminate.
    + rewrite dict_get_set_ne by assumption. apply Hres.
Qed.

End Contours.

(** C10.  For every mask dictionary, the result of
    [get_contours_and_centroids] has a key for a structure if and only if a
    mask of that structure has at least one external contour with nonzero
    zeroth moment; any other structure is absent from the result, and no key
    is mapped to an empty list. *)
Theorem contours_key_iff_nonzero_moment
        (cv : Cv2.ops) (masks : list (string * Img.gray)) :
  Cv2.sound cv ->
  (forall structure,
      Py.dict_mem structure (NeuroimagingSegmenter.get_contours_and_centroids cv masks) = true
      <->
      exists mask,
        In (structure, mask) masks /\
        Exists (fun cnt => ~ (Cv2.m00 (Cv2.moments cv cnt) == 0)%Q)
               (Cv2.findContours cv mask))
  /\
  (forall structure data,
      Py.dict_get structure (NeuroimagingSegmenter.get_contours_and_centroids cv masks)
        = Some data ->
      data <> []).
Proof.
  intros Hcv. split.
  - intros structure. unfold NeuroimagingSegmenter.get_contours_and_centroids.
    rewrite record_structure_mem.
    split.
    + intros [H|(mask & Hin & He)]; [discriminate H|].
      exists mask. split; [exact Hin|].
      apply Exists_exists in He. destruct He as (cnt & Hcnt & Hpos).
      apply Exists_exists. exists cnt. split; [exact Hcnt|].
      intros Hz. rewrite Hz in Hpos. apply (Qlt_irrefl _ Hpos).
    + intros (mask & Hin & He). right. exists mask. split; [exact Hin|].
      apply Exists_exists in He. destruct He as (cnt & Hcnt & Hnz).
      apply Exists_exists. exists cnt. split; [exact Hcnt|].
      pose proof (@Cv2.moments_m00_nonneg cv Hcv cnt) as Hge.
      apply Qle_lt_or_eq in Hge. destruct Hge as [Hlt|Heq]; [exact Hlt|].
      exfalso. apply Hnz. symmetry. exact Heq.
  - intros structure data. unfold NeuroimagingSegmenter.get_contours_and_centroids.
    apply record_structure_nonempty. intros s d. discriminate.
Qed.

(** A run of [contours_key_iff_nonzero_moment] on the reference
    implementation with one filled and one empty mask. *)
Lemma contours_key_iff_nonzero_moment_witness :
  (forall structure,
      Py.dict_mem structure
        (NeuroimagingSegmenter.get_contours_and_centroids Cv2Ref.cv Inputs.sample_masks) = true
      <->
      exists mask,
        In (structure, mask) Inputs.sample_masks /\
        Exists (fun cnt => ~ (Cv2.m00 (Cv2.moments Cv2Ref.cv cnt) == 0)%Q)
               (Cv2.findContours Cv2Ref.cv mask))
  /\
  (forall structure data,
      Py.dict_get structure
        (NeuroimagingSegmenter.get_contours_and_centroids Cv2Ref.cv Inputs.sample_masks)
        = Some data ->
      data <> []).
Proof.
  apply (@contours_key_iff_nonzero_moment Cv2Ref.cv Inputs.sample_masks).
  exact Cv2Ref_sound.
Defined.

(** On those masks the filled structure is reported and the empty one is absent. *)
Example sample_masks_keys :
  Py.keys (NeuroimagingSegmenter.get_contours_and_centroids Cv2Ref.cv Inputs.sample_masks)
    = ["tumor"].
Proof. vm_compute. reflexivity. Qed.

(** ** Trajectory validation *)

Section Trajectory.
Import AnalysisService.

Lemma dist2_nonneg (p c : Z * Z) : (0 <= dist2 p c)%Z.
Proof.
  unfold dist2. rewrite !Z.pow_2_r.
  pose proof (Z.square_nonneg (fst p - fst c)).
  pose proof (Z.square_nonneg (snd p - snd c)). lia.
Qed.




Lemma in_critical_pairs trajectory structures (p : Z * Z) (s : StructureDetection) :
  In (p, s) (critical_pairs trajectory structures) <->
  In p trajectory /\ In s structures /\ is_critical s = true.
Proof.
  unfold critical_pairs. rewrite in_flat_map. split.
  - intros (pt & Hpt & Hin). apply in_map_iff in Hin.
    destruct Hin as (s' & [= <- <-] & Hs). apply filter_In in Hs. tauto.
  - intros (Hp & Hs & Hc). exists p. split; [exact Hp|].
    apply in_map. apply filter_In. tauto.
Qed.

Variable margin : Z.

Lemma inner_loop_filter (pt : Z * Z) (structures : list StructureDetection) :
  forall st,
    fold_left (visit margin pt) structures st =
    fold_left (visit_pair margin) (map (pair pt) (filter is_critical structures)) st.
Proof.
  induction structures as [|s structures IH]; intros st; cbn [fold_left filter].
  - reflexivity.
  - destruct (is_critical s) eqn:Hc; cbn [map fold_left].
    + apply IH.
    + rewrite <- IH. unfold visit at 2. now rewrite Hc.
Qed.

Lemma loops_as_pairs (trajectory : list (Z * Z)) (structures : list StructureDetection) :
  forall st,
    fold_left (fun st pt => fold_left (visit margin pt) structures st) trajectory st =
    fold_left (visit_pair margin) (critical_pairs trajectory structures) st.
Proof.
  unfold critical_pairs.
  induction trajectory as [|pt trajectory IH]; intros st; cbn [fold_left flat_map].
  - reflexivity.
  - rewrite fold_left_app, IH, inner_loop_filter. reflexivity.
Qed.

Lemma scan_warnings (ps : list ((Z * Z) * StructureDetection)) :
  forall st,
    s_warnings (fold_left (visit_pair margin) ps st) =
    s_warnings st ++
    flat_map
      (fun q =>
         if is_critical (snd q) && dist_lt (dist2 (fst q) (centroid (snd q))) margin
         then [ mkWarning (name (snd q)) (Z.sqrt (dist2 (fst q) (centroid (snd q)))) (fst q)
                  (if dist_lt_half (dist2 (fst q) (centroid (snd q))) margin then "critical" else "warning") ]
         else [])
      ps.
Proof.
  induction ps as [|q ps IH]; intros st; cbn [fold_left flat_map].
  - now rewrite app_nil_r.
  - rewrite IH. unfold visit_pair, visit.
    destruct (is_critical (snd q)); cbn [andb]; [|reflexivity].
    destruct (dist_lt (dist2 (fst q) (centroid (snd q))) margin); cbn [s_warnings]; [|reflexivity].
    now rewrite <- app_assoc.
Qed.

Lemma scan_is_safe (ps : list ((Z * Z) * StructureDetection)) :
  forall st,
    s_is_safe (fold_left (visit_pair margin) ps st) =
    s_is_safe st &&
    forallb (fun q => negb (is_critical (snd q) && dist_lt (dist2 (fst q) (centroid (snd q))) margin)) ps.
Proof.
  induction ps as [|q ps IH]; intros st; cbn [fold_left forallb].
  - now rewrite andb_true_r.
  - rewrite IH. unfold visit_pair, visit.
    destruct (is_critical (snd q)); cbn [andb negb]; [|reflexivity].
    destruct (dist_lt (dist2 (fst q) (centroid (snd q))) margin); cbn [s_is_safe negb andb]; [|reflexivity].
    now rewrite andb_false_r.
Qed.


End Trajectory.



(** A run of [validate_trajectory]: one point in the critical zone of a
    vessel, one far away. *)
Example validate_trajectory_run :
  let r := AnalysisService.validate_trajectory
             [(0, 0)%Z; (100, 100)%Z] [Inputs.vessel_at_1_1] 50 in
  AnalysisService.is_safe r = false /\
  AnalysisService.min_distance_to_critical_px r = Some 1%Z /\
  map AnalysisService.severity (AnalysisService.warnings r) = ["critical"] /\
  AnalysisService.recommendation r = "Adjust trajectory to avoid critical structures".
Proof. vm_compute. repeat split. Qed.

(** ** The orchestrator *)

Section Orchestrator.
Import Py Json AnalysisService.

Variable float_of_str : string -> option Q.
Variable cv : Cv2.ops.

(** The score derived from detections is clamped. *)
Lemma calculate_safety_score_in_range (structures : list StructureDetection) :
  (0 <= _calculate_safety_score structures <= 100)%Q.
Proof.
  unfold _calculate_safety_score. split.
  - apply Q.le_max_l.
  - apply Q.max_lub; [discriminate | apply Q.le_min_l].
Qed.

Lemma finish_returns (self : service) (w : world) (frame_id : Z)
      (ty : AnalysisType) (loc : locals) (sent : nat) :
  exists r,
    outcome (finish self w frame_id ty loc sent) = Ok r /\
    raw_analysis r = l_raw_analysis loc /\
    safety_score r =
      (if negb (nonempty (l_raw_analysis loc))
       then _calculate_safety_score (l_structures loc)
       else l_safety_score loc).
Proof. eexists. repeat split. Qed.

(** The external pass never raises; it sends at most one request, and it
    moves the throttle clock exactly when it sends one. *)
Lemma external_pass_state (self : service) (w : world) (loc : locals) :
  claude_analysis_interval (fst (fst (external_pass float_of_str self w loc)))
    = claude_analysis_interval self /\
  ((snd (external_pass float_of_str self w loc) = 1%nat /\
    _last_claude_time (fst (fst (external_pass float_of_str self w loc))) = current_time w)
   \/
   (snd (external_pass float_of_str self w loc) = 0%nat /\
    fst (fst (external_pass float_of_str self w loc)) = self)).
Proof.
  unfold external_pass, ClaudeVisionAnalyzer.analyze_frame, ClaudeVisionAnalyzer.request_sent.
  destruct (encoded w) as [b64|t m]; cbn [bind].
  - destruct (if negb (dict_mem "error" _) then _ else _) as [loc' raised].
    cbn [fst snd set_cache claude_analysis_interval _last_claude_time].
    split; [reflexivity|]. left. split; reflexivity.
  - cbn [fst snd]. split; [reflexivity|]. right. split; reflexivity.
Qed.

(** What a call does to the throttle state. *)
Lemma analyze_frame_throttle_state (self : service) (w : world) (frame : Img.ndarray)
      (frame_id : Z) (ty : AnalysisType) (force : bool) :
  claude_analysis_interval (after (analyze_frame float_of_str cv self w frame frame_id ty force))
    = claude_analysis_interval self /\
  ((requests (analyze_frame float_of_str cv self w frame frame_id ty force) = 1%nat /\
    _last_claude_time (after (analyze_frame float_of_str cv self w frame frame_id ty force))
      = current_time w /\
    should_run_claude self ty force w = true)
   \/
   (requests (analyze_frame float_of_str cv self w frame frame_id ty force) = 0%nat /\
    _last_claude_time (after (analyze_frame float_of_str cv self w frame frame_id ty force))
      = _last_claude_time self)).
Proof.
  unfold analyze_frame.
  set (loc := match segmenter self, ty with
              | Some seg, (SEGMENTATION_ONLY | HYBRID | NAVIGATION) =>
                  local_pass cv seg frame initial_locals
              | _, _ => initial_locals
              end).
  destruct (should_run_claude self ty force w) eqn:Hrun.
  - pose proof (external_pass_state self w loc) as [Hint Hst].
    destruct (external_pass float_of_str self w loc) as [[self' loc'] sent].
    cbn [fst snd] in Hint, Hst.
    cbn [finish after requests claude_analysis_interval _last_claude_time].
    split; [exact Hint|].
    destruct Hst as [[-> Hlast]|[-> ->]]; [left | right]; auto.
  - destruct (nonempty (_last_claude_analysis self) && _).
    + destruct (_extract_safety_score float_of_str _) as [q|t m];
        cbn [finish after requests claude_analysis_interval _last_claude_time];
        (split; [reflexivity | right; split; reflexivity]).
    + cbn [finish after requests claude_analysis_interval _last_claude_time].
      split; [reflexivity | right; split; reflexivity].
Qed.

(** When the external pass runs, the call returns a result. *)
Lemma external_pass_returns (self : service) (w : world) (frame : Img.ndarray)
      (frame_id : Z) (ty : AnalysisType) (force : bool) :
  should_run_claude self ty force w = true ->
  exists r, outcome (analyze_frame float_of_str cv self w frame frame_id ty force) = Ok r.
Proof.
  intros Hrun. unfold analyze_frame. rewrite Hrun.
  destruct (external_pass _ _ _ _) as [[self' loc'] sent].
  eexists. reflexivity.
Qed.

(** The [except] handler: when the analyzer itself raises and the cache holds
    a payload, that payload is what the result carries. *)
Lemma analyzer_exception_falls_back_to_cache (self : service) (w : world)
      (frame : Img.ndarray) (frame_id : Z) (ty : AnalysisType) (force : bool)
      (t m : string) :
  should_run_claude self ty force w = true ->
  encoded w = Raise t m ->
  nonempty (_last_claude_analysis self) = true ->
  exists r,
    outcome (analyze_frame float_of_str cv self w frame frame_id ty force) = Ok r /\
    raw_analysis r = _last_claude_analysis self /\
    requests (analyze_frame float_of_str cv self w frame frame_id ty force) = 0%nat.
Proof.
  intros Hrun Henc Hcache. unfold analyze_frame. rewrite Hrun.
  unfold external_pass, ClaudeVisionAnalyzer.analyze_frame, ClaudeVisionAnalyzer.request_sent.
  rewrite Henc. cbn [bind]. unfold fall_back. rewrite Hcache.
  eexists. repeat split.
Qed.

(** Whenever the result carries no external payload, its safety score is the
    clamped score of the detections. *)
Lemma local_safety_score_in_range (self : service) (w : world) (frame : Img.ndarray)
      (frame_id : Z) (ty : AnalysisType) (force : bool) (r : AnalysisResult) :
  outcome (analyze_frame float_of_str cv self w frame frame_id ty force) = Ok r ->
  nonempty (raw_analysis r) = false ->
  (0 <= safety_score r <= 100)%Q.
Proof.
  assert (Hfin : forall s' loc sent,
             outcome (finish s' w frame_id ty loc sent) = Ok r ->
             nonempty (raw_analysis r) = false ->
             (0 <= safety_score r <= 100)%Q).
  { intros s' loc sent Hout Hraw.
    cbn [finish outcome] in Hout. injection Hout as <-.
    cbn [raw_analysis] in Hraw. cbn [safety_score]. rewrite Hraw. cbn [negb].
    apply calculate_safety_score_in_range. }
  unfold analyze_frame.
  destruct (should_run_claude self ty force w).
  - destruct (external_pass _ _ _ _) as [[self' loc'] sent]. apply Hfin.
  - destruct (nonempty (_last_claude_analysis self) && _).
    + destruct (_extract_safety_score float_of_str _) as [q|t m]; [apply Hfin|].
      cbn [outcome]. discriminate.
    + apply Hfin.
Qed.

(** Calls in between leave the interval alone and never move the throttle
    clock before a time that they all read the clock after. *)
Lemma serve_all_throttle_state (rs : list request) :
  forall (self : service) (lo : Q),
    (lo <= _last_claude_time self)%Q ->
    (forall r, In r rs -> (lo <= current_time (r_world r))%Q) ->
    claude_analysis_interval (serve_all float_of_str cv self rs)
      = claude_analysis_interval self /\
    (lo <= _last_claude_time (serve_all float_of_str cv self rs))%Q.
Proof.
  induction rs as [|r rs IH]; intros self lo Hlo Hrs; cbn [serve_all fold_left].
  - split; [reflexivity | exact Hlo].
  - pose proof (analyze_frame_throttle_state self (r_world r) (r_frame r) (r_frame_id r)
                  (r_analysis_type r) (r_force_claude r)) as [Hint Hst].
    fold (serve float_of_str cv self r) in Hint, Hst.
    destruct (IH (after (serve float_of_str cv self r)) lo) as [Hint' Hlo'].
    + destruct Hst as [(_ & -> & _)|(_ & ->)]; [apply Hrs; now left | exact Hlo].
    + intros r' Hr'. apply Hrs. now right.
    + unfold serve_all in *. split; [congruence | exact Hlo'].
Qed.

End Orchestrator.

(** C2 as stated fails: the throttle compares the clock readings taken after
    the local pass, not the start times.  Two calls that start 0.4 s apart,
    with an interval of 0.5 s, both send a request when the second spends
    0.2 s in segmentation. *)
Lemma throttle_by_start_time_fails :
  (AnalysisService.start_time (AnalysisService.r_world Inputs.second_call)
   - AnalysisService.start_time (AnalysisService.r_world Inputs.first_call)
   < AnalysisService.claude_analysis_interval Inputs.fresh_service)%Q /\
  AnalysisService.r_force_claude Inputs.first_call = false /\
  AnalysisService.r_force_claude Inputs.second_call = false /\
  (AnalysisService.requests
     (AnalysisService.serve Inputs.no_numeric_strings Cv2Ref.cv
        Inputs.fresh_service Inputs.first_call)
   + AnalysisService.requests
       (AnalysisService.serve Inputs.no_numeric_strings Cv2Ref.cv
          (AnalysisService.after
             (AnalysisService.serve Inputs.no_numeric_strings Cv2Ref.cv
                Inputs.fresh_service Inputs.first_call))
          Inputs.second_call)
   = 2)%nat.
Proof. vm_compute. repeat split. Qed.

(** C2, amended.  For every pair of calls with [force_claude = false] in a
    sequence of awaited calls on one service, if the clock readings taken for
    the throttle test (after the local pass) differ by less than the
    configured interval, and no call in between read that clock earlier than
    the first, then at most one request is sent to the external service
    across the two calls. *)
Theorem throttle_at_most_one_request
        (float_of_str : string -> option Q) (cv : Cv2.ops)
        (self : AnalysisService.service)
        (first : AnalysisService.request) (between : list AnalysisService.request)
        (second : AnalysisService.request) :
  AnalysisService.r_force_claude first = false ->
  AnalysisService.r_force_claude second = false ->
  (forall r, In r between ->
             (AnalysisService.current_time (AnalysisService.r_world first)
              <= AnalysisService.current_time (AnalysisService.r_world r))%Q) ->
  (AnalysisService.current_time (AnalysisService.r_world second)
   - AnalysisService.current_time (AnalysisService.r_world first)
   < AnalysisService.claude_analysis_interval self)%Q ->
  (AnalysisService.requests (AnalysisService.serve float_of_str cv self first)
   + AnalysisService.requests
       (AnalysisService.serve float_of_str cv
          (AnalysisService.serve_all float_of_str cv
             (AnalysisService.after (AnalysisService.serve float_of_str cv self first))
             between)
          second)
   <= 1)%nat.
Proof.
  intros Hf1 Hf2 Hbetween Hclose.
  set (c1 := AnalysisService.serve float_of_str cv self first).
  set (s2 := AnalysisService.serve_all float_of_str cv (AnalysisService.after c1) between).
  pose proof (analyze_frame_throttle_state float_of_str cv self
                (AnalysisService.r_world first) (AnalysisService.r_frame first)
                (AnalysisService.r_frame_id first) (AnalysisService.r_analysis_type first)
                (AnalysisService.r_force_claude first)) as [Hint1 Hst1].
  pose proof (analyze_frame_throttle_state float_of_str cv s2
                (AnalysisService.r_world second) (AnalysisService.r_frame second)
                (AnalysisService.r_frame_id second) (AnalysisService.r_analysis_type second)
                (AnalysisService.r_force_claude second)) as [_ Hst2].
  fold (AnalysisService.serve float_of_str cv self first) in Hint1, Hst1.
  fold (AnalysisService.serve float_of_str cv s2 second) in Hst2.
  fold c1 in Hint1, Hst1.
  destruct Hst1 as [(Hreq1 & Hlast1 & _)|(Hreq1 & _)].
  - destruct (@serve_all_throttle_state float_of_str cv between (AnalysisService.after c1)
                (AnalysisService.current_time (AnalysisService.r_world first)))
      as [Hint2 Hlo2].
    + rewrite Hlast1. apply Qle_refl.
    + exact Hbetween.
    + fold s2 in Hint2, Hlo2.
      destruct Hst2 as [(_ & _ & Hrun)|(Hreq2 & _)]; [exfalso | rewrite Hreq1, Hreq2; lia].
      unfold AnalysisService.should_run_claude in Hrun.
      rewrite Hf2 in Hrun. cbn [orb] in Hrun.
      apply andb_true_iff in Hrun. destruct Hrun as [_ Hrun].
      apply Qle_bool_iff in Hrun. rewrite Hint2, Hint1 in Hrun.
      Lqa.lra.
  - rewrite Hreq1. destruct Hst2 as [(-> & _)|(-> & _)]; lia.
Qed.

(** A run of [throttle_at_most_one_request]: the second call reads the clock
    0.4 s after the first and sends nothing. *)
Lemma throttle_at_most_one_request_witness :
  (AnalysisService.requests
     (AnalysisService.serve Inputs.no_numeric_strings Cv2Ref.cv
        Inputs.fresh_service Inputs.first_call)
   + AnalysisService.requests
       (AnalysisService.serve Inputs.no_numeric_strings Cv2Ref.cv
          (AnalysisService.serve_all Inputs.no_numeric_strings Cv2Ref.cv
             (AnalysisService.after
                (AnalysisService.serve Inputs.no_numeric_strings Cv2Ref.cv
                   Inputs.fresh_service Inputs.first_call))
             [])
          Inputs.close_call)
   <= 1)%nat.
Proof.
  apply (@throttle_at_most_one_request Inputs.no_numeric_strings Cv2Ref.cv
           Inputs.fresh_service Inputs.first_call [] Inputs.close_call).
  - reflexivity.
  - reflexivity.
  - intros r [].
  - vm_compute. reflexivity.
Defined.

(** C1 fails on the code.  With a cached payload present, a request that
    times out inside [ClaudeVisionAnalyzer.analyze_frame] is turned into an
    error dictionary there, so the [except] handler of the service is not
    reached: the result carries the error dictionary, not the cached
    payload, and the cache itself is overwritten by it. *)
Theorem timeout_reply_replaces_cached_payload
        (float_of_str : string -> option Q) (cv : Cv2.ops) (frame : Img.ndarray) :
  AnalysisService._last_claude_analysis Inputs.cached_service = Some Inputs.cached_payload /\
  exists r,
    AnalysisService.outcome
      (AnalysisService.analyze_frame float_of_str cv Inputs.cached_service
         Inputs.timeout_world frame 7 AnalysisService.CLAUDE_VISION false) = Py.Ok r /\
    AnalysisService.raw_analysis r =
      Some [ ("error", Json.JStr "Request timed out.");
             ("type", Json.JStr "APITimeoutError") ] /\
    AnalysisService.raw_analysis r <> Some Inputs.cached_payload /\
    AnalysisService._last_claude_analysis
      (AnalysisService.after
         (AnalysisService.analyze_frame float_of_str cv Inputs.cached_service
            Inputs.timeout_world frame 7 AnalysisService.CLAUDE_VISION false))
      = AnalysisService.raw_analysis r.
Proof.
  split; [reflexivity|].
  eexists. split; [vm_compute; reflexivity|].
  cbn [AnalysisService.raw_analysis].
  split; [reflexivity|]. split; [discriminate | reflexivity].
Qed.

(** On the same service, a failure that does reach the handler (the analyzer
    raises before its own [try]) returns the cached payload. *)
Example encode_error_returns_cached_payload :
  exists r,
    AnalysisService.outcome
      (AnalysisService.analyze_frame Inputs.no_numeric_strings Cv2Ref.cv
         Inputs.cached_service Inputs.encode_error_world Inputs.small_gray 7
         AnalysisService.CLAUDE_VISION false) = Py.Ok r /\
    AnalysisService.raw_analysis r = Some Inputs.cached_payload.
Proof. eexists. split; [vm_compute; reflexivity | reflexivity]. Qed.

(** C3 fails on the code.  A score taken from the external payload is not
    clamped: a payload with ["safety_score": 150] yields a result whose
    safety score is 150. *)
Theorem external_safety_score_not_clamped
        (float_of_str : string -> option Q) (cv : Cv2.ops) (frame : Img.ndarray) :
  exists r,
    AnalysisService.outcome
      (AnalysisService.analyze_frame float_of_str cv Inputs.fresh_service
         Inputs.score_150_world frame 1 AnalysisService.CLAUDE_VISION false) = Py.Ok r /\
    AnalysisService.safety_score r = 150 /\
    ~ (0 <= AnalysisService.safety_score r <= 100)%Q.
Proof.
  eexists. split; [vm_compute; reflexivity|].
  cbn [AnalysisService.safety_score].
  split; [reflexivity|]. intros [_ H]. vm_compute in H. apply H. reflexivity.
Qed.


(** ** The frame buffer shared by producer and consumers *)

Section SharedBuffer.
Import CameraService.




Lemma last_map_Some {A} (l : list A) (x : A) :
  last (map Some (l ++ [x])) None = Some x.
Proof. rewrite map_app. cbn [map]. apply last_last. Qed.




End SharedBuffer.







(** The run behind these witnesses: frames 1 and 3 are evicted, frames 2 and
    5 are returned, frame 4 is skipped by [get_latest_frame]. *)
Example sample_ops_run :
  match CameraService.perform_all
          (CameraService.init_with 2, CameraService.mkConsumed [] 0) Inputs.sample_ops with
  | Some (s, c) =>
      map CameraService.frame_id (CameraService.returned c) = [2; 5]%Z /\
      CameraService.skipped c = 1%nat /\
      CameraService.dropped_frames s = 2%Z /\
      CameraService.frame_count s = 5%Z
  | None => False
  end.
Proof. vm_compute. repeat split. Qed.

Section NewestFrames.
Import CameraService.

(** With no consumer, after [k] pushes the queue of capacity [n] holds the
    ids [k - min k n + 1 .. k]. *)
Lemma capture_step_newest (n k : nat) (s : state) (frame : Img.ndarray) (t : Q) :
  (0 < n)%nat ->
  maxsize (frame_queue s) = Z.of_nat n ->
  frame_count s = Z.of_nat k ->
  map frame_id (items (frame_queue s)) = map Z.of_nat (seq (S (k - min k n)) (min k n)) ->
  dropped_frames s = Z.of_nat (k - min k n) ->
  exists s',
    capture_step s frame t = Some s' /\
    maxsize (frame_queue s') = Z.of_nat n /\
    frame_count s' = Z.of_nat (S k) /\
    map frame_id (items (frame_queue s')) =
      map Z.of_nat (seq (S (S k - min (S k) n)) (min (S k) n)) /\
    dropped_frames s' = Z.of_nat (S k - min (S k) n).
Proof.
  intros Hn Hmax Hfc Hids Hdrop.
  assert (Hlen : List.length (items (frame_queue s)) = min k n).
  { rewrite <- (length_map frame_id), Hids, length_map. apply length_seq. }
  destruct (full (frame_queue s)) eqn:Hfull.
  - apply full_spec in Hfull. unfold qsize in Hfull. rewrite Hmax, Hlen in Hfull.
    assert (Hk : (n <= k)%nat) by lia.
    destruct (@capture_step_evicts s frame t) as (oldest & rest & Hitems & Hstep).
    + unfold bounded, qsize. rewrite Hmax, Hlen. lia.
    + apply full_spec. unfold qsize. rewrite Hmax, Hlen. lia.
    + eexists. split; [exact Hstep|].
      cbn [frame_queue maxsize items frame_count dropped_frames].
      rewrite Hitems in Hids.
      replace (min k n) with n in * by lia.
      replace (min (S k) n) with n by lia.
      replace (S k - n)%nat with (S (k - n)) by lia.
      destruct n as [|n']; [lia|].
      cbn [seq map] in Hids. injection Hids as _ Hrest.
      repeat split; try lia.
      rewrite map_app, Hrest, seq_S, map_app. cbn [map frame_id]. do 2 f_equal. lia.
  - assert (Hk : (k < n)%nat).
    { apply not_true_iff_false in Hfull. rewrite full_spec in Hfull.
      unfold qsize in Hfull. rewrite Hmax, Hlen in Hfull. lia. }
    rewrite (@capture_step_room s frame t Hfull). eexists. split; [reflexivity|].
    cbn [frame_queue maxsize items frame_count dropped_frames].
    replace (min k n) with k in * by lia.
    replace (min (S k) n) with (S k) by lia.
    replace (k - k)%nat with 0%nat in * by lia.
    replace (S k - S k)%nat with 0%nat by lia.
    repeat split; try lia.
    rewrite map_app, Hids, seq_S, map_app. cbn [map frame_id]. do 2 f_equal. lia.
Qed.

Lemma capture_loop_newest (n : nat) (frames : list (Img.ndarray * Q)) :
  (0 < n)%nat ->
  forall (k : nat) (s : state),
    maxsize (frame_queue s) = Z.of_nat n ->
    frame_count s = Z.of_nat k ->
    map frame_id (items (frame_queue s)) = map Z.of_nat (seq (S (k - min k n)) (min k n)) ->
    dropped_frames s = Z.of_nat (k - min k n) ->
    exists s',
      capture_loop s frames = Some s' /\
      frame_count s' = Z.of_nat (k + List.length frames) /\
      map frame_id (items (frame_queue s')) =
        map Z.of_nat (seq (S (k + List.length frames - min (k + List.length frames) n))
                          (min (k + List.length frames) n)) /\
      dropped_frames s' = Z.of_nat (k + List.length frames - min (k + List.length frames) n).
Proof.
  intros Hn. induction frames as [|[f t] frames IH]; intros k s Hmax Hfc Hids Hdrop.
  - exists s. cbn [capture_loop List.length]. rewrite Nat.add_0_r. auto.
  - destruct (@capture_step_newest n k s f t Hn Hmax Hfc Hids Hdrop)
      as (s1 & Hstep & Hmax1 & Hfc1 & Hids1 & Hdrop1).
    destruct (IH (S k) s1 Hmax1 Hfc1 Hids1 Hdrop1) as (s' & Hloop & Hfc' & Hids' & Hdrop').
    exists s'. cbn [capture_loop List.length]. rewrite Hstep.
    replace (k + S (List.length frames))%nat with (S k + List.length frames)%nat by lia.
    auto.
Qed.

End NewestFrames.

(** X4.  With no consumer, pushing k frames into a new buffer of capacity
    n > 0 leaves exactly the min(k, n) most recent frames, in capture order
    (ids k - min(k, n) + 1 to k), with [frame_count] = k and
    [dropped_frames] = k - min(k, n). *)
Theorem fresh_buffer_keeps_most_recent_frames
        (n : nat) (frames : list (Img.ndarray * Q)) :
  (0 < n)%nat ->
  exists s,
    CameraService.capture_loop (CameraService.init_with (Z.of_nat n)) frames = Some s /\
    CameraService.frame_count s = Z.of_nat (List.length frames) /\
    map CameraService.frame_id (CameraService.items (CameraService.frame_queue s)) =
      map Z.of_nat (seq (S (List.length frames - min (List.length frames) n))
                        (min (List.length frames) n)) /\
    CameraService.dropped_frames s =
      Z.of_nat (List.length frames - min (List.length frames) n).
Proof.
  intros Hn.
  apply (@capture_loop_newest n frames Hn 0%nat (CameraService.init_with (Z.of_nat n)));
    reflexivity.
Qed.

Lemma fresh_buffer_keeps_most_recent_frames_witness :
  exists s,
    CameraService.capture_loop (CameraService.init_with (Z.of_nat 3))
      (repeat (Inputs.small_gray, 0%Q) 5) = Some s /\
    CameraService.frame_count s = Z.of_nat (List.length (repeat (Inputs.small_gray, 0%Q) 5)) /\
    map CameraService.frame_id (CameraService.items (CameraService.frame_queue s)) =
      map Z.of_nat
        (seq (S (List.length (repeat (Inputs.small_gray, 0%Q) 5)
                 - min (List.length (repeat (Inputs.small_gray, 0%Q) 5)) 3))
             (min (List.length (repeat (Inputs.small_gray, 0%Q) 5)) 3)) /\
    CameraService.dropped_frames s =
      Z.of_nat (List.length (repeat (Inputs.small_gray, 0%Q) 5)
                - min (List.length (repeat (Inputs.small_gray, 0%Q) 5)) 3).
Proof.
  apply (@fresh_buffer_keeps_most_recent_frames 3 (repeat (Inputs.small_gray, 0%Q) 5)). lia.
Defined.

(** X5.  [get_latest_frame] called after a push returns the frame just
    captured (its id is the new [frame_count]) and leaves the queue empty;
    the older frames it takes off are not added to [dropped_frames].  On an
    empty queue it returns [None]. *)
Theorem get_latest_frame_returns_newest
        (s : CameraService.state) (frame : Img.ndarray) (t : Q) :
  (0 < CameraService.maxsize (CameraService.frame_queue s))%Z ->
  CameraService.bounded s ->
  exists s' x,
    CameraService.capture_step s frame t = Some s' /\
    fst (CameraService.get_latest_frame s') = Some x /\
    CameraService.frame_id x = CameraService.frame_count s' /\
    CameraService.raw_frame x = frame /\
    CameraService.items (CameraService.frame_queue (snd (CameraService.get_latest_frame s')))
      = [] /\
    CameraService.dropped_frames (snd (CameraService.get_latest_frame s'))
      = CameraService.dropped_frames s' /\
    fst (CameraService.get_latest_frame (snd (CameraService.get_latest_frame s'))) = None.
Proof.
  intros Hpos Hb.
  destruct (CameraService.full (CameraService.frame_queue s)) eqn:Hfull.
  - destruct (@capture_step_evicts s frame t Hb Hfull) as (oldest & rest & _ & Hstep).
    eexists. eexists. split; [exact Hstep|].
    unfold CameraService.get_latest_frame.
    cbn [CameraService.frame_queue CameraService.items fst snd CameraService.maxsize
         CameraService.frame_count CameraService.dropped_frames].
    rewrite last_map_Some. cbn. repeat split.
  - rewrite (@capture_step_room s frame t Hfull).
    eexists. eexists. split; [reflexivity|].
    unfold CameraService.get_latest_frame.
    cbn [CameraService.frame_queue CameraService.items fst snd CameraService.maxsize
         CameraService.frame_count CameraService.dropped_frames].
    rewrite last_map_Some. cbn. repeat split.
Qed.

Lemma get_latest_frame_returns_newest_witness :
  exists s' x,
    CameraService.capture_step CameraService.init Inputs.small_gray 0 = Some s' /\
    fst (CameraService.get_latest_frame s') = Some x /\
    CameraService.frame_id x = CameraService.frame_count s' /\
    CameraService.raw_frame x = Inputs.small_gray /\
    CameraService.items (CameraService.frame_queue (snd (CameraService.get_latest_frame s')))
      = [] /\
    CameraService.dropped_frames (snd (CameraService.get_latest_frame s'))
      = CameraService.dropped_frames s' /\
    fst (CameraService.get_latest_frame (snd (CameraService.get_latest_frame s'))) = None.
Proof.
  apply (@get_latest_frame_returns_newest CameraService.init Inputs.small_gray 0).
  - reflexivity.
  - vm_compute. discriminate.
Defined.

(** ** More on the segmentation engine *)

Section SegmenterKeys.
Import Py Img Cv2 NeuroimagingSegmenter.

Lemma keys_dict_set_new {V} (k : string) (v : V) (d : list (string * V)) :
  ~ In k (keys d) -> keys (dict_set k v d) = keys d ++ [k].
Proof.
  unfold keys. induction d as [|[k' v'] d IH]; cbn; intros Hk; [reflexivity|].
  destruct (String.eqb_spec k k') as [->|Hne]; [exfalso; apply Hk; now left|].
  cbn. f_equal. apply IH. intros Hin. apply Hk. now right.
Qed.

Lemma keys_fill {V} (f : string -> V) (ks : list string) :
  forall d : list (string * V),
    NoDup (keys d ++ ks) ->
    keys (fold_left (fun m s => dict_set s (f s) m) ks d) = keys d ++ ks.
Proof.
  induction ks as [|k ks IH]; intros d Hnd; cbn [fold_left].
  - now rewrite app_nil_r.
  - assert (Hk : ~ In k (keys d)).
    { apply NoDup_remove_2 in Hnd. intros Hin. apply Hnd, in_or_app. now left. }
    rewrite IH; rewrite (keys_dict_set_new _ Hk), <- app_assoc; [reflexivity | exact Hnd].
Qed.

(** The tables have no repeated structure name. *)
Lemma THRESHOLDS_NoDup (modality : string) (tbl : threshold_table) :
  In (modality, tbl) THRESHOLDS -> NoDup (keys tbl).
Proof.
  intros [H|[H|[H|[]]]]; injection H as _ <-;
    repeat constructor; cbn; intuition discriminate.
Qed.

End SegmenterKeys.

(** X6.  For every modality name, known or not, the segmenter is
    constructed, its table is one of the three threshold tables, and the
    dictionary [segment_all] returns has exactly the structure names of that
    table, each once, in the order of the table. *)
Theorem segment_all_keys_are_table_keys
        (modality : string) (cv : Cv2.ops) (frame : Img.ndarray) :
  exists seg,
    NeuroimagingSegmenter.init modality = Py.Ok seg /\
    In (NeuroimagingSegmenter.thresholds seg) (map snd NeuroimagingSegmenter.THRESHOLDS) /\
    NoDup (Py.keys (NeuroimagingSegmenter.segment_all cv seg frame)) /\
    Py.keys (NeuroimagingSegmenter.segment_all cv seg frame)
      = Py.keys (NeuroimagingSegmenter.thresholds seg).
Proof.
  unfold NeuroimagingSegmenter.init.
  assert (Hdefault : Py.dict_get "OR_CAMERA" NeuroimagingSegmenter.THRESHOLDS =
                     Some (NeuroimagingSegmenter.thresholds Inputs.or_segmenter))
    by reflexivity.
  rewrite Hdefault.
  assert (Hin : exists name,
             In (name,
                 match Py.dict_get modality NeuroimagingSegmenter.THRESHOLDS with
                 | Some tbl => tbl
                 | None => NeuroimagingSegmenter.thresholds Inputs.or_segmenter
                 end) NeuroimagingSegmenter.THRESHOLDS).
  { destruct (Py.dict_get modality NeuroimagingSegmenter.THRESHOLDS) as [tbl|] eqn:Hget.
    - exists modality. now apply dict_get_In.
    - exists "OR_CAMERA". now apply dict_get_In. }
  set (tbl := match Py.dict_get modality NeuroimagingSegmenter.THRESHOLDS with
              | Some tbl => tbl
              | None => NeuroimagingSegmenter.thresholds Inputs.or_segmenter
              end) in *.
  destruct Hin as (name & Hin).
  pose proof (THRESHOLDS_NoDup Hin) as Hnd.
  eexists. split; [reflexivity|].
  cbn [NeuroimagingSegmenter.thresholds].
  assert (Hkeys : Py.keys (NeuroimagingSegmenter.segment_all cv
                             (NeuroimagingSegmenter.mkSegmenter modality tbl) frame)
                  = Py.keys tbl).
  { unfold NeuroimagingSegmenter.segment_all.
    destruct (NeuroimagingSegmenter.preprocess cv frame) as [gray blurred].
    cbn [NeuroimagingSegmenter.thresholds].
    rewrite keys_fill; [reflexivity | exact Hnd]. }
  split; [|split].
  - apply in_map_iff. exists (name, tbl). split; [reflexivity | exact Hin].
  - rewrite Hkeys. exact Hnd.
  - exact Hkeys.
Qed.

Section BinaryMasks.
Import Py Img Cv2 NeuroimagingSegmenter.

Lemma binary_zeros_like (g : gray) : binary (zeros_like g).
Proof.
  intros p Hp. left. apply in_concat in Hp. destruct Hp as (row & Hrow & Hp).
  unfold zeros_like in Hrow. apply in_map_iff in Hrow. destruct Hrow as (r & <- & _).
  apply in_map_iff in Hp. now destruct Hp as (q & <- & _).
Qed.

Variable cv : ops.
Hypothesis Hcv : paints cv.

Lemma filtered_binary (min_area : Z) (contours : list contour) :
  forall filtered : gray,
    binary filtered ->
    binary
      (fold_left
         (fun filtered cnt =>
            if negb (Qle_bool (contourArea cv cnt) (inject_Z min_area))
            then drawContours cv filtered cnt 255
            else filtered)
         contours filtered).
Proof.
  induction contours as [|cnt contours IH]; intros filtered Hb; cbn [fold_left].
  - exact Hb.
  - apply IH. destruct (negb _); [|exact Hb].
    intros p Hp. apply (drawContours_pixels Hcv) in Hp.
    destruct Hp as [->|Hp]; [now right | now apply Hb].
Qed.

Lemma segment_structure_binary (self : t) (blurred roi_mask : gray)
      (structure : string) (min_area : Z) :
  binary (segment_structure cv self blurred roi_mask structure min_area).
Proof.
  unfold segment_structure.
  destruct (dict_get structure (thresholds self)) as [[low high]|].
  - apply filtered_binary, binary_zeros_like.
  - apply binary_zeros_like.
Qed.

End BinaryMasks.

Section ReferencePaints.
Import Img Cv2 Cv2Ref.

Lemma in_mapi_from {A B} (f : nat -> A -> B) (l : list A) (b : B) :
  forall i,
    In b (mapi_from i f l) ->
    exists k a, nth_error l k = Some a /\ b = f (i + k)%nat a.
Proof.
  induction l as [|a l IH]; intros i Hb; cbn in Hb; [contradiction|].
  destruct Hb as [<-|Hb].
  - exists 0%nat, a. split; [reflexivity | now rewrite Nat.add_0_r].
  - destruct (IH _ Hb) as (k & a' & Hk & ->).
    exists (S k), a'. split; [exact Hk | f_equal; lia].
Qed.

(** A pixel of a tabulated image is a value of the function at a position
    inside the image. *)
Lemma in_tabulate_like (g : gray) (f : nat -> nat -> Z) (p : Z) :
  In p (List.concat (tabulate_like g f)) ->
  exists y x row q,
    nth_error g y = Some row /\ nth_error row x = Some q /\ p = f y x.
Proof.
  intros Hp. apply in_concat in Hp. destruct Hp as (r & Hr & Hp).
  unfold tabulate_like in Hr. apply in_mapi_from in Hr.
  destruct Hr as (y & row & Hrow & ->). apply in_mapi_from in Hp.
  destruct Hp as (x & q & Hq & ->). exists y, x, row, q. auto.
Qed.

Lemma pixel_nth_error (g : gray) (y x : nat) (row : list Z) (q : Z) :
  nth_error g y = Some row -> nth_error row x = Some q -> pixel g y x = q.
Proof.
  intros Hrow Hq. unfold pixel.
  rewrite (nth_error_nth _ _ _ Hrow). now apply nth_error_nth.
Qed.

Lemma Cv2Ref_paints : paints Cv2Ref.cv.
Proof.
  constructor. cbn. intros g c v p.
  unfold Cv2Ref.drawContours. destruct c as [|pt pts]; [now right|].
  destruct (bbox pt pts) as [[[x0 y0] x1] y1].
  intros Hp. apply in_tabulate_like in Hp.
  destruct Hp as (y & x & row & q & Hrow & Hq & ->).
  destruct (_ && _ && _ && _)%bool; [now left|]. right.
  rewrite (pixel_nth_error Hrow Hq).
  apply in_concat. exists row. split; eauto using nth_error_In.
Qed.

End ReferencePaints.

(** X7.  Every mask in the dictionary returned by [segment_all] is binary:
    each of its pixels is 0 or 255. *)
Theorem segment_all_masks_are_binary
        (cv : Cv2.ops) (self : NeuroimagingSegmenter.t) (frame : Img.ndarray)
        (structure : string) (mask : Img.gray) :
  Cv2.paints cv ->
  In (structure, mask) (NeuroimagingSegmenter.segment_all cv self frame) ->
  Img.binary mask.
Proof.
  intros Hcv Hin. unfold NeuroimagingSegmenter.segment_all in Hin.
  destruct (NeuroimagingSegmenter.preprocess cv frame) as [gray blurred].
  apply in_fill in Hin. destruct Hin as [[]|(_ & ->)].
  now apply segment_structure_binary.
Qed.

Lemma segment_all_masks_are_binary_witness :
  Img.binary (Img.const 2 3 0).
Proof.
  apply (@segment_all_masks_are_binary Cv2Ref.cv Inputs.or_segmenter
           Inputs.small_gray "blood" (Img.const 2 3 0) Cv2Ref_paints).
  vm_compute. left. reflexivity.
Defined.

(** ** Dark and uniform frames *)

Section DarkFrames.
Import Py Img Cv2 NeuroimagingSegmenter.

Variable cv : ops.
Hypothesis Hcv : uniform cv.
Variables h w : nat.
Hypothesis Hh : (0 < h)%nat.
Hypothesis Hw : (0 < w)%nat.

Lemma morphologyEx_uniform (v : Z) op (n : nat) (k : nat * nat) :
  (0 <= v <= 255)%Z -> (0 < fst k)%nat -> (0 < snd k)%nat ->
  morphologyEx cv (const h w v) op k n = const h w v.
Proof. intros Hv Hk1 Hk2. now apply (morphologyEx_const Hcv). Qed.

(** With an empty region of interest every structure mask is empty,
    whatever the thresholds select. *)
Lemma segment_structure_empty_roi (self : t) (structure : string) (v min_area : Z) :
  segment_structure cv self (const h w v) (const h w 0) structure min_area = const h w 0.
Proof.
  unfold segment_structure.
  destruct (dict_get structure (thresholds self)) as [[low high]|];
    [|apply zeros_like_const].
  assert (Hsel : exists c,
             (if (low =? 0)%Z then threshold_binary_inv (const h w v) high 255
              else inRange (const h w v) low high) = const h w c).
  { destruct (low =? 0)%Z; eexists;
      [apply threshold_binary_inv_const | apply inRange_const]. }
  destruct Hsel as (c & ->).
  rewrite bitwise_and_const, Z.land_0_r.
  rewrite !morphologyEx_uniform by (cbn [fst snd]; lia).
  rewrite (findContours_zero Hcv) by assumption.
  cbn [fold_left]. apply zeros_like_const.
Qed.

Lemma dark_frame_roi (v : Z) :
  (0 <= v <= 15)%Z ->
  preprocess cv (Gray (const h w v)) = (const h w v, const h w v) /\
  create_roi_mask cv (const h w v) 15 = const h w 0.
Proof.
  intros Hv. split.
  - unfold preprocess.
    rewrite (GaussianBlur_const Hcv);
      [reflexivity | assumption | assumption | lia | reflexivity | reflexivity].
  - unfold create_roi_mask. rewrite threshold_binary_const.
    replace (15 <? v)%Z with false by (symmetry; apply Z.ltb_ge; lia).
    apply morphologyEx_uniform; cbn [fst snd]; lia.
Qed.

Lemma dark_frame_masks (self : t) (v : Z) (structure : string) (mask : gray) :
  (0 <= v <= 15)%Z ->
  In (structure, mask) (segment_all cv self (Gray (const h w v))) ->
  mask = const h w 0.
Proof.
  intros Hv Hin. unfold segment_all in Hin.
  destruct (dark_frame_roi Hv) as [Hpre Hroi]. rewrite Hpre, Hroi in Hin.
  apply in_fill in Hin. destruct Hin as [[]|(_ & ->)].
  apply segment_structure_empty_roi.
Qed.

(** Masks without contours give an empty result. *)
Lemma no_contours_no_entries (masks : list (string * gray)) :
  (forall structure mask, In (structure, mask) masks -> findContours cv mask = []) ->
  forall acc, fold_left (record_structure cv) masks acc = acc.
Proof.
  induction masks as [|[structure mask] masks IH]; intros Hno acc; cbn [fold_left].
  - reflexivity.
  - unfold record_structure at 2. cbv zeta.
    rewrite (Hno structure mask) by now left. cbn [flat_map].
    apply IH. intros s m Hin. apply (Hno s m). now right.
Qed.

Lemma dark_frame_no_detections (self : t) (v : Z) :
  (0 <= v <= 15)%Z ->
  get_contours_and_centroids cv (segment_all cv self (Gray (const h w v))) = [].
Proof.
  intros Hv. unfold get_contours_and_centroids.
  apply no_contours_no_entries. intros structure mask Hin.
  rewrite (dark_frame_masks Hv Hin). now apply (findContours_zero Hcv).
Qed.

End DarkFrames.

(** X8.  A uniformly dark frame (every pixel at most 15, the background
    cutoff) has an empty region of interest, so under every threshold table
    every mask [segment_all] returns is all zero, including those of the
    inverse thresholds (blood, csf, necrotic) that select dark pixels, and
    [get_contours_and_centroids] finds nothing. *)
Theorem dark_frame_yields_empty_masks
        (cv : Cv2.ops) (self : NeuroimagingSegmenter.t) (h w : nat) (v : Z) :
  Cv2.uniform cv ->
  (0 < h)%nat -> (0 < w)%nat -> (0 <= v <= 15)%Z ->
  (forall structure mask,
      In (structure, mask)
         (NeuroimagingSegmenter.segment_all cv self (Img.Gray (Img.const h w v))) ->
      mask = Img.const h w 0) /\
  NeuroimagingSegmenter.get_contours_and_centroids cv
    (NeuroimagingSegmenter.segment_all cv self (Img.Gray (Img.const h w v))) = [].
Proof.
  intros Hcv Hh Hw Hv. split.
  - intros structure mask. now apply (dark_frame_masks Hcv Hh Hw).
  - now apply (dark_frame_no_detections Hcv Hh Hw).
Qed.

Lemma dark_frame_yields_empty_masks_witness :
  (forall structure mask,
      In (structure, mask)
         (NeuroimagingSegmenter.segment_all Cv2Ref.cv Inputs.or_segmenter
            (Img.Gray (Img.const 4 4 10))) ->
      mask = Img.const 4 4 0) /\
  NeuroimagingSegmenter.get_contours_and_centroids Cv2Ref.cv
    (NeuroimagingSegmenter.segment_all Cv2Ref.cv Inputs.or_segmenter
       (Img.Gray (Img.const 4 4 10))) = [].
Proof.
  apply (@dark_frame_yields_empty_masks Cv2Ref.cv Inputs.or_segmenter 4 4 10 Cv2Ref_uniform);
    lia.
Defined.

Section BrightUniformFrames.
Import Py Img Cv2 NeuroimagingSegmenter.

Variable cv : ops.
Hypothesis Hcv : uniform cv.
Variables h w : nat.
Hypothesis Hh : (2 <= h)%nat.
Hypothesis Hw : (2 <= w)%nat.

(** Whether a threshold range selects a gray level: below [high] when
    [low] is 0, inside [low, high] otherwise. *)
Lemma selection_uniform (low high v : Z) :
  (if (low =? 0)%Z then threshold_binary_inv (const h w v) high 255
   else inRange (const h w v) low high)
  = const h w (if (if (low =? 0)%Z then (v <=? high)%Z
                   else ((low <=? v) && (v <=? high))%Z)
               then 255%Z else 0%Z).
Proof.
  destruct (low =? 0)%Z.
  - rewrite threshold_binary_inv_const, (Z.leb_antisym high v).
    now destruct (high <? v)%Z.
  - apply inRange_const.
Qed.

Lemma segment_structure_uniform (self : t) (structure : string)
      (low high v min_area : Z) :
  dict_get structure (thresholds self) = Some (low, high) ->
  segment_structure cv self (const h w v) (const h w 255) structure min_area
  = const h w
      (if (if (low =? 0)%Z then (v <=? high)%Z else ((low <=? v) && (v <=? high))%Z)
          && (min_area <? (Z.of_nat w - 1) * (Z.of_nat h - 1))%Z
       then 255%Z else 0%Z).
Proof.
  intros Hget. unfold segment_structure. rewrite Hget, selection_uniform.
  destruct (if (low =? 0)%Z then (v <=? high)%Z else ((low <=? v) && (v <=? high))%Z);
    rewrite bitwise_and_const; cbn [andb].
  - change (Z.land 255 255) with 255%Z.
    rewrite !(morphologyEx_const Hcv) by (cbn [fst snd]; lia).
    rewrite (findContours_full Hcv) by assumption. cbn [fold_left].
    rewrite zeros_like_const.
    destruct (min_area <? (Z.of_nat w - 1) * (Z.of_nat h - 1))%Z eqn:Harea.
    + apply Z.ltb_lt in Harea.
      replace (Qle_bool (contourArea cv (frame_outline w h)) (inject_Z min_area))
        with false.
      * cbn [negb]. now apply (drawContours_outline Hcv).
      * symmetry. apply not_true_is_false. rewrite Qle_bool_iff.
        rewrite (contourArea_outline Hcv) by assumption.
        rewrite <- Zle_Qle. lia.
    + apply Z.ltb_ge in Harea.
      replace (Qle_bool (contourArea cv (frame_outline w h)) (inject_Z min_area))
        with true; [reflexivity|].
      symmetry. rewrite Qle_bool_iff.
      rewrite (contourArea_outline Hcv) by assumption.
      rewrite <- Zle_Qle. lia.
  - change (Z.land 0 255) with 0%Z.
    rewrite !(morphologyEx_const Hcv) by (cbn [fst snd]; lia).
    rewrite (findContours_zero Hcv) by lia. cbn [fold_left]. apply zeros_like_const.
Qed.

End BrightUniformFrames.

(** X9.  On a uniform frame of gray level v above the background cutoff
    (15 < v <= 255) and at least 2 x 2 pixels, the mask of a structure with
    range (low, high) is uniform as well: it is 255 everywhere when the range
    selects v (v <= high if low is 0, low <= v <= high otherwise) and the
    frame outline encloses more than the minimum area of 300, and 0
    everywhere otherwise. *)
Theorem uniform_frame_masks
        (cv : Cv2.ops) (self : NeuroimagingSegmenter.t) (h w : nat) (v : Z)
        (structure : string) (low high : Z) :
  Cv2.uniform cv ->
  (2 <= h)%nat -> (2 <= w)%nat -> (15 < v <= 255)%Z ->
  Py.dict_get structure (NeuroimagingSegmenter.thresholds self) = Some (low, high) ->
  Py.dict_get structure
    (NeuroimagingSegmenter.segment_all cv self (Img.Gray (Img.const h w v)))
  = Some (Img.const h w
            (if (if (low =? 0)%Z then (v <=? high)%Z
                 else ((low <=? v) && (v <=? high))%Z)
                && (300 <? (Z.of_nat w - 1) * (Z.of_nat h - 1))%Z
             then 255%Z else 0%Z)).
Proof.
  intros Hcv Hh Hw Hv Hget. rewrite segment_all_get.
  destruct (in_dec string_dec structure (Py.keys (NeuroimagingSegmenter.thresholds self)))
    as [_|Hnin].
  - rewrite (preprocess_uniform Hcv Hh Hw) by lia. cbn [snd].
    rewrite (create_roi_mask_uniform Hcv Hh Hw) by lia.
    f_equal. now apply (segment_structure_uniform Hcv Hh Hw).
  - apply dict_get_None_keys in Hnin. congruence.
Qed.

Lemma uniform_frame_masks_witness :
  Py.dict_get "tissue"
    (NeuroimagingSegmenter.segment_all Cv2Ref.cv Inputs.or_segmenter
       (Img.Gray (Img.const 20 30 120)))
  = Some (Img.const 20 30
            (if (if (100 =? 0)%Z then (120 <=? 200)%Z
                 else ((100 <=? 120) && (120 <=? 200))%Z)
                && (300 <? (Z.of_nat 30 - 1) * (Z.of_nat 20 - 1))%Z
             then 255%Z else 0%Z)).
Proof.
  apply (@uniform_frame_masks Cv2Ref.cv Inputs.or_segmenter 20 30 120 "tissue" 100 200
           Cv2Ref_uniform); try lia.
  reflexivity.
Defined.

(** ** The overlay *)

Section Overlay.
Import Py Img Cv2 NeuroimagingSegmenter.

(** [create_overlay]'s copy of the frame in three channels. *)
Lemma frame_rgb_shape (frame : ndarray) :
  row_lengths (match frame with
               | Gray g => cvtColor_GRAY2BGR g
               | BGR c => c
               end) = frame_rows frame.
Proof.
  destruct frame as [g|c]; cbn [frame_rows]; [apply row_lengths_map_map | reflexivity].
Qed.






(** Masks of the shape of the frame are painted without [IndexError], and
    painting keeps the shape. *)
Lemma colour_all_shape (shape : list nat) (masks : list (string * gray)) :
  (forall structure mask, In (structure, mask) masks -> row_lengths mask = shape) ->
  forall overlay : bgr,
    row_lengths overlay = shape ->
    exists out,
      fold_left colour_structure masks (Ok overlay) = Ok out /\ row_lengths out = shape.
Proof.
  induction masks as [|[structure mask] masks IH]; intros Hm overlay Ho; cbn [fold_left].
  - exists overlay. split; [reflexivity | exact Ho].
  - assert (Hstep : exists o1, colour_structure (Ok overlay) (structure, mask) = Ok o1 /\
                               row_lengths o1 = shape).
    { unfold colour_structure. cbn [bind].
      destruct (dict_get structure COLORS) as [color|]; [|eauto].
      destruct (any_positive mask); [|eauto].
      unfold paint.
      pose proof (Hm structure mask (or_introl eq_refl)) as Hmask.
      destruct (list_eq_dec Nat.eq_dec (row_lengths mask) (row_lengths overlay))
        as [Heq|Hne]; [|congruence].
      eexists. split; [reflexivity|].
      rewrite row_lengths_zip_with; [exact Ho | congruence]. }
    destruct Hstep as (o1 & -> & Ho1). apply IH; [|exact Ho1].
    intros s m Hin. apply (Hm s m). now right.
Qed.

End Overlay.



(** X11.  When every mask has the shape of the frame, [create_overlay]
    raises no [IndexError] and returns an image of the shape of the frame. *)
Theorem overlay_has_frame_shape
        (frame : Img.ndarray) (masks : list (string * Img.gray)) (alpha : Q) :
  (forall structure mask,
      In (structure, mask) masks -> Img.row_lengths mask = Img.frame_rows frame) ->
  exists out,
    NeuroimagingSegmenter.create_overlay frame masks alpha = Py.Ok out /\
    Img.row_lengths out = Img.frame_rows frame.
Proof.
  intros Hm. unfold NeuroimagingSegmenter.create_overlay. cbv zeta.
  match goal with
  | |- context [fold_left _ masks (Py.Ok ?a)] =>
      destruct (@colour_all_shape (Img.frame_rows frame) masks Hm a (frame_rgb_shape frame))
        as (o & -> & Ho)
  end.
  cbn [Py.bind]. eexists. split; [reflexivity|].
  unfold Cv2.addWeighted. rewrite row_lengths_zip_with; [exact Ho|].
  rewrite Ho. symmetry. apply frame_rgb_shape.
Qed.

Lemma overlay_has_frame_shape_witness :
  exists out,
    NeuroimagingSegmenter.create_overlay Inputs.small_gray
      [ ("tumor", Img.const 2 3 255) ] (45 # 100) = Py.Ok out /\
    Img.row_lengths out = Img.frame_rows Inputs.small_gray.
Proof.
  apply (@overlay_has_frame_shape Inputs.small_gray [ ("tumor", Img.const 2 3 255) ] (45 # 100)).
  intros structure mask [Hin|[]]. injection Hin as <- <-. reflexivity.
Defined.

(** The overlay of that run: 45% of the tumor colour over 55% of gray 100. *)
Example overlay_run :
  NeuroimagingSegmenter.create_overlay Inputs.small_gray
    [ ("tumor", Img.const 2 3 255) ] (45 # 100)
  = Py.Ok (repeat (repeat (91, 91, 170)%Z 3) 2).
Proof. vm_compute. reflexivity. Qed.

(** ** Calls of the orchestrator *)

Section OrchestratorCalls.
Import Py Json AnalysisService.

Variable float_of_str : string -> option Q.
Variable cv : Cv2.ops.

(** When the local stage is over only [structures] and
    [segmentation_masks] have been assigned. *)
Lemma local_stage_defaults (self : service) (frame : Img.ndarray) (ty : AnalysisType) :
  let loc := match segmenter self, ty with
             | Some seg, (SEGMENTATION_ONLY | HYBRID | NAVIGATION) =>
                 local_pass cv seg frame initial_locals
             | _, _ => initial_locals
             end in
  l_safety_score loc = 100 /\ l_technique_score loc = None /\
  l_instruments loc = [] /\ l_alerts loc = [] /\
  l_guidance loc = JNull /\ l_voice_alert loc = JNull /\ l_raw_analysis loc = None.
Proof. destruct (segmenter self), ty; repeat split. Qed.

(** Every key of the contour dictionary is the key of a mask. *)
Lemma in_record_structure (masks : list (string * Img.gray)) :
  forall results k v,
    In (k, v) (fold_left (NeuroimagingSegmenter.record_structure cv) masks results) ->
    In (k, v) results \/ In k (keys masks).
Proof.
  induction masks as [|[s mask] masks IH]; intros results k v Hin; cbn [fold_left] in Hin.
  - now left.
  - apply IH in Hin. destruct Hin as [Hin|Hin]; [|right; now right].
    unfold NeuroimagingSegmenter.record_structure in Hin. cbv zeta in Hin.
    destruct (flat_map _ _) as [|x r]; [now left|].
    apply in_dict_set in Hin. destruct Hin as [Hin|[-> _]]; [now left|].
    right. now left.
Qed.

(** What the local pass appends to [structures]. *)
Lemma local_pass_detections (seg : NeuroimagingSegmenter.t) (frame : Img.ndarray) :
  Forall (fun s => exists n,
             In n (keys (NeuroimagingSegmenter.thresholds seg)) /\
             name s = JStr n /\
             structure_type s = JStr (_classify_structure n) /\
             confidence s = JNum (85 # 100) /\
             is_critical s = (String.eqb n "blood" || String.eqb n "vessels") /\
             safety_margin_mm s = JNull /\
             metadata_source s = "segmentation")
         (l_structures (local_pass cv seg frame initial_locals)).
Proof.
  apply Forall_forall. intros s Hs.
  cbn [local_pass l_structures initial_locals app] in Hs.
  apply in_flat_map in Hs. destruct Hs as ([n insts] & Hin & Hs).
  apply in_map_iff in Hs. destruct Hs as (inst & <- & _).
  exists n. split; [|repeat split].
  unfold NeuroimagingSegmenter.get_contours_and_centroids in Hin.
  apply in_record_structure in Hin. destruct Hin as [[]|Hin].
  unfold keys in Hin. apply in_map_iff in Hin. destruct Hin as ([k m] & Heq & Hin).
  cbn [fst] in Heq. subst k.
  unfold NeuroimagingSegmenter.segment_all in Hin.
  destruct (NeuroimagingSegmenter.preprocess cv frame) as [gray blurred].
  apply in_fill in Hin. destruct Hin as [[]|[Hk _]]. exact Hk.
Qed.

(** The statements under [if "error" not in claude_result:] assign the
    safety score first; whatever raises afterwards leaves it assigned, and
    none of them touches [raw_analysis]. *)
Lemma extract_all_safety (payload : dict) (loc : locals) :
  l_safety_score (fst (extract_all float_of_str payload loc)) =
    match _extract_safety_score float_of_str payload with
    | Ok q => q
    | Raise _ _ => l_safety_score loc
    end /\
  l_raw_analysis (fst (extract_all float_of_str payload loc)) = l_raw_analysis loc.
Proof.
  unfold extract_all, assign.
  destruct (_extract_safety_score float_of_str payload); [|split; reflexivity].
  destruct (_extract_technique_score float_of_str payload); [|split; reflexivity].
  destruct (_extract_instruments payload); [|split; reflexivity].
  destruct (_extract_structures payload); split; reflexivity.
Qed.

Lemma Qle_bool_false (a b : Q) : (b < a)%Q -> Qle_bool a b = false.
Proof.
  intros Hlt. destruct (Qle_bool a b) eqn:Hle; [|reflexivity].
  apply Qle_bool_iff in Hle. exfalso. exact (Qlt_not_le _ _ Hlt Hle).
Qed.

Lemma dict_mem_get {V} (k : string) (v : V) (d : list (string * V)) :
  dict_get k d = Some v -> dict_mem k d = true /\ d <> [].
Proof.
  intros H. unfold dict_mem. rewrite H. split; [reflexivity|].
  intros ->. discriminate.
Qed.

Lemma nonempty_Some (d : dict) : d <> [] -> nonempty (Some d) = true.
Proof. destruct d; [congruence | reflexivity]. Qed.

(** A call that runs the external pass with a payload the analyzer returned. *)
Lemma external_call (self : service) (w : world) (frame : Img.ndarray)
      (frame_id : Z) (ty : AnalysisType) (force : bool) (payload : dict) :
  should_run_claude self ty force w = true ->
  ClaudeVisionAnalyzer.analyze_frame (encoded w) (claude_reply w) = Ok payload ->
  let loc := match segmenter self, ty with
             | Some seg, (SEGMENTATION_ONLY | HYBRID | NAVIGATION) =>
                 local_pass cv seg frame initial_locals
             | _, _ => initial_locals
             end in
  let loc1 := set_raw (Some payload) loc in
  let self' := set_cache self payload (current_time w) in
  let run := if negb (dict_mem "error" payload)
             then extract_all float_of_str payload loc1
             else (loc1, false) in
  analyze_frame float_of_str cv self w frame frame_id ty force =
    finish self' w frame_id ty
           (if snd run then fall_back self' (fst run) else fst run) 1.
Proof.
  intros Hrun Hpay. unfold analyze_frame. rewrite Hrun.
  unfold external_pass. rewrite Hpay.
  unfold ClaudeVisionAnalyzer.analyze_frame in Hpay.
  destruct (encoded w) as [b64|t m]; [|discriminate].
  cbn [ClaudeVisionAnalyzer.request_sent].
  destruct (if negb (dict_mem "error" payload) then _ else _) as [loc' raised].
  reflexivity.
Qed.

End OrchestratorCalls.

(** X12.  A SEGMENTATION_ONLY call never contacts the external analyzer,
    not even with [force_claude]: it sends no request, leaves the cached
    payload and the throttle clock alone, and returns a result without
    external payload whose safety score is the clamped score of its
    detections, all of which come from the local segmentation. *)
Theorem segmentation_only_never_contacts_analyzer
        (float_of_str : string -> option Q) (cv : Cv2.ops)
        (self : AnalysisService.service) (w : AnalysisService.world)
        (frame : Img.ndarray) (frame_id : Z) (force : bool) :
  let c := AnalysisService.analyze_frame float_of_str cv self w frame frame_id
             AnalysisService.SEGMENTATION_ONLY force in
  AnalysisService.requests c = 0%nat /\
  AnalysisService._last_claude_analysis (AnalysisService.after c)
    = AnalysisService._last_claude_analysis self /\
  AnalysisService._last_claude_time (AnalysisService.after c)
    = AnalysisService._last_claude_time self /\
  exists r,
    AnalysisService.outcome c = Py.Ok r /\
    AnalysisService.raw_analysis r = None /\
    AnalysisService.safety_score r
      = AnalysisService._calculate_safety_score (AnalysisService.structures r) /\
    (0 <= AnalysisService.safety_score r <= 100)%Q /\
    AnalysisService.technique_score r = None /\
    AnalysisService.instruments r = [] /\
    AnalysisService.alerts r = [] /\
    AnalysisService.guidance r = Json.JNull /\
    AnalysisService.voice_alert r = Json.JNull /\
    Forall (fun s => AnalysisService.metadata_source s = "segmentation")
           (AnalysisService.structures r).
Proof.
  intros c. subst c.
  unfold AnalysisService.analyze_frame, AnalysisService.should_run_claude.
  rewrite andb_false_r. cbn [andb]. rewrite andb_false_r.
  split; [reflexivity|]. split; [reflexivity|]. split; [reflexivity|].
  eexists. split; [reflexivity|].
  cbn [AnalysisService.raw_analysis AnalysisService.safety_score
       AnalysisService.technique_score AnalysisService.instruments
       AnalysisService.alerts AnalysisService.guidance AnalysisService.voice_alert
       AnalysisService.structures].
  destruct (AnalysisService.segmenter self) as [seg|].
  - repeat split; try apply calculate_safety_score_in_range.
    eapply Forall_impl; [|apply (@local_pass_detections cv seg frame)].
    intros s (n & _ & _ & _ & _ & _ & _ & Hsrc). exact Hsrc.
  - repeat split; try apply calculate_safety_score_in_range. constructor.
Qed.

(** X13.  A uniformly dark frame (every pixel at most 15) analysed with
    SEGMENTATION_ONLY yields no detection, a safety score of 100, and
    all-zero masks. *)
Theorem dark_frame_is_scored_100
        (float_of_str : string -> option Q) (cv : Cv2.ops)
        (self : AnalysisService.service) (seg : NeuroimagingSegmenter.t)
        (w : AnalysisService.world) (h wd : nat) (v : Z) (frame_id : Z) (force : bool) :
  Cv2.uniform cv ->
  (0 < h)%nat -> (0 < wd)%nat -> (0 <= v <= 15)%Z ->
  AnalysisService.segmenter self = Some seg ->
  exists r masks,
    AnalysisService.outcome
      (AnalysisService.analyze_frame float_of_str cv self w
         (Img.Gray (Img.const h wd v)) frame_id AnalysisService.SEGMENTATION_ONLY force)
      = Py.Ok r /\
    AnalysisService.structures r = [] /\
    (AnalysisService.safety_score r == 100)%Q /\
    AnalysisService.segmentation_masks r = Some masks /\
    Forall (fun sm => snd sm = Img.const h wd 0) masks.
Proof.
  intros Hcv Hh Hw Hv Hseg.
  unfold AnalysisService.analyze_frame, AnalysisService.should_run_claude.
  rewrite andb_false_r. cbn [andb]. rewrite andb_false_r. rewrite Hseg.
  eexists. eexists. split; [reflexivity|].
  cbn [AnalysisService.finish AnalysisService.outcome AnalysisService.structures
       AnalysisService.safety_score AnalysisService.segmentation_masks
       AnalysisService.local_pass AnalysisService.l_structures
       AnalysisService.l_raw_analysis AnalysisService.l_segmentation_masks
       AnalysisService.initial_locals AnalysisService.nonempty negb app].
  rewrite (dark_frame_no_detections Hcv Hh Hw seg Hv). cbn [flat_map].
  split; [reflexivity|]. split; [reflexivity|]. split; [reflexivity|].
  apply Forall_forall. intros [structure mask] Hin. cbn [snd].
  exact (dark_frame_masks Hcv Hh Hw Hv Hin).
Qed.

Lemma dark_frame_is_scored_100_witness :
  exists r masks,
    AnalysisService.outcome
      (AnalysisService.analyze_frame Inputs.no_numeric_strings Cv2Ref.cv
         Inputs.cached_service Inputs.timeout_world
         (Img.Gray (Img.const 4 4 10)) 7 AnalysisService.SEGMENTATION_ONLY true)
      = Py.Ok r /\
    AnalysisService.structures r = [] /\
    (AnalysisService.safety_score r == 100)%Q /\
    AnalysisService.segmentation_masks r = Some masks /\
    Forall (fun sm => snd sm = Img.const 4 4 0) masks.
Proof.
  apply (@dark_frame_is_scored_100 Inputs.no_numeric_strings Cv2Ref.cv
           Inputs.cached_service Inputs.or_segmenter Inputs.timeout_world
           4 4 10 7 true Cv2Ref_uniform); try lia; reflexivity.
Defined.

(** The structure names of the three threshold tables. *)
Lemma init_table_keys (modality : string) (seg : NeuroimagingSegmenter.t) (n : string) :
  NeuroimagingSegmenter.init modality = Py.Ok seg ->
  In n (Py.keys (NeuroimagingSegmenter.thresholds seg)) ->
  In n [ "tumor"; "csf"; "parenchyma"; "enhancement"; "necrotic"; "edema";
         "blood"; "tissue"; "instrument" ].
Proof.
  intros Hinit Hn.
  unfold NeuroimagingSegmenter.init in Hinit. cbn in Hinit.
  injection Hinit as <-. cbn in Hn |- *.
  repeat match type of Hn with
         | context [if ?b then _ else _] => destruct b
         end; cbn in Hn; tauto.
Qed.

(** X14.  With a segmenter built by [NeuroimagingSegmenter(modality)], for
    any modality name, every detection of the local pass is named after a
    structure of the segmenter's threshold table, is classified (its type
    is never "other"), has confidence 0.85 and source "segmentation", and
    is critical exactly when it is "blood". *)
Theorem local_detections_are_classified
        (float_of_str : string -> option Q) (cv : Cv2.ops)
        (modality : string) (seg : NeuroimagingSegmenter.t)
        (self : AnalysisService.service) (w : AnalysisService.world)
        (frame : Img.ndarray) (frame_id : Z) (force : bool) :
  NeuroimagingSegmenter.init modality = Py.Ok seg ->
  AnalysisService.segmenter self = Some seg ->
  exists r,
    AnalysisService.outcome
      (AnalysisService.analyze_frame float_of_str cv self w frame frame_id
         AnalysisService.SEGMENTATION_ONLY force) = Py.Ok r /\
    Forall (fun s => exists n,
               In n (Py.keys (NeuroimagingSegmenter.thresholds seg)) /\
               AnalysisService.name s = Json.JStr n /\
               AnalysisService.structure_type s
                 = Json.JStr (AnalysisService._classify_structure n) /\
               AnalysisService._classify_structure n <> "other" /\
               AnalysisService.confidence s = Json.JNum (85 # 100) /\
               (AnalysisService.is_critical s = true <-> n = "blood") /\
               AnalysisService.metadata_source s = "segmentation")
           (AnalysisService.structures r).
Proof.
  intros Hinit Hseg.
  unfold AnalysisService.analyze_frame, AnalysisService.should_run_claude.
  rewrite andb_false_r. cbn [andb]. rewrite andb_false_r. rewrite Hseg.
  eexists. split; [reflexivity|].
  cbn [AnalysisService.finish AnalysisService.outcome AnalysisService.structures].
  eapply Forall_impl; [|apply (@local_pass_detections cv seg frame)].
  intros s (n & Hn & Hname & Hty & Hconf & Hcrit & _ & Hsrc).
  pose proof (init_table_keys Hinit Hn) as Hall. cbn [In] in Hall.
  exists n. repeat split; try assumption.
  - intros Hother.
    repeat (destruct Hall as [<-|Hall]; [vm_compute in Hother; discriminate|]).
    exact Hall.
  - rewrite Hcrit. intros Hb. apply orb_true_iff in Hb.
    destruct Hb as [Hb|Hb]; apply String.eqb_eq in Hb; [exact Hb|].
    exfalso. subst n.
    repeat (destruct Hall as [Hall|Hall]; [discriminate|]). exact Hall.
  - intros ->. rewrite Hcrit. reflexivity.
Qed.

Lemma local_detections_are_classified_witness :
  exists r,
    AnalysisService.outcome
      (AnalysisService.analyze_frame Inputs.no_numeric_strings Cv2Ref.cv
         Inputs.fresh_service Inputs.timeout_world Inputs.tissue_gray 1
         AnalysisService.SEGMENTATION_ONLY false) = Py.Ok r /\
    Forall (fun s => exists n,
               In n (Py.keys (NeuroimagingSegmenter.thresholds Inputs.or_segmenter)) /\
               AnalysisService.name s = Json.JStr n /\
               AnalysisService.structure_type s
                 = Json.JStr (AnalysisService._classify_structure n) /\
               AnalysisService._classify_structure n <> "other" /\
               AnalysisService.confidence s = Json.JNum (85 # 100) /\
               (AnalysisService.is_critical s = true <-> n = "blood") /\
               AnalysisService.metadata_source s = "segmentation")
           (AnalysisService.structures r).
Proof.
  apply (@local_detections_are_classified Inputs.no_numeric_strings Cv2Ref.cv
           "OR_CAMERA" Inputs.or_segmenter Inputs.fresh_service Inputs.timeout_world
           Inputs.tissue_gray 1 false); reflexivity.
Defined.

(** A run of the local pass on a uniform frame in the range of "tissue":
    one detection, the whole frame, and a full score. *)
Example tissue_frame_run :
  exists r,
    AnalysisService.outcome
      (AnalysisService.analyze_frame Inputs.no_numeric_strings Cv2Ref.cv
         Inputs.fresh_service Inputs.timeout_world Inputs.tissue_gray 1
         AnalysisService.SEGMENTATION_ONLY false) = Py.Ok r /\
    map AnalysisService.name (AnalysisService.structures r) = [ Json.JStr "tissue" ] /\
    map AnalysisService.bounding_box (AnalysisService.structures r)
      = [ (0, 0, 30, 20)%Z ] /\
    AnalysisService.safety_score r = 100.
Proof. eexists. vm_compute. repeat split. Qed.

(** What a call returns when the external pass received a usable payload. *)
Lemma external_payload_result
        (float_of_str : string -> option Q) (cv : Cv2.ops)
        (self : AnalysisService.service) (w : AnalysisService.world)
        (frame : Img.ndarray) (frame_id : Z) (ty : AnalysisService.AnalysisType)
        (force : bool) (payload : Json.dict) :
  AnalysisService.should_run_claude self ty force w = true ->
  ClaudeVisionAnalyzer.analyze_frame
    (AnalysisService.encoded w) (AnalysisService.claude_reply w) = Py.Ok payload ->
  payload <> [] ->
  Py.dict_mem "error" payload = false ->
  exists r,
    AnalysisService.outcome
      (AnalysisService.analyze_frame float_of_str cv self w frame frame_id ty force)
      = Py.Ok r /\
    AnalysisService.raw_analysis r = Some payload /\
    AnalysisService.safety_score r =
      match AnalysisService._extract_safety_score float_of_str payload with
      | Py.Ok q => q
      | Py.Raise _ _ => 100
      end /\
    AnalysisService._last_claude_analysis
      (AnalysisService.after
         (AnalysisService.analyze_frame float_of_str cv self w frame frame_id ty force))
      = Some payload.
Proof.
  intros Hrun Hpay Hne Herr.
  rewrite (external_call float_of_str cv frame frame_id Hrun Hpay). cbv zeta.
  rewrite Herr. cbn [negb].
  pose proof (local_stage_defaults cv self frame ty) as Hdef. cbv zeta in Hdef.
  set (loc := match AnalysisService.segmenter self, ty with
              | Some seg, (AnalysisService.SEGMENTATION_ONLY | AnalysisService.HYBRID
                           | AnalysisService.NAVIGATION) =>
                  AnalysisService.local_pass cv seg frame AnalysisService.initial_locals
              | _, _ => AnalysisService.initial_locals
              end) in *.
  destruct Hdef as (Hscore & _).
  pose proof (extract_all_safety float_of_str payload
                (AnalysisService.set_raw (Some payload) loc)) as [Hs Hr].
  destruct (AnalysisService.extract_all float_of_str payload
              (AnalysisService.set_raw (Some payload) loc)) as [loc' raised].
  cbn [fst snd] in Hs, Hr |- *.
  cbn [AnalysisService.set_raw AnalysisService.l_safety_score
       AnalysisService.l_raw_analysis] in Hs, Hr.
  rewrite Hscore in Hs.
  eexists. split; [reflexivity|].
  cbn [AnalysisService.raw_analysis AnalysisService.safety_score
       AnalysisService.finish AnalysisService.after AnalysisService.set_cache
       AnalysisService._last_claude_analysis].
  destruct raised.
  - unfold AnalysisService.fall_back.
    cbn [AnalysisService.set_cache AnalysisService._last_claude_analysis].
    rewrite (nonempty_Some Hne).
    cbn [AnalysisService.set_raw AnalysisService.l_raw_analysis
         AnalysisService.l_safety_score].
    rewrite (nonempty_Some Hne). cbn [negb].
    split; [reflexivity|]. split; [exact Hs | reflexivity].
  - rewrite Hr, (nonempty_Some Hne). cbn [negb].
    split; [reflexivity|]. split; [exact Hs | reflexivity].
Qed.

(** X15.  When the external pass runs and the analyzer returns a non-empty
    payload without an "error" key, the result carries that payload, the
    payload is cached, and the safety score of the result is the score
    extracted from the payload, whatever its value, or the initial 100 when
    the extraction raises; the local detections never enter it. *)
Theorem external_payload_decides_safety_score
        (float_of_str : string -> option Q) (cv : Cv2.ops)
        (self : AnalysisService.service) (w : AnalysisService.world)
        (frame : Img.ndarray) (frame_id : Z) (ty : AnalysisService.AnalysisType)
        (force : bool) (payload : Json.dict) :
  AnalysisService.should_run_claude self ty force w = true ->
  ClaudeVisionAnalyzer.analyze_frame
    (AnalysisService.encoded w) (AnalysisService.claude_reply w) = Py.Ok payload ->
  payload <> [] ->
  Py.dict_mem "error" payload = false ->
  exists r,
    AnalysisService.outcome
      (AnalysisService.analyze_frame float_of_str cv self w frame frame_id ty force)
      = Py.Ok r /\
    AnalysisService.raw_analysis r = Some payload /\
    AnalysisService.safety_score r =
      match AnalysisService._extract_safety_score float_of_str payload with
      | Py.Ok q => q
      | Py.Raise _ _ => 100
      end /\
    AnalysisService._last_claude_analysis
      (AnalysisService.after
         (AnalysisService.analyze_frame float_of_str cv self w frame frame_id ty force))
      = Some payload.
Proof.
  intros Hrun Hpay Hne Herr.
  exact (@external_payload_result float_of_str cv self w frame frame_id ty force payload
           Hrun Hpay Hne Herr).
Qed.

Lemma external_payload_decides_safety_score_witness :
  exists r,
    AnalysisService.outcome
      (AnalysisService.analyze_frame Inputs.no_numeric_strings Cv2Ref.cv
         Inputs.fresh_service Inputs.null_score_world Inputs.small_gray 1
         AnalysisService.HYBRID false)
      = Py.Ok r /\
    AnalysisService.raw_analysis r = Some Inputs.null_score_payload /\
    AnalysisService.safety_score r =
      match AnalysisService._extract_safety_score Inputs.no_numeric_strings
              Inputs.null_score_payload with
      | Py.Ok q => q
      | Py.Raise _ _ => 100
      end /\
    AnalysisService._last_claude_analysis
      (AnalysisService.after
         (AnalysisService.analyze_frame Inputs.no_numeric_strings Cv2Ref.cv
            Inputs.fresh_service Inputs.null_score_world Inputs.small_gray 1
            AnalysisService.HYBRID false))
      = Some Inputs.null_score_payload.
Proof.
  apply (@external_payload_decides_safety_score Inputs.no_numeric_strings Cv2Ref.cv
           Inputs.fresh_service Inputs.null_score_world Inputs.small_gray 1
           AnalysisService.HYBRID false Inputs.null_score_payload);
    [reflexivity | reflexivity | discriminate | reflexivity].
Defined.

(** X16.  A payload whose "safety_score" cannot be converted by [float]
    (null, a list, a non-numeric string) is cached by the call that received
    it: that call hides the conversion error and reports the initial score
    100.  A later call of an external analysis type inside the throttle
    interval reads the score from the cache outside any [try], so the same
    conversion error leaves [analyze_frame]; the service is as it was. *)
Theorem unconvertible_score_is_cached_then_raised
        (float_of_str : string -> option Q) (cv : Cv2.ops)
        (self : AnalysisService.service) (w1 w2 : AnalysisService.world)
        (frame1 frame2 : Img.ndarray) (id1 id2 : Z)
        (ty : AnalysisService.AnalysisType) (force : bool)
        (payload : Json.dict) (v : Json.value) (t m : string) :
  AnalysisService.should_run_claude self ty force w1 = true ->
  ClaudeVisionAnalyzer.analyze_frame
    (AnalysisService.encoded w1) (AnalysisService.claude_reply w1) = Py.Ok payload ->
  Py.dict_mem "error" payload = false ->
  Py.dict_get "safety_score" payload = Some v ->
  Json.to_float float_of_str v = Py.Raise t m ->
  (AnalysisService.current_time w2 - AnalysisService.current_time w1
   < AnalysisService.claude_analysis_interval self)%Q ->
  let first := AnalysisService.analyze_frame float_of_str cv self w1 frame1 id1 ty force in
  let second :=
    AnalysisService.analyze_frame float_of_str cv (AnalysisService.after first)
      w2 frame2 id2 ty false in
  (exists r,
      AnalysisService.outcome first = Py.Ok r /\
      AnalysisService.raw_analysis r = Some payload /\
      AnalysisService.safety_score r = 100) /\
  AnalysisService.outcome second = Py.Raise t m /\
  AnalysisService.requests second = 0%nat /\
  AnalysisService.after second = AnalysisService.after first.
Proof.
  intros Hrun Hpay Herr Hget Hfloat Hsoon first second.
  destruct (dict_mem_get Hget) as [Hmem Hne].
  assert (Hex : AnalysisService._extract_safety_score float_of_str payload = Py.Raise t m).
  { unfold AnalysisService._extract_safety_score, Json.get. now rewrite Hmem, Hget. }
  split.
  - destruct (@external_payload_result float_of_str cv self w1 frame1 id1
                ty force payload Hrun Hpay Hne Herr) as (r & Hout & Hraw & Hscore & _).
    exists r. rewrite Hex in Hscore. now repeat split.
  - subst second.
    assert (Hafter : AnalysisService.after first =
                     AnalysisService.mkService
                       (AnalysisService.modality self)
                       (AnalysisService.claude_analysis_interval self)
                       (AnalysisService.segmenter self)
                       (AnalysisService.claude_analyzer self)
                       (Some payload) (AnalysisService.current_time w1)
                       (AnalysisService._analysis_count self + 1)).
    { subst first.
      rewrite (external_call float_of_str cv frame1 id1 Hrun Hpay). reflexivity. }
    rewrite Hafter. clear Hafter first.
    unfold AnalysisService.should_run_claude in Hrun.
    apply andb_true_iff in Hrun. destruct Hrun as [Hrun _].
    apply andb_true_iff in Hrun. destruct Hrun as [Han Hty].
    unfold AnalysisService.analyze_frame at 1 2 3.
    unfold AnalysisService.should_run_claude.
    cbn [AnalysisService.claude_analyzer AnalysisService.claude_analysis_interval
         AnalysisService._last_claude_time AnalysisService._last_claude_analysis
         AnalysisService.segmenter].
    rewrite (Qle_bool_false Hsoon). cbn [orb]. rewrite andb_false_r.
    rewrite (nonempty_Some Hne).
    replace (match ty with AnalysisService.SEGMENTATION_ONLY => false | _ => true end)
      with true by (destruct ty; [discriminate Hty | | | |]; reflexivity).
    cbn [andb]. rewrite Hex. repeat split.
Qed.

Lemma unconvertible_score_is_cached_then_raised_witness :
  let first :=
    AnalysisService.analyze_frame Inputs.no_numeric_strings Cv2Ref.cv
      Inputs.fresh_service Inputs.null_score_world Inputs.small_gray 1
      AnalysisService.HYBRID false in
  let second :=
    AnalysisService.analyze_frame Inputs.no_numeric_strings Cv2Ref.cv
      (AnalysisService.after first) Inputs.soon_after_world Inputs.small_gray 2
      AnalysisService.HYBRID false in
  (exists r,
      AnalysisService.outcome first = Py.Ok r /\
      AnalysisService.raw_analysis r = Some Inputs.null_score_payload /\
      AnalysisService.safety_score r = 100) /\
  AnalysisService.outcome second
    = Py.Raise "TypeError" "float() argument must be a string or a real number" /\
  AnalysisService.requests second = 0%nat /\
  AnalysisService.after second = AnalysisService.after first.
Proof.
  apply (@unconvertible_score_is_cached_then_raised Inputs.no_numeric_strings Cv2Ref.cv
           Inputs.fresh_service Inputs.null_score_world Inputs.soon_after_world
           Inputs.small_gray Inputs.small_gray 1 2 AnalysisService.HYBRID false
           Inputs.null_score_payload Json.JNull
           "TypeError" "float() argument must be a string or a real number");
    reflexivity.
Defined.

(** X17.  When the request fails inside the analyzer (it raises, or the
    reply does not decode) or the payload has an "error" key, nothing is
    extracted: the result carries the error payload, only local detections,
    no instruments, alerts, guidance or technique score, and the initial
    safety score 100 whatever was detected locally; the error payload
    replaces the cached one. *)
Theorem error_payload_reports_default_score
        (float_of_str : string -> option Q) (cv : Cv2.ops)
        (self : AnalysisService.service) (w : AnalysisService.world)
        (frame : Img.ndarray) (frame_id : Z) (ty : AnalysisService.AnalysisType)
        (force : bool) (b64 : string) :
  AnalysisService.should_run_claude self ty force w = true ->
  AnalysisService.encoded w = Py.Ok b64 ->
  match AnalysisService.claude_reply w with
  | ClaudeVisionAnalyzer.Decoded payload => Py.dict_mem "error" payload = true
  | _ => True
  end ->
  exists r payload,
    AnalysisService.outcome
      (AnalysisService.analyze_frame float_of_str cv self w frame frame_id ty force)
      = Py.Ok r /\
    AnalysisService.raw_analysis r = Some payload /\
    Py.dict_mem "error" payload = true /\
    AnalysisService.safety_score r = 100 /\
    AnalysisService.technique_score r = None /\
    AnalysisService.instruments r = [] /\
    AnalysisService.alerts r = [] /\
    AnalysisService.guidance r = Json.JNull /\
    AnalysisService.voice_alert r = Json.JNull /\
    Forall (fun s => AnalysisService.metadata_source s = "segmentation")
           (AnalysisService.structures r) /\
    AnalysisService._last_claude_analysis
      (AnalysisService.after
         (AnalysisService.analyze_frame float_of_str cv self w frame frame_id ty force))
      = Some payload.
Proof.
  intros Hrun Henc Hrep.
  assert (Hpay : exists payload,
             ClaudeVisionAnalyzer.analyze_frame
               (AnalysisService.encoded w) (AnalysisService.claude_reply w) = Py.Ok payload /\
             Py.dict_mem "error" payload = true).
  { unfold ClaudeVisionAnalyzer.analyze_frame. rewrite Henc. cbn [Py.bind].
    eexists. split; [reflexivity|].
    destruct (AnalysisService.claude_reply w); [reflexivity | reflexivity | exact Hrep]. }
  destruct Hpay as (payload & Hpay & Herr).
  assert (Hne : AnalysisService.nonempty (Some payload) = true).
  { destruct payload; [discriminate Herr | reflexivity]. }
  rewrite (external_call float_of_str cv frame frame_id Hrun Hpay). cbv zeta.
  rewrite Herr. cbn [negb fst snd].
  pose proof (local_stage_defaults cv self frame ty) as Hdef. cbv zeta in Hdef.
  assert (Hloc : Forall (fun s => AnalysisService.metadata_source s = "segmentation")
                   (AnalysisService.l_structures
                      match AnalysisService.segmenter self, ty with
                      | Some seg, (AnalysisService.SEGMENTATION_ONLY | AnalysisService.HYBRID
                                   | AnalysisService.NAVIGATION) =>
                          AnalysisService.local_pass cv seg frame AnalysisService.initial_locals
                      | _, _ => AnalysisService.initial_locals
                      end)).
  { assert (Hinit : Forall (fun s => AnalysisService.metadata_source s = "segmentation")
                      (AnalysisService.l_structures AnalysisService.initial_locals))
      by constructor.
    destruct (AnalysisService.segmenter self) as [seg|]; [|exact Hinit].
    destruct ty; try exact Hinit;
      (eapply Forall_impl; [|apply (@local_pass_detections cv seg frame)];
       intros s (n & _ & _ & _ & _ & _ & _ & Hsrc); exact Hsrc). }
  set (loc := match AnalysisService.segmenter self, ty with
              | Some seg, (AnalysisService.SEGMENTATION_ONLY | AnalysisService.HYBRID
                           | AnalysisService.NAVIGATION) =>
                  AnalysisService.local_pass cv seg frame AnalysisService.initial_locals
              | _, _ => AnalysisService.initial_locals
              end) in *.
  destruct Hdef as (Hscore & Htech & Hins & Hal & Hgui & Hvoice & _).
  exists
    (AnalysisService.mkResult frame_id (AnalysisService.now w)
       ((AnalysisService.end_time w - AnalysisService.start_time w) * 1000) ty 100
       None (AnalysisService.l_structures loc) [] [] Json.JNull Json.JNull
       (AnalysisService.l_segmentation_masks loc) (Some payload)),
    payload.
  cbn [AnalysisService.finish AnalysisService.outcome AnalysisService.after
       AnalysisService.set_raw AnalysisService.set_cache
       AnalysisService.l_raw_analysis AnalysisService.l_safety_score
       AnalysisService.l_technique_score AnalysisService.l_structures
       AnalysisService.l_instruments AnalysisService.l_alerts
       AnalysisService.l_guidance AnalysisService.l_voice_alert
       AnalysisService.l_segmentation_masks
       AnalysisService._last_claude_analysis
       AnalysisService.raw_analysis AnalysisService.safety_score
       AnalysisService.technique_score AnalysisService.instruments
       AnalysisService.alerts AnalysisService.guidance AnalysisService.voice_alert
       AnalysisService.structures].
  rewrite Hne. cbn [negb]. rewrite Hscore, Htech, Hins, Hal, Hgui, Hvoice.
  repeat split; assumption.
Qed.

Lemma error_payload_reports_default_score_witness :
  exists r payload,
    AnalysisService.outcome
      (AnalysisService.analyze_frame Inputs.no_numeric_strings Cv2Ref.cv
         Inputs.cached_service Inputs.timeout_world Inputs.small_gray 1
         AnalysisService.HYBRID false)
      = Py.Ok r /\
    AnalysisService.raw_analysis r = Some payload /\
    Py.dict_mem "error" payload = true /\
    AnalysisService.safety_score r = 100 /\
    AnalysisService.technique_score r = None /\
    AnalysisService.instruments r = [] /\
    AnalysisService.alerts r = [] /\
    AnalysisService.guidance r = Json.JNull /\
    AnalysisService.voice_alert r = Json.JNull /\
    Forall (fun s => AnalysisService.metadata_source s = "segmentation")
           (AnalysisService.structures r) /\
    AnalysisService._last_claude_analysis
      (AnalysisService.after
         (AnalysisService.analyze_frame Inputs.no_numeric_strings Cv2Ref.cv
            Inputs.cached_service Inputs.timeout_world Inputs.small_gray 1
            AnalysisService.HYBRID false))
      = Some payload.
Proof.
  apply (@error_payload_reports_default_score Inputs.no_numeric_strings Cv2Ref.cv
           Inputs.cached_service Inputs.timeout_world Inputs.small_gray 1
           AnalysisService.HYBRID false "/9j/4AAQ");
    [reflexivity | reflexivity | exact I].
Defined.

(** X18.  Inside the throttle interval a call of an external analysis type
    sends no request and leaves the throttle clock alone, while the same
    call with [force_claude] sends exactly one request and stamps the clock
    with the time it read. *)
Theorem force_claude_overrides_throttle
        (float_of_str : string -> option Q) (cv : Cv2.ops)
        (self : AnalysisService.service) (w : AnalysisService.world)
        (frame : Img.ndarray) (frame_id : Z) (ty : AnalysisService.AnalysisType)
        (b64 : string) :
  AnalysisService.claude_analyzer self = true ->
  ty <> AnalysisService.SEGMENTATION_ONLY ->
  ty <> AnalysisService.NAVIGATION ->
  AnalysisService.encoded w = Py.Ok b64 ->
  (AnalysisService.current_time w - AnalysisService._last_claude_time self
   < AnalysisService.claude_analysis_interval self)%Q ->
  let throttled :=
    AnalysisService.analyze_frame float_of_str cv self w frame frame_id ty false in
  let forced :=
    AnalysisService.analyze_frame float_of_str cv self w frame frame_id ty true in
  AnalysisService.requests throttled = 0%nat /\
  AnalysisService._last_claude_time (AnalysisService.after throttled)
    = AnalysisService._last_claude_time self /\
  AnalysisService.requests forced = 1%nat /\
  AnalysisService._last_claude_time (AnalysisService.after forced)
    = AnalysisService.current_time w.
Proof.
  intros Han Hseg Hnav Henc Hsoon throttled forced.
  assert (Hty : match ty with
                | AnalysisService.CLAUDE_VISION | AnalysisService.HYBRID
                | AnalysisService.SAFETY_CHECK => true
                | _ => false
                end = true) by (destruct ty; congruence).
  split; [|split].
  - subst throttled. unfold AnalysisService.analyze_frame, AnalysisService.should_run_claude.
    rewrite (Qle_bool_false Hsoon). cbn [orb]. rewrite andb_false_r.
    destruct (AnalysisService.nonempty _ && _); [|reflexivity].
    destruct (AnalysisService._extract_safety_score float_of_str _); reflexivity.
  - subst throttled. unfold AnalysisService.analyze_frame, AnalysisService.should_run_claude.
    rewrite (Qle_bool_false Hsoon). cbn [orb]. rewrite andb_false_r.
    destruct (AnalysisService.nonempty _ && _); [|reflexivity].
    destruct (AnalysisService._extract_safety_score float_of_str _); reflexivity.
  - assert (Hrun : AnalysisService.should_run_claude self ty true w = true).
    { unfold AnalysisService.should_run_claude. rewrite Han, Hty. reflexivity. }
    assert (Hpay : exists payload,
               ClaudeVisionAnalyzer.analyze_frame
                 (AnalysisService.encoded w) (AnalysisService.claude_reply w)
               = Py.Ok payload).
    { unfold ClaudeVisionAnalyzer.analyze_frame. rewrite Henc. eexists. reflexivity. }
    destruct Hpay as (payload & Hpay). subst forced.
    rewrite (external_call float_of_str cv frame frame_id Hrun Hpay).
    split; reflexivity.
Qed.

Lemma force_claude_overrides_throttle_witness :
  let throttled :=
    AnalysisService.analyze_frame Inputs.no_numeric_strings Cv2Ref.cv
      Inputs.recent_service Inputs.soon_after_world Inputs.small_gray 2
      AnalysisService.HYBRID false in
  let forced :=
    AnalysisService.analyze_frame Inputs.no_numeric_strings Cv2Ref.cv
      Inputs.recent_service Inputs.soon_after_world Inputs.small_gray 2
      AnalysisService.HYBRID true in
  AnalysisService.requests throttled = 0%nat /\
  AnalysisService._last_claude_time (AnalysisService.after throttled)
    = AnalysisService._last_claude_time Inputs.recent_service /\
  AnalysisService.requests forced = 1%nat /\
  AnalysisService._last_claude_time (AnalysisService.after forced)
    = AnalysisService.current_time Inputs.soon_after_world.
Proof.
  apply (@force_claude_overrides_throttle Inputs.no_numeric_strings Cv2Ref.cv
           Inputs.recent_service Inputs.soon_after_world Inputs.small_gray 2
           AnalysisService.HYBRID "/9j/4AAQ");
    [reflexivity | discriminate | discriminate | reflexivity | reflexivity].
Defined.

(** X19.  A call never changes the configuration of the service (modality,
    interval, segmenter, analyzer).  A call that returns has counted itself
    once and its result echoes the frame id and the analysis type; a call
    that raises has sent no request and leaves the service as it was,
    counter included. *)
Theorem call_keeps_configuration
        (float_of_str : string -> option Q) (cv : Cv2.ops)
        (self : AnalysisService.service) (w : AnalysisService.world)
        (frame : Img.ndarray) (frame_id : Z) (ty : AnalysisService.AnalysisType)
        (force : bool) :
  let c := AnalysisService.analyze_frame float_of_str cv self w frame frame_id ty force in
  AnalysisService.modality (AnalysisService.after c) = AnalysisService.modality self /\
  AnalysisService.claude_analysis_interval (AnalysisService.after c)
    = AnalysisService.claude_analysis_interval self /\
  AnalysisService.segmenter (AnalysisService.after c) = AnalysisService.segmenter self /\
  AnalysisService.claude_analyzer (AnalysisService.after c)
    = AnalysisService.claude_analyzer self /\
  match AnalysisService.outcome c with
  | Py.Ok r =>
      AnalysisService._analysis_count (AnalysisService.after c)
        = (AnalysisService._analysis_count self + 1)%Z /\
      AnalysisService.frame_id r = frame_id /\
      AnalysisService.analysis_type r = ty
  | Py.Raise _ _ =>
      AnalysisService.after c = self /\ AnalysisService.requests c = 0%nat
  end.
Proof.
  intros c. subst c. unfold AnalysisService.analyze_frame.
  destruct (AnalysisService.should_run_claude self ty force w).
  - unfold AnalysisService.external_pass.
    destruct (ClaudeVisionAnalyzer.analyze_frame _ _) as [payload|t m].
    + destruct (if negb (Py.dict_mem "error" payload) then _ else _) as [loc' raised].
      repeat split.
    + repeat split.
  - destruct (AnalysisService.nonempty _ && _).
    + destruct (AnalysisService._extract_safety_score float_of_str _); repeat split.
    + repeat split.
Qed.

(** X20.  The cached payload and the throttle clock change only together
    with a request: either the call sent none and both are as before, or
    it sent exactly one, the external pass was due, the cache holds what the
    analyzer returned and the clock holds the time the call read. *)
Theorem cache_changes_only_with_a_request
        (float_of_str : string -> option Q) (cv : Cv2.ops)
        (self : AnalysisService.service) (w : AnalysisService.world)
        (frame : Img.ndarray) (frame_id : Z) (ty : AnalysisService.AnalysisType)
        (force : bool) :
  let c := AnalysisService.analyze_frame float_of_str cv self w frame frame_id ty force in
  (AnalysisService.requests c = 0%nat /\
   AnalysisService._last_claude_analysis (AnalysisService.after c)
     = AnalysisService._last_claude_analysis self /\
   AnalysisService._last_claude_time (AnalysisService.after c)
     = AnalysisService._last_claude_time self)
  \/
  (AnalysisService.requests c = 1%nat /\
   AnalysisService.should_run_claude self ty force w = true /\
   exists payload,
     ClaudeVisionAnalyzer.analyze_frame
       (AnalysisService.encoded w) (AnalysisService.claude_reply w) = Py.Ok payload /\
     AnalysisService._last_claude_analysis (AnalysisService.after c) = Some payload /\
     AnalysisService._last_claude_time (AnalysisService.after c)
       = AnalysisService.current_time w).
Proof.
  intros c. subst c.
  destruct (AnalysisService.should_run_claude self ty force w) eqn:Hrun.
  - destruct (ClaudeVisionAnalyzer.analyze_frame
                (AnalysisService.encoded w) (AnalysisService.claude_reply w))
      as [payload|t m] eqn:Hpay.
    + right. rewrite (external_call float_of_str cv frame frame_id Hrun Hpay).
      split; [reflexivity|]. split; [reflexivity|].
      exists payload. repeat split.
    + left. unfold AnalysisService.analyze_frame. rewrite Hrun.
      unfold AnalysisService.external_pass. rewrite Hpay.
      unfold ClaudeVisionAnalyzer.analyze_frame in Hpay.
      destruct (AnalysisService.encoded w); [discriminate|].
      repeat split.
  - left. unfold AnalysisService.analyze_frame. rewrite Hrun.
    destruct (AnalysisService.nonempty _ && _).
    + destruct (AnalysisService._extract_safety_score float_of_str _); repeat split.
    + repeat split.
Qed.

(** ** Scores and extraction *)

Section Penalties.
Import Py Json AnalysisService.

Lemma fold_penalty_bound {A} (f : Q -> A -> Q) (c : Q) :
  (forall score a, score - c <= f score a)%Q ->
  forall (l : list A) (score : Q),
    (score - c * inject_Z (Z.of_nat (List.length l)) <= fold_left f l score)%Q.
Proof.
  intros Hf. induction l as [|a l IH]; intros score; cbn [fold_left List.length].
  - change (inject_Z (Z.of_nat 0)) with 0%Q. Lqa.lra.
  - specialize (IH (f score a)). specialize (Hf score a).
    rewrite Nat2Z.inj_succ. unfold Z.succ. rewrite inject_Z_plus.
    change (inject_Z 1) with 1%Q.
    rewrite Qmult_plus_distr_r, Qmult_1_r.
    set (x := (c * inject_Z (Z.of_nat (List.length l)))%Q) in *. Lqa.lra.
Qed.

Lemma fold_skips {A} (f : Q -> A -> Q) (relevant : A -> bool) :
  (forall score a, relevant a = false -> f score a = score) ->
  forall (l : list A) (score : Q),
    fold_left f (filter relevant l) score = fold_left f l score.
Proof.
  intros Hf. induction l as [|a l IH]; intros score; cbn [fold_left filter].
  - reflexivity.
  - destruct (relevant a) eqn:Hr; cbn [fold_left].
    + apply IH.
    + rewrite (Hf score a Hr). apply IH.
Qed.


End Penalties.

(** X21.  Each detection lowers the score of [_calculate_safety_score] by at
    most 25 points (20 for a critical structure, 5 for a pathology), the
    score stays within 0..100, and detections that are neither critical nor
    of type "pathology" do not count at all. *)
Theorem safety_score_penalty_bounds
        (structures : list AnalysisService.StructureDetection) :
  (100 - 25 * inject_Z (Z.of_nat (List.length structures))
   <= AnalysisService._calculate_safety_score structures)%Q /\
  (0 <= AnalysisService._calculate_safety_score structures <= 100)%Q /\
  AnalysisService._calculate_safety_score structures =
  AnalysisService._calculate_safety_score
    (filter (fun s => AnalysisService.is_critical s
                      || Json.is_str "pathology" (AnalysisService.structure_type s))
            structures).
Proof.
  split; [|split].
  - unfold AnalysisService._calculate_safety_score.
    eapply Qle_trans; [|apply Q.le_max_r].
    apply Q.min_glb.
    + assert (H : (0 <= inject_Z (Z.of_nat (List.length structures)))%Q).
      { change 0%Q with (inject_Z 0). rewrite <- Zle_Qle. lia. }
      Lqa.lra.
    + apply fold_penalty_bound. intros score s.
      pose proof (Q.le_min_l 20 (AnalysisService.area s / 1000)) as Hmin.
      destruct (AnalysisService.is_critical s);
        destruct (Json.is_str "pathology" (AnalysisService.structure_type s));
        Lqa.lra.
  - apply calculate_safety_score_in_range.
  - unfold AnalysisService._calculate_safety_score. f_equal. f_equal.
    symmetry. apply fold_skips. intros score s Hr.
    apply orb_false_iff in Hr. destruct Hr as [-> ->]. reflexivity.
Qed.

(** A run of [_calculate_safety_score]: a critical structure of area 50000
    costs 20, a pathology 5, tissue nothing. *)
Example safety_score_run :
  AnalysisService._calculate_safety_score
    [ Inputs.large_vessel; Inputs.some_tissue; Inputs.small_tumor ] = 75.
Proof. reflexivity. Qed.

(** X22.  The two defaults of [_extract_structures] for the bounding box
    disagree: an item without "bounding_box" gets the default list
    [0, 0, 100, 100], which has four entries and is scaled by 10 to the box
    (0, 0, 1000, 1000) with centroid (500, 500) and area 1000000, while an
    item whose list does not have four entries gets the unscaled box
    (0, 0, 100, 100) with centroid (50, 50) and area 10000. *)
Theorem structure_box_defaults (d : Json.dict) (bbox : list Json.value) :
  (Py.dict_get "bounding_box" d = None ->
   exists s,
     AnalysisService.structure_of_item (Json.JDict d) = Py.Ok [ s ] /\
     AnalysisService.bounding_box s = (0, 0, 1000, 1000)%Z /\
     AnalysisService.centroid s = (500, 500)%Z /\
     AnalysisService.area s = 1000000) /\
  (Py.dict_get "bounding_box" d = Some (Json.JList bbox) ->
   List.length bbox <> 4%nat ->
   exists s,
     AnalysisService.structure_of_item (Json.JDict d) = Py.Ok [ s ] /\
     AnalysisService.bounding_box s = (0, 0, 100, 100)%Z /\
     AnalysisService.centroid s = (50, 50)%Z /\
     AnalysisService.area s = 10000).
Proof.
  split.
  - intros Hnone. unfold AnalysisService.structure_of_item, Json.get_default.
    rewrite Hnone. eexists. split; [reflexivity|]. repeat split.
  - intros Hsome Hlen. unfold AnalysisService.structure_of_item.
    unfold Json.get_default at 1. rewrite Hsome.
    cbn [Json.len Py.bind].
    destruct (Nat.eqb_spec (List.length bbox) 4) as [Heq|_]; [contradiction|].
    eexists. split; [reflexivity|]. repeat split.
Qed.

Lemma structure_box_defaults_witness :
  (exists s,
     AnalysisService.structure_of_item
       (Json.JDict [ ("name", Json.JStr "tumor") ]) = Py.Ok [ s ] /\
     AnalysisService.bounding_box s = (0, 0, 1000, 1000)%Z /\
     AnalysisService.centroid s = (500, 500)%Z /\
     AnalysisService.area s = 1000000) /\
  (exists s,
     AnalysisService.structure_of_item
       (Json.JDict [ ("bounding_box", Json.JList [ Json.JNum 10; Json.JNum 20 ]) ])
       = Py.Ok [ s ] /\
     AnalysisService.bounding_box s = (0, 0, 100, 100)%Z /\
     AnalysisService.centroid s = (50, 50)%Z /\
     AnalysisService.area s = 10000).
Proof.
  split.
  - apply (proj1 (structure_box_defaults [ ("name", Json.JStr "tumor") ] [])).
    reflexivity.
  - apply (proj2 (structure_box_defaults
                    [ ("bounding_box", Json.JList [ Json.JNum 10; Json.JNum 20 ]) ]
                    [ Json.JNum 10; Json.JNum 20 ])).
    + reflexivity.
    + discriminate.
Defined.


(** A run of [_extract_alerts]: a string and an object under two keys. *)
Example extract_alerts_run :
  AnalysisService._extract_alerts
    [ ("warnings", Json.JList [ Json.JStr "bleeding" ]);
      ("alerts", Json.JList [ Json.JDict [ ("message", Json.JStr "close") ] ]);
      ("critical_alerts", Json.JStr "ignored") ]
  = [ Json.JDict [ ("message", Json.JStr "close") ];
      Json.JDict [ ("message", Json.JStr "bleeding"); ("severity", Json.JStr "warning") ] ].
Proof. reflexivity. Qed.

(** ** Trajectories and margins *)

Section TrajectoryMargins.
Import Py Json AnalysisService.

Lemma no_warning_iff {A B} (c : A -> bool) (mk : A -> B) (ps : list A) :
  forallb (fun q => negb (c q)) ps = true <->
  flat_map (fun q => if c q then [ mk q ] else []) ps = [].
Proof.
  induction ps as [|q ps IH]; cbn [forallb flat_map].
  - tauto.
  - destruct (c q); cbn [negb andb app].
    + split; discriminate.
    + exact IH.
Qed.

Lemma dist_lt_mono (d2 m m' : Z) :
  (m <= m')%Z -> dist_lt d2 m = true -> dist_lt d2 m' = true.
Proof.
  unfold dist_lt. rewrite !andb_true_iff, !Z.ltb_lt. intros Hle [Hm Hlt].
  split; [lia|]. assert (m * m <= m' * m')%Z by nia. lia.
Qed.

Lemma dist_lt_nonpos (d2 m : Z) : (m <= 0)%Z -> dist_lt d2 m = false.
Proof.
  intros Hm. unfold dist_lt.
  replace (0 <? m)%Z with false by (symmetry; apply Z.ltb_ge; exact Hm).
  reflexivity.
Qed.

(** The running minimum does not depend on the margin. *)
Lemma scan_min2_margin (m m' : Z) (ps : list ((Z * Z) * StructureDetection)) :
  forall st st',
    s_min2 st = s_min2 st' ->
    s_min2 (fold_left (visit_pair m) ps st) = s_min2 (fold_left (visit_pair m') ps st').
Proof.
  induction ps as [|q ps IH]; intros st st' Heq; cbn [fold_left]; [exact Heq|].
  apply IH. unfold visit_pair, visit.
  destruct (is_critical (snd q)); [|exact Heq].
  rewrite Heq.
  destruct (dist_lt _ m), (dist_lt _ m'); reflexivity.
Qed.

Lemma stricter_forallb {A} (c c' : A -> bool) (ps : list A) :
  (forall q, c q = true -> c' q = true) ->
  forallb (fun q => negb (c' q)) ps = true -> forallb (fun q => negb (c q)) ps = true.
Proof.
  intros Hc. induction ps as [|q ps IH]; cbn [forallb]; [tauto|].
  rewrite !andb_true_iff. intros [Hq Hps]. split; [|now apply IH].
  destruct (c q) eqn:Hcq; [|reflexivity]. now rewrite (Hc q Hcq) in Hq.
Qed.

Lemma stricter_flat_map_length {A B} (c c' : A -> bool) (mk mk' : A -> B) (ps : list A) :
  (forall q, c q = true -> c' q = true) ->
  (List.length (flat_map (fun q => if c q then [ mk q ] else []) ps)
   <= List.length (flat_map (fun q => if c' q then [ mk' q ] else []) ps))%nat.
Proof.
  intros Hc. induction ps as [|q ps IH]; cbn [flat_map]; [apply Nat.le_refl|].
  rewrite !length_app.
  destruct (c q) eqn:Hcq.
  - rewrite (Hc q Hcq). cbn [List.length]. lia.
  - destruct (c' q); cbn [List.length]; lia.
Qed.

End TrajectoryMargins.

(** X24.  [validate_trajectory] reports a safe trajectory exactly when it
    has no warning, and recommends "Clear trajectory" exactly then; every
    warning is for a point of the trajectory and its truncated distance is
    non-negative and strictly below the margin. *)
Theorem trajectory_safe_iff_no_warnings
        (trajectory : list (Z * Z))
        (structures : list AnalysisService.StructureDetection) (margin : Z) :
  let r := AnalysisService.validate_trajectory trajectory structures margin in
  (AnalysisService.is_safe r = true <-> AnalysisService.warnings r = []) /\
  (AnalysisService.recommendation r = "Clear trajectory"
   <-> AnalysisService.is_safe r = true) /\
  Forall (fun w => In (AnalysisService.point w) trajectory /\
                   (0 <= AnalysisService.distance_px w < margin)%Z)
         (AnalysisService.warnings r).
Proof.
  intros r. subst r. unfold AnalysisService.validate_trajectory.
  cbn [AnalysisService.is_safe AnalysisService.warnings AnalysisService.recommendation].
  rewrite (@loops_as_pairs margin trajectory structures).
  rewrite (@scan_is_safe margin), (@scan_warnings margin).
  cbn [AnalysisService.s_is_safe AnalysisService.s_warnings andb app].
  split; [|split].
  - apply (no_warning_iff
             (fun q => AnalysisService.is_critical (snd q)
                       && AnalysisService.dist_lt
                            (AnalysisService.dist2 (fst q) (AnalysisService.centroid (snd q)))
                            margin)).
  - destruct (forallb _ _); split; try reflexivity; discriminate.
  - apply Forall_forall. intros w Hw. apply in_flat_map in Hw.
    destruct Hw as ([p s] & Hq & Hw). cbn [fst snd] in Hw.
    apply in_critical_pairs in Hq. destruct Hq as (Hp & _ & _).
    destruct (AnalysisService.is_critical s
              && AnalysisService.dist_lt
                   (AnalysisService.dist2 p (AnalysisService.centroid s)) margin)
      eqn:Hc; [|destruct Hw].
    destruct Hw as [<-|[]]. cbn [AnalysisService.point AnalysisService.distance_px].
    split; [exact Hp|]. split; [apply Z.sqrt_nonneg|].
    apply andb_true_iff in Hc. destruct Hc as [_ Hlt].
    unfold AnalysisService.dist_lt in Hlt.
    apply andb_true_iff in Hlt. destruct Hlt as [Hm Hlt].
    apply Z.ltb_lt in Hm, Hlt.
    apply Z.sqrt_lt_square; [apply dist2_nonneg | lia | exact Hlt].
Qed.

(** X25.  Widening the safety margin only adds warnings: a trajectory that
    is safe for a margin is safe for every smaller one, a smaller margin
    gives at most as many warnings, the reported minimum distance does not
    depend on the margin, and a margin of zero or less accepts every
    trajectory without a warning. *)
Theorem wider_margin_is_stricter
        (trajectory : list (Z * Z))
        (structures : list AnalysisService.StructureDetection) (m m' : Z) :
  (m <= m')%Z ->
  (AnalysisService.is_safe (AnalysisService.validate_trajectory trajectory structures m')
     = true ->
   AnalysisService.is_safe (AnalysisService.validate_trajectory trajectory structures m)
     = true) /\
  (List.length
     (AnalysisService.warnings (AnalysisService.validate_trajectory trajectory structures m))
   <= List.length
        (AnalysisService.warnings
           (AnalysisService.validate_trajectory trajectory structures m')))%nat /\
  AnalysisService.min_distance_to_critical_px
    (AnalysisService.validate_trajectory trajectory structures m)
  = AnalysisService.min_distance_to_critical_px
      (AnalysisService.validate_trajectory trajectory structures m') /\
  ((m <= 0)%Z ->
   AnalysisService.is_safe (AnalysisService.validate_trajectory trajectory structures m)
     = true /\
   AnalysisService.warnings (AnalysisService.validate_trajectory trajectory structures m)
     = []).
Proof.
  intros Hle. unfold AnalysisService.validate_trajectory.
  cbn [AnalysisService.is_safe AnalysisService.warnings
       AnalysisService.min_distance_to_critical_px].
  rewrite (@loops_as_pairs m trajectory structures),
          (@loops_as_pairs m' trajectory structures).
  rewrite !(@scan_is_safe m), !(@scan_is_safe m'), !(@scan_warnings m), !(@scan_warnings m').
  cbn [AnalysisService.s_is_safe AnalysisService.s_warnings andb app].
  assert (Hc : forall q : (Z * Z) * AnalysisService.StructureDetection,
             AnalysisService.is_critical (snd q)
             && AnalysisService.dist_lt
                  (AnalysisService.dist2 (fst q) (AnalysisService.centroid (snd q))) m = true ->
             AnalysisService.is_critical (snd q)
             && AnalysisService.dist_lt
                  (AnalysisService.dist2 (fst q) (AnalysisService.centroid (snd q))) m' = true).
  { intros q Hq. apply andb_true_iff in Hq. destruct Hq as [-> Hq].
    cbn [andb]. exact (dist_lt_mono Hle Hq). }
  split; [|split; [|split]].
  - apply (stricter_forallb Hc).
  - apply (@stricter_flat_map_length _ _ _ _ _ _ _ Hc).
  - f_equal. now apply scan_min2_margin.
  - intros Hm.
    assert (Hnone : forall q : (Z * Z) * AnalysisService.StructureDetection,
               AnalysisService.is_critical (snd q)
               && AnalysisService.dist_lt
                    (AnalysisService.dist2 (fst q) (AnalysisService.centroid (snd q))) m
               = false).
    { intros q. rewrite (dist_lt_nonpos _ Hm). apply andb_false_r. }
    split.
    + apply forallb_forall. intros q _. now rewrite Hnone.
    + induction (AnalysisService.critical_pairs trajectory structures) as [|q ps IH];
        cbn [flat_map]; [reflexivity|]. now rewrite Hnone.
Qed.

Lemma wider_margin_is_stricter_witness :
  (AnalysisService.is_safe
     (AnalysisService.validate_trajectory
        [(0, 0)%Z; (100, 100)%Z] [Inputs.vessel_at_1_1] 50) = true ->
   AnalysisService.is_safe
     (AnalysisService.validate_trajectory
        [(0, 0)%Z; (100, 100)%Z] [Inputs.vessel_at_1_1] 1) = true) /\
  (List.length
     (AnalysisService.warnings
        (AnalysisService.validate_trajectory
           [(0, 0)%Z; (100, 100)%Z] [Inputs.vessel_at_1_1] 1))
   <= List.length
        (AnalysisService.warnings
           (AnalysisService.validate_trajectory
              [(0, 0)%Z; (100, 100)%Z] [Inputs.vessel_at_1_1] 50)))%nat /\
  AnalysisService.min_distance_to_critical_px
    (AnalysisService.validate_trajectory
       [(0, 0)%Z; (100, 100)%Z] [Inputs.vessel_at_1_1] 1)
  = AnalysisService.min_distance_to_critical_px
      (AnalysisService.validate_trajectory
         [(0, 0)%Z; (100, 100)%Z] [Inputs.vessel_at_1_1] 50) /\
  ((1 <= 0)%Z ->
   AnalysisService.is_safe
     (AnalysisService.validate_trajectory
        [(0, 0)%Z; (100, 100)%Z] [Inputs.vessel_at_1_1] 1) = true /\
   AnalysisService.warnings
     (AnalysisService.validate_trajectory
        [(0, 0)%Z; (100, 100)%Z] [Inputs.vessel_at_1_1] 1) = []).
Proof.
  apply (@wider_margin_is_stricter [(0, 0)%Z; (100, 100)%Z] [Inputs.vessel_at_1_1] 1 50).
  lia.
Defined.

(** A run with the margins 1 and 50 on the same trajectory: the narrow
    margin accepts what the wide one rejects, with the same minimum. *)
Example margin_run :
  let narrow := AnalysisService.validate_trajectory
                  [(0, 0)%Z; (100, 100)%Z] [Inputs.vessel_at_1_1] 1 in
  let wide := AnalysisService.validate_trajectory
                [(0, 0)%Z; (100, 100)%Z] [Inputs.vessel_at_1_1] 50 in
  AnalysisService.is_safe narrow = true /\ AnalysisService.is_safe wide = false /\
  AnalysisService.warnings narrow = [] /\
  map AnalysisService.distance_px (AnalysisService.warnings wide) = [ 1%Z ] /\
  AnalysisService.min_distance_to_critical_px narrow = Some 1%Z /\
  AnalysisService.min_distance_to_critical_px wide = Some 1%Z.
Proof. vm_compute. repeat split. Qed.

(** ** Code fences in the reply text *)

Section CodeFence.
Import Py Json ResponseText.

Lemma find_first_eq (sep s : string) :
  find_first sep s =
    if is_prefix sep s then Some (EmptyString, drop (String.length sep) s)
    else
      match s with
      | EmptyString => None
      | String c r =>
          match find_first sep r with
          | Some (before, rest) => Some (String c before, rest)
          | None => None
          end
      end.
Proof. destruct s; reflexivity. Qed.

Lemma is_substring_eq (p s : string) :
  is_substring p s =
    is_prefix p s ||
    match s with
    | EmptyString => false
    | String _ s' => is_substring p s'
    end.
Proof. destruct s; reflexivity. Qed.

Lemma append_empty (s : string) : (s ++ EmptyString)%string = s.
Proof. induction s as [|c s IH]; cbn; [reflexivity | now rewrite IH]. Qed.

Lemma is_prefix_append (sep r : string) : is_prefix sep (sep ++ r)%string = true.
Proof.
  induction sep as [|c sep IH]; cbn; [now destruct r|].
  now rewrite Ascii.eqb_refl, IH.
Qed.

Lemma drop_append (sep r : string) : drop (String.length sep) (sep ++ r)%string = r.
Proof. induction sep as [|c sep IH]; cbn; [reflexivity | exact IH]. Qed.

(** A text without backtick. *)
Lemma no_backtick_cons (c : ascii) (r : string) :
  is_substring "`" (String c r) = false ->
  Ascii.eqb "`" c = false /\ is_substring "`" r = false.
Proof.
  rewrite is_substring_eq. intros H. apply orb_false_iff in H. destruct H as [Hp Hr].
  split; [|exact Hr]. cbn in Hp. now rewrite andb_true_r in Hp.
Qed.

Lemma find_first_here (sep r : string) :
  find_first sep (sep ++ r)%string = Some (EmptyString, r).
Proof. now rewrite find_first_eq, is_prefix_append, drop_append. Qed.

(** The search for a fence walks over a text without backtick. *)
Lemma find_first_skip (sep' s r : string) :
  is_substring "`" s = false ->
  find_first (String "`" sep') (s ++ r)%string =
    match find_first (String "`" sep') r with
    | Some (before, rest) => Some ((s ++ before)%string, rest)
    | None => None
    end.
Proof.
  induction s as [|c s IH]; intros Hs.
  - cbn [append]. now destruct (find_first _ r) as [[a b]|].
  - apply no_backtick_cons in Hs. destruct Hs as [Hc Hs].
    cbn [append]. rewrite find_first_eq. cbn [is_prefix]. rewrite Hc. cbn [andb].
    rewrite (IH Hs). now destruct (find_first _ r) as [[a b]|].
Qed.

Lemma find_first_none (sep' s : string) :
  is_substring "`" s = false -> find_first (String "`" sep') s = None.
Proof.
  intros Hs. rewrite <- (append_empty s), (find_first_skip _ _ Hs). reflexivity.
Qed.

Lemma is_substring_append (sep pre r : string) :
  is_substring sep (pre ++ sep ++ r)%string = true.
Proof.
  induction pre as [|c pre IH].
  - cbn [append]. now rewrite is_substring_eq, is_prefix_append.
  - cbn [append]. rewrite is_substring_eq, IH. apply orb_true_r.
Qed.


Lemma find_first_substring (sep s : string) :
  is_substring sep s = false -> find_first sep s = None.
Proof.
  induction s as [|c s IH]; rewrite is_substring_eq, find_first_eq; intros H;
    apply orb_false_iff in H; destruct H as [-> H]; [reflexivity|].
  now rewrite (IH H).
Qed.



(** The first two entries of a split. *)
Lemma split_head (sep s : string) :
  index (split sep s) 0 =
    Ok (match find_first sep s with Some (before, _) => before | None => s end).
Proof.
  unfold split, index. cbn [split_fuel].
  now destruct (find_first sep s) as [[a b]|].
Qed.

Lemma split_second (sep s before rest : string) :
  s <> EmptyString ->
  find_first sep s = Some (before, rest) ->
  index (split sep s) 1 =
    Ok (match find_first sep rest with Some (inner, _) => inner | None => rest end).
Proof.
  intros Hs Hcut. unfold split, index. cbn [split_fuel]. rewrite Hcut.
  destruct s as [|c s]; [congruence|]. cbn [String.length split_fuel nth_error].
  now destruct (find_first sep rest) as [[a b]|].
Qed.


End CodeFence.





(** X28.  A reply that wraps its payload in a plain code fence, and holds
    no opening fence of a json block anywhere, is unwrapped to the payload
    when the text before the fence and the payload hold no backtick. *)
Theorem plain_fence_is_unwrapped (before body rest : string) :
  Json.is_substring "`" before = false ->
  Json.is_substring "`" body = false ->
  Json.is_substring "```json" (before ++ "```" ++ body ++ "```" ++ rest)%string = false ->
  ResponseText.strip_code_fence
    (before ++ "```" ++ body ++ "```" ++ rest)%string = Py.Ok body.
Proof.
  intros Hbefore Hbody Hjson. unfold ResponseText.strip_code_fence.
  rewrite Hjson, is_substring_append.
  assert (Hcut : ResponseText.find_first "```"
                   (before ++ "```" ++ body ++ "```" ++ rest)%string
                 = Some (before, (body ++ "```" ++ rest)%string)).
  { rewrite (find_first_skip _ _ Hbefore), find_first_here. now rewrite append_empty. }
  assert (Hne : (before ++ "```" ++ body ++ "```" ++ rest)%string <> EmptyString).
  { intros H. apply (f_equal (Json.is_substring "```")) in H.
    rewrite is_substring_append in H. discriminate H. }
  rewrite (split_second Hne Hcut). cbn [Py.bind].
  rewrite (find_first_skip _ _ Hbody), find_first_here, append_empty.
  rewrite split_head, (find_first_none _ Hbody). reflexivity.
Qed.

Lemma plain_fence_is_unwrapped_witness :
  ResponseText.strip_code_fence ("```" ++ "{ }" ++ "```" ++ EmptyString)%string
  = Py.Ok "{ }".
Proof.
  apply (@plain_fence_is_unwrapped EmptyString "{ }" EmptyString); reflexivity.
Defined.

(** Two runs of [strip_code_fence]: an upper-case language tag is not
    recognised as the opening fence of a json block and stays in the text;
    an unclosed json fence keeps everything after it. *)
Example strip_code_fence_run :
  ResponseText.strip_code_fence ("```JSON" ++ "{ }" ++ "```")%string = Py.Ok "JSON{ }" /\
  ResponseText.strip_code_fence ("```json" ++ "{ }")%string = Py.Ok "{ }".
Proof. split; reflexivity. Qed.

(** The fuel of [split] is enough: a cut at a non-empty separator leaves a
    shorter text, so more fuel gives the same list. *)
Section SplitFuel.
Import Py Json ResponseText.

Lemma is_prefix_drop_length (sep s : string) :
  is_prefix sep s = true ->
  String.length s = (String.length sep + String.length (drop (String.length sep) s))%nat.
Proof.
  revert s. induction sep as [|c sep IH]; intros s H; [reflexivity|].
  destruct s as [|d s]; [discriminate|].
  cbn [is_prefix] in H. apply andb_true_iff in H. destruct H as [_ H].
  cbn [String.length drop Nat.add]. now rewrite (IH s H) at 1.
Qed.

Lemma find_first_length (sep s before rest : string) :
  find_first sep s = Some (before, rest) ->
  String.length s = (String.length before + String.length sep + String.length rest)%nat.
Proof.
  revert before rest. induction s as [|c s IH]; intros before rest;
    rewrite find_first_eq.
  - destruct (is_prefix sep EmptyString) eqn:Hp; [|discriminate].
    intros [= <- <-]. now rewrite (is_prefix_drop_length Hp) at 1.
  - destruct (is_prefix sep (String c s)) eqn:Hp.
    + intros [= <- <-]. now rewrite (is_prefix_drop_length Hp) at 1.
    + destruct (find_first sep s) as [[a b]|]; [|discriminate].
      intros [= <- <-]. cbn [String.length]. rewrite (IH a b eq_refl). lia.
Qed.

Lemma split_fuel_enough (sep : string) :
  sep <> EmptyString ->
  forall (fuel extra : nat) (s : string),
    (String.length s < fuel)%nat ->
    split_fuel (fuel + extra) sep s = split_fuel fuel sep s.
Proof.
  intros Hsep. induction fuel as [|fuel IH]; intros extra s Hlen; [lia|].
  cbn [Nat.add split_fuel].
  destruct (find_first sep s) as [[a b]|] eqn:Hcut; [|reflexivity].
  f_equal. apply IH. apply find_first_length in Hcut.
  destruct sep; [congruence|]. cbn [String.length] in Hcut. lia.
Qed.

End SplitFuel.
